(** * NT3H2111 NFC EEPROM driver: a shallow embedding of [nt3h2111.c]

    The driver talks to the chip through three collaborators that are not part
    of it: the I2C register transport ([managed_i2c.h]), the microsecond timer
    with the cooperative yield, and the allocator.  They are gathered in a
    platform record, so that every driver function can be run against a
    reference page store, against a transport that starts failing, and so on.

    Machine integers are [Z] with the wrap-around of the C type written out at
    the places where the C code converts: every function first converts its
    integer parameters to the types of its prototype, as a C call does. *)

From Stdlib Require Import ZArith List Bool Lia.
Import ListNotations.
Open Scope Z_scope.

(** ** Integer types *)

Definition u8  (x : Z) : Z := x mod 256.
Definition u16 (x : Z) : Z := x mod 65536.
Definition u32 (x : Z) : Z := x mod 4294967296.
Definition u64 (x : Z) : Z := x mod 18446744073709551616.
(** [size_t] is 32 bits wide on the ESP32. *)
Definition size_t (x : Z) : Z := u32 x.
(** A value brought into the range of a 32-bit [int]. *)
Definition s32 (x : Z) : Z := (x + 2147483648) mod 4294967296 - 2147483648.

(** ** Error codes ([esp_err.h]) *)

Definition esp_err_t := Z.
Definition ESP_OK : esp_err_t := 0.
Definition ESP_FAIL : esp_err_t := -1.
Definition ESP_ERR_NO_MEM : esp_err_t := 257.       (* 0x101 *)
Definition ESP_ERR_INVALID_ARG : esp_err_t := 258.  (* 0x102 *)
Definition ESP_ERR_NOT_FOUND : esp_err_t := 261.    (* 0x105 *)

(** ** Constants of [nt3h2111.h] *)

Definition NT3H2111_USERDATA_LEN : Z := 884.
Definition NT3H2111_SRAM_LEN : Z := 64.

Record NT3H2111 := mkDevice { i2c_bus : Z; i2c_address : Z }.

(** ** Buffers *)

(** [memcpy (dst + at, src, n)]: the first [n] bytes of [src] replace the bytes
    [at .. at+n) of [dst]. *)
Definition memcpy_into (dst : list Z) (at_ : Z) (src : list Z) (n : Z) : list Z :=
  firstn (Z.to_nat at_) dst ++ firstn (Z.to_nat n) src
    ++ skipn (Z.to_nat (at_ + n)) dst.

(** The [n] bytes found at [src + at]. *)
Definition bytes_from (src : list Z) (at_ n : Z) : list Z :=
  firstn (Z.to_nat n) (skipn (Z.to_nat at_) src).

(** The bytes [f start, f (start+1), ..., f (start+n-1)]. *)
Definition bytes_at (f : Z -> Z) (start : Z) (n : nat) : list Z :=
  map (fun i => f (start + Z.of_nat i)) (seq 0 n).

(** ** The platform and the world *)

(** What the bus saw.  Times are readings of the microsecond timer. *)
Inductive Event :=
| BusRead  (page : Z) (t_start t_end : Z)
| BusWrite (page : Z) (data : list Z) (t_start t_end : Z).

(** The collaborators.  [B] is the state of whatever sits on the bus.  Every
    call of the driver to the transport asks for exactly 16 bytes, so the
    length argument is left out.  A read yields the bytes the destination
    buffer holds afterwards.  [yield_us] is the time that passes across one
    [sched_yield], [xfer_us] the time one bus transaction takes.
    [int_shl_ub x k] is the [int] that [x << k] produces on the target when
    [k] is 32 or more, which C leaves undefined.  [malloc n] gives the initial
    content of the new block, or [None] for a null pointer. *)
Record Platform (B : Type) := mkPlatform {
  i2c_read_reg    : Z -> Z -> Z -> B -> esp_err_t * list Z * B;
  i2c_write_reg_n : Z -> Z -> Z -> list Z -> B -> esp_err_t * B;
  yield_us        : positive;
  xfer_us         : N;
  int_shl_ub      : Z -> Z -> Z;
  malloc          : Z -> option (list Z)
}.
Arguments i2c_read_reg {B}.
Arguments i2c_write_reg_n {B}.
Arguments yield_us {B}.
Arguments xfer_us {B}.
Arguments int_shl_ub {B}.
Arguments malloc {B}.

(** [last_write_time] is the file-level [static int64_t] of the driver. *)
Record World (B : Type) := mkWorld {
  chip            : B;
  clock           : Z;
  last_write_time : Z;
  trace           : list Event
}.
Arguments mkWorld {B}.
Arguments chip {B}.
Arguments clock {B}.
Arguments last_write_time {B}.
Arguments trace {B}.

(** ** A state monad over the world *)

Definition M (B A : Type) : Type := World B -> A * World B.

Definition ret {B A} (a : A) : M B A := fun w => (a, w).
Definition bind {B A C} (m : M B A) (k : A -> M B C) : M B C :=
  fun w => let (a, w') := m w in k a w'.

Declare Scope drv_scope.
Delimit Scope drv_scope with drv.
Notation "x <- m ;; k" := (bind m (fun x => k))
  (at level 61, m at next level, right associativity) : drv_scope.
Notation "' p <- m ;; k" := (bind m (fun x => let 'p := x in k))
  (at level 61, p pattern, m at next level, right associativity) : drv_scope.
Open Scope drv_scope.

Section Driver.

Context {B : Type}.
Variable P : Platform B.

(** ** The number read helper ([GEN_RW_UINT]) *)

(** [ptr[i] << k]: the byte is promoted to [int] and shifted as an [int]. *)
Definition int_shl (x k : Z) : Z :=
  if k <? 32 then s32 (Z.shiftl x k) else int_shl_ub P x k.

(** [for (i = 0; i < bits/8; i++) out |= ptr[i] << (i*8);] with [out] of the
    type whose wrap-around is [wrap]. *)
Fixpoint read_uint_loop (wrap : Z -> Z) (n : nat) (i : Z) (ptr : list Z) (out : Z) : Z :=
  match n with
  | O => out
  | S n' =>
      read_uint_loop wrap n' (i + 1) ptr
        (wrap (Z.lor out (int_shl (nth (Z.to_nat i) ptr 0) (i * 8))))
  end.

Definition read_uint (bits : Z) (wrap : Z -> Z) (ptr : list Z) : Z :=
  read_uint_loop wrap (Z.to_nat (bits / 8)) 0 ptr 0.

(** [GEN_RW_UINT(48, uint32_t)] *)
Definition read_uint48 (ptr : list Z) : Z := read_uint 48 u32 ptr.

(** ** Page transport *)

Definition esp_timer_get_time : M B Z := fun w => (clock w, w).

Definition sched_yield : M B unit := fun w =>
  (tt, mkWorld (chip w) (clock w + Z.pos (yield_us P)) (last_write_time w) (trace w)).

(** [while (last_write_time + 5000 > esp_timer_get_time ()) sched_yield ();] *)
Fixpoint wait_loop (fuel : nat) : M B unit :=
  match fuel with
  | O => ret tt
  | S fuel' =>
      now <- esp_timer_get_time ;;
      fun w =>
        if last_write_time w + 5000 >? now
        then (_ <- sched_yield ;; wait_loop fuel') w
        else (tt, w)
  end.

(** Each yield moves the clock by at least a microsecond, so the distance to
    the deadline is enough fuel; [wait_for_commit_eq] below is the equation of
    the loop. *)
Definition wait_for_commit : M B unit := fun w =>
  wait_loop (Z.to_nat (last_write_time w + 5000 - clock w)) w.

(** The reading of the timer when the wait is over. *)
Definition commit_time (w : World B) : Z := clock (snd (wait_for_commit w)).

Definition bus_read (device : NT3H2111) (page : Z) : M B (esp_err_t * list Z) := fun w =>
  let '(res, data, c) := i2c_read_reg P (i2c_bus device) (i2c_address device) page (chip w) in
  let t := clock w + Z.of_N (xfer_us P) in
  ((res, data), mkWorld c t (last_write_time w) (BusRead page (clock w) t :: trace w)).

Definition bus_write (device : NT3H2111) (page : Z) (data : list Z) : M B esp_err_t := fun w =>
  let '(res, c) := i2c_write_reg_n P (i2c_bus device) (i2c_address device) page data (chip w) in
  let t := clock w + Z.of_N (xfer_us P) in
  (res, mkWorld c t (last_write_time w) (BusWrite page data (clock w) t :: trace w)).

Definition set_last_write_time (t : Z) : M B unit := fun w =>
  (tt, mkWorld (chip w) (clock w) t (trace w)).

Definition nt3h2111_read_page (device : NT3H2111) (page : Z) : M B (esp_err_t * list Z) :=
  let page := u8 page in
  _ <- wait_for_commit ;;
  bus_read device page.

Definition nt3h2111_write_page (device : NT3H2111) (page : Z) (data : list Z) : M B esp_err_t :=
  let page := u8 page in
  _ <- wait_for_commit ;;
  now <- esp_timer_get_time ;;
  _ <- set_last_write_time now ;;
  bus_write device page (firstn 16 data).

(** ** Raw address translator *)

(** The state of the cursor between the three parts of a raw transfer: what
    is left to do ([len]), where ([offset]), and the bytes of the caller's
    buffer handled so far (read) or still to be sent (write). *)
Record Cursor := mkCursor { c_offset : Z; c_len : Z; c_data : list Z }.

(** A part of a transfer either returns from the function with an error or
    falls through with the new cursor. *)
Inductive Step := Return (res : esp_err_t) | Next (c : Cursor).

Definition read_head (device : NT3H2111) (c : Cursor) : M B Step :=
  let misalign := Z.land (c_offset c) 15 in
  if misalign =? 0 then ret (Next c)
  else
    let rlen := if 16 - misalign <? c_len c then 16 - misalign else c_len c in
    '(res, tmp) <- nt3h2111_read_page device (c_offset c / 16) ;;
    if negb (res =? 0) then ret (Return res)
    else ret (Next (mkCursor (u8 (c_offset c + rlen)) (u8 (c_len c - rlen))
                             (c_data c ++ bytes_from tmp misalign rlen))).

Fixpoint read_pages (fuel : nat) (device : NT3H2111) (c : Cursor) : M B Step :=
  match fuel with
  | O => ret (Next c)
  | S fuel' =>
      if c_len c >=? 16 then
        '(res, page) <- nt3h2111_read_page device (c_offset c / 16) ;;
        if negb (res =? 0) then ret (Return res)
        else read_pages fuel' device
               (mkCursor (u8 (c_offset c + 16)) (u8 (c_len c - 16)) (c_data c ++ page))
      else ret (Next c)
  end.

Definition read_tail (device : NT3H2111) (c : Cursor) : M B Step :=
  if c_len c =? 0 then ret (Next c)
  else
    '(res, tmp) <- nt3h2111_read_page device (c_offset c / 16) ;;
    if negb (res =? 0) then ret (Return res)
    else ret (Next (mkCursor (c_offset c) (c_len c) (c_data c ++ bytes_from tmp 0 (c_len c)))).

(** Sequencing of the parts, with the early [return res]. *)
Definition and_then (m : M B Step) (k : Cursor -> M B Step) : M B Step :=
  s <- m ;;
  match s with
  | Return res => ret (Return res)
  | Next c => k c
  end.

(** A [uint8_t len] is below 256, so 16 turns of the page loop exhaust it. *)
Definition page_loop_fuel : nat := 16.

(** The result is the return value and, when that is [ESP_OK], the bytes
    stored through [data].  After an error return the list is empty: the
    bytes that earlier parts of the transfer have already stored in the
    caller's buffer are not part of the result. *)
Definition nt3h2111_read_raw (device : NT3H2111) (offset len : Z) : M B (esp_err_t * list Z) :=
  let c := mkCursor (u8 offset) (u8 len) [] in
  s <- and_then (read_head device c) (fun c =>
       and_then (read_pages page_loop_fuel device c) (read_tail device)) ;;
  match s with
  | Return res => ret (res, [])
  | Next c => ret (ESP_OK, c_data c)
  end.

Definition write_head (device : NT3H2111) (c : Cursor) : M B Step :=
  let misalign := Z.land (c_offset c) 15 in
  if misalign =? 0 then ret (Next c)
  else
    let rlen := if 16 - misalign <? c_len c then 16 - misalign else c_len c in
    '(res, tmp) <- nt3h2111_read_page device (c_offset c / 16) ;;
    if negb (res =? 0) then ret (Return res)
    else
      res <- nt3h2111_write_page device (c_offset c / 16)
               (memcpy_into tmp misalign (c_data c) rlen) ;;
      if negb (res =? 0) then ret (Return res)
      else ret (Next (mkCursor (u8 (c_offset c + rlen)) (u8 (c_len c - rlen))
                               (skipn (Z.to_nat rlen) (c_data c)))).

Fixpoint write_pages (fuel : nat) (device : NT3H2111) (c : Cursor) : M B Step :=
  match fuel with
  | O => ret (Next c)
  | S fuel' =>
      if c_len c >=? 16 then
        res <- nt3h2111_write_page device (c_offset c / 16) (c_data c) ;;
        if negb (res =? 0) then ret (Return res)
        else write_pages fuel' device
               (mkCursor (u8 (c_offset c + 16)) (u8 (c_len c - 16)) (skipn 16 (c_data c)))
      else ret (Next c)
  end.

Definition write_tail (device : NT3H2111) (c : Cursor) : M B Step :=
  if c_len c =? 0 then ret (Next c)
  else
    '(res, tmp) <- nt3h2111_read_page device (c_offset c / 16) ;;
    if negb (res =? 0) then ret (Return res)
    else
      res <- nt3h2111_write_page device (c_offset c / 16)
               (memcpy_into tmp 0 (c_data c) (c_len c)) ;;
      if negb (res =? 0) then ret (Return res)
      else ret (Next c).

Definition nt3h2111_write_raw (device : NT3H2111) (offset len : Z) (data : list Z) : M B esp_err_t :=
  let c := mkCursor (u8 offset) (u8 len) data in
  s <- and_then (write_head device c) (fun c =>
       and_then (write_pages page_loop_fuel device c) (write_tail device)) ;;
  match s with
  | Return res => ret res
  | Next _ => ret ESP_OK
  end.

(** ** Logical memory map *)

Definition nt3h2111_read_user (device : NT3H2111) (offset len : Z) : M B (esp_err_t * list Z) :=
  let offset := u16 offset in
  let len := u8 len in
  if len =? 0 then ret (ESP_OK, [])
  else if offset + len >? NT3H2111_USERDATA_LEN then ret (ESP_ERR_INVALID_ARG, [])
  else nt3h2111_read_raw device (16 + offset) len.

Definition nt3h2111_write_user (device : NT3H2111) (offset len : Z) (data : list Z) : M B esp_err_t :=
  let offset := u16 offset in
  let len := u8 len in
  if len =? 0 then ret ESP_OK
  else if offset + len >? NT3H2111_USERDATA_LEN then ret ESP_ERR_INVALID_ARG
  else nt3h2111_write_raw device (16 + offset) len data.

Definition nt3h2111_read_sram (device : NT3H2111) (offset len : Z) : M B (esp_err_t * list Z) :=
  let offset := u8 offset in
  let len := u8 len in
  if len =? 0 then ret (ESP_OK, [])
  else if offset + len >? NT3H2111_SRAM_LEN then ret (ESP_ERR_INVALID_ARG, [])
  else nt3h2111_read_raw device (248 * 16 + offset) len.

Definition nt3h2111_write_sram (device : NT3H2111) (offset len : Z) (data : list Z) : M B esp_err_t :=
  let offset := u8 offset in
  let len := u8 len in
  if len =? 0 then ret ESP_OK
  else if offset + len >? NT3H2111_SRAM_LEN then ret ESP_ERR_INVALID_ARG
  else nt3h2111_write_raw device (248 * 16 + offset) len data.

(** ** Device fields *)

(** The second component is the value stored through [serial], if any. *)
Definition nt3h2111_get_serial (device : NT3H2111) : M B (esp_err_t * option Z) :=
  '(res, tmp) <- nt3h2111_read_raw device 1 6 ;;
  if res =? 0 then ret (res, Some (u64 (read_uint48 tmp)))
  else ret (res, None).

(** ** NDEF codec *)

(** The second component is what is stored through [len] and [data].  The
    return value of the page read is dropped, as in the source; the bytes the
    block held when it was allocated stay where the read stores nothing. *)
Definition nt3h2111_get_ndef (device : NT3H2111) : M B (esp_err_t * option (Z * list Z)) :=
  '(_, tmp) <- nt3h2111_read_page device 1 ;;
  if negb (nth 0 tmp 0 =? 3) then ret (ESP_ERR_NOT_FOUND, None)
  else
    let '(ndef_len, offset) :=
      if nth 1 tmp 0 =? 255
      then (size_t (Z.lor (Z.shiftl (nth 2 tmp 0) 8) (nth 3 tmp 0)), 4)
      else (size_t (nth 1 tmp 0), 2) in
    match malloc P ndef_len with
    | None => ret (ESP_ERR_NO_MEM, None)
    | Some buf =>
        '(res, got) <- nt3h2111_read_user device offset ndef_len ;;
        if negb (res =? 0) then ret (res, None)
        else ret (ESP_OK, Some (ndef_len, got ++ skipn (length got) buf))
    end.

(** The payload and the terminator, after the header went out: the result of
    the payload write is assigned to [res] and not looked at again. *)
Definition set_ndef_body (device : NT3H2111) (offset len : Z) (tmp data : list Z) : M B esp_err_t :=
  res <- nt3h2111_write_user device offset len data ;;
  _ <- nt3h2111_write_user device (offset + len) 1 (memcpy_into tmp 0 [254] 1) ;;
  ret ESP_OK.

Definition nt3h2111_set_ndef (device : NT3H2111) (len : Z) (data : list Z) : M B esp_err_t :=
  let len := size_t len in
  if len >=? NT3H2111_USERDATA_LEN - 4 then ret ESP_ERR_NO_MEM
  else if len >=? 255 then
    let tmp := [3; 255; u8 (Z.shiftr len 8); u8 len] in
    res <- nt3h2111_write_user device 0 4 tmp ;;
    if negb (res =? 0) then ret res
    else set_ndef_body device 4 len tmp data
  else
    let tmp := [3; u8 len; 0; 0] in
    res <- nt3h2111_write_user device 0 2 tmp ;;
    if negb (res =? 0) then ret res
    else set_ndef_body device 2 len tmp data.

End Driver.

Arguments nt3h2111_read_page {B} P device page w.
Arguments nt3h2111_write_page {B} P device page data w.
Arguments nt3h2111_read_raw {B} P device offset len w.
Arguments nt3h2111_write_raw {B} P device offset len data w.
Arguments nt3h2111_read_user {B} P device offset len w.
Arguments nt3h2111_write_user {B} P device offset len data w.
Arguments nt3h2111_read_sram {B} P device offset len w.
Arguments nt3h2111_write_sram {B} P device offset len data w.
Arguments nt3h2111_get_serial {B} P device w.
Arguments nt3h2111_get_ndef {B} P device w.
Arguments nt3h2111_set_ndef {B} P device len data w.

(** ** The reference page store

    The chip as the transport sees it: 256 pages of 16 bytes, the register
    number being the page index; byte [a] of the raw address space is byte
    [a mod 16] of page [a / 16].  Every transaction succeeds. *)

Definition PageStore := Z -> Z.

Definition store_read (reg : Z) (m : PageStore) : list Z := bytes_at m (16 * reg) 16.

Definition store_write (reg : Z) (data : list Z) (m : PageStore) : PageStore :=
  fun a => if a / 16 =? reg then nth (Z.to_nat (a mod 16)) data 0 else m a.

Definition reference (yield : positive) (xfer : N) (shl : Z -> Z -> Z)
    (alloc : Z -> option (list Z)) : Platform PageStore :=
  {| i2c_read_reg    := fun _ _ reg m => (ESP_OK, store_read reg m, m);
     i2c_write_reg_n := fun _ _ reg data m => (ESP_OK, store_write reg data m);
     yield_us        := yield;
     xfer_us         := xfer;
     int_shl_ub      := shl;
     malloc          := alloc |}.

(** ** A transport that gives up

    The page store behind a transport that completes [budget] transactions and
    fails every later one with [ESP_FAIL]; a failed read leaves [stale] in the
    destination buffer. *)

Record Flaky := mkFlaky { fl_store : PageStore; fl_budget : nat }.

Definition flaky (stale : list Z) (yield : positive) (xfer : N) (shl : Z -> Z -> Z)
    (alloc : Z -> option (list Z)) : Platform Flaky :=
  {| i2c_read_reg    := fun _ _ reg s =>
       match fl_budget s with
       | O => (ESP_FAIL, stale, s)
       | S n => (ESP_OK, store_read reg (fl_store s), mkFlaky (fl_store s) n)
       end;
     i2c_write_reg_n := fun _ _ reg data s =>
       match fl_budget s with
       | O => (ESP_FAIL, s)
       | S n => (ESP_OK, mkFlaky (store_write reg data (fl_store s)) n)
       end;
     yield_us        := yield;
     xfer_us         := xfer;
     int_shl_ub      := shl;
     malloc          := alloc |}.

(** A world at power-up: nothing written yet, nothing on the bus yet. *)
Definition boot {B} (c : B) (t : Z) : World B := mkWorld c t 0 [].

(** ** Concrete collaborators

    A bench set-up to run the driver on: a yield takes a microsecond, a bus
    transaction 400 microseconds (eighteen bytes on a 400 kHz bus), an
    oversized shift yields 0 and the allocator hands out zeroed blocks. *)

Definition demo_device : NT3H2111 := mkDevice 0 85.

Definition zeroed (n : Z) : option (list Z) := Some (repeat 0 (Z.to_nat n)).

Definition bench : Platform PageStore :=
  reference 1%positive 400%N (fun _ _ => 0) zeroed.

Definition flaky_bench : Platform Flaky :=
  flaky (repeat 0 16) 1%positive 400%N (fun _ _ => 0) zeroed.

(** An erased chip, and a chip each byte of which holds the index of its page. *)
Definition blank : PageStore := fun _ => 0.
Definition page_tags : PageStore := fun a => a / 16.

(** A chip whose serial number has its fifth byte set: the six bytes at raw
    offsets 1..6 are 0, 0, 0, 0, 1, 0. *)
Definition serial_2_32 : PageStore := fun a => if a =? 5 then 1 else 0.

(** ** Parts of the encoder

    The header write the encoder issues for a payload of [len] bytes, and the
    user offset at which it then puts the payload. *)
Definition header_write {B} (P : Platform B) (device : NT3H2111) (len : Z) : M B esp_err_t :=
  if size_t len >=? 255
  then nt3h2111_write_user P device 0 4
         [3; 255; u8 (Z.shiftr (size_t len) 8); u8 (size_t len)]
  else nt3h2111_write_user P device 0 2 [3; u8 (size_t len); 0; 0].

Definition payload_offset (len : Z) : Z := if size_t len >=? 255 then 4 else 2.

(** ** The specification, in its own words *)

(** Write-commit interlock, as the specification states it: where two page
    writes follow each other on the bus, the second starts no earlier than
    5000 microseconds after the first completed. *)
Definition starts_after_completion (events : list Event) : Prop :=
  forall p2 d2 s2 e2 p1 d1 s1 e1 rest,
    events = BusWrite p2 d2 s2 e2 :: BusWrite p1 d1 s1 e1 :: rest ->
    e1 + 5000 <= s2.

(** The 48-bit little-endian number the specification reads off six bytes. *)
Definition le48 (b : list Z) : Z :=
  nth 0 b 0 + nth 1 b 0 * 2^8 + nth 2 b 0 * 2^16 + nth 3 b 0 * 2^24
  + nth 4 b 0 * 2^32 + nth 5 b 0 * 2^40.

(** ** What the translator does on the page store

    The offset of the translator is a [uint8_t]: the cursor runs over the raw
    addresses modulo 256, so byte [i] of a transfer that starts at [offset] is
    the byte at [u8 (offset + i)]. *)

Definition wrapped (m : PageStore) : PageStore := fun a => m (u8 a).

(** The raw address [a] is one of the [n] addresses from [offset] on that the
    cursor visits. *)
Definition in_window (offset n a : Z) : bool :=
  (0 <=? a) && (a <? 256) && ((a - offset) mod 256 <? n).

(** [m'] is [m] with the first [n] bytes of [data] laid down from [offset] on. *)
Definition laid_down (m m' : PageStore) (offset n : Z) (data : list Z) : Prop :=
  forall a, m' a = if in_window offset n a
                   then nth (Z.to_nat ((a - offset) mod 256)) data 0
                   else m a.

(** A read has moved cursor [c] to [c'] over store [m]. *)
Definition read_advance (m : PageStore) (c c' : Cursor) : Prop :=
  exists k, 0 <= k <= c_len c /\
    c_offset c' = u8 (c_offset c + k) /\
    c_len c' = c_len c - k /\
    c_data c' = c_data c ++ bytes_at (wrapped m) (c_offset c) (Z.to_nat k).

(** A write has moved cursor [c] to [c'] and store [m] to [m']. *)
Definition write_advance (m m' : PageStore) (c c' : Cursor) : Prop :=
  exists k, 0 <= k <= c_len c /\
    c_offset c' = u8 (c_offset c + k) /\
    c_len c' = c_len c - k /\
    c_data c' = skipn (Z.to_nat k) (c_data c) /\
    laid_down m m' (c_offset c) k (c_data c).

(** Between the parts of a transfer the cursor is done or on a page boundary. *)
Definition settled (c : Cursor) : Prop :=
  0 <= c_offset c < 256 /\ 0 <= c_len c < 256 /\
  (c_len c = 0 \/ c_offset c mod 16 = 0).

(** ** The rest of the driver *)

(** [nt3h2111_init] fills the handle in; the result is the return value and
    the handle.  [nt3h2111_destroy] has nothing to do. *)
Definition nt3h2111_init (i2c_bus i2c_address : Z) : esp_err_t * NT3H2111 :=
  (ESP_OK, mkDevice (s32 i2c_bus) (s32 i2c_address)).

Definition nt3h2111_destroy (device : NT3H2111) : esp_err_t := ESP_OK.

(** [for (i = 0; i < bits/8; i++) ptr[i] = in >> (i*8);] the bytes stored
    through [ptr].  The driver uses the writer at 32 bits only, where [in] is
    a [uint32_t] and every shift count is below its width. *)
Fixpoint write_uint_loop (n : nat) (i : Z) (x : Z) : list Z :=
  match n with
  | O => []
  | S n' => u8 (Z.shiftr x (i * 8)) :: write_uint_loop n' (i + 1) x
  end.

(** [GEN_RW_UINT(32, uint32_t)] *)
Definition write_uint32 (x : Z) : list Z := write_uint_loop (Z.to_nat (32 / 8)) 0 (u32 x).

Section DriverFields.

Context {B : Type}.
Variable P : Platform B.

Definition read_uint32 (ptr : list Z) : Z := read_uint P 32 u32 ptr.

(** The second component is the value stored through [cc], if any. *)
Definition nt3h2111_get_cc (device : NT3H2111) : M B (esp_err_t * option Z) :=
  '(res, tmp) <- nt3h2111_read_raw P device 12 4 ;;
  if res =? 0 then ret (res, Some (u32 (read_uint32 tmp)))
  else ret (res, None).

Definition nt3h2111_set_cc (device : NT3H2111) (cc : Z) : M B esp_err_t :=
  nt3h2111_write_raw P device 12 4 (write_uint32 cc).

End DriverFields.

(** ** Reading the bus trace *)

Definition is_bus_read (e : Event) : bool :=
  match e with BusRead _ _ _ => true | BusWrite _ _ _ _ => false end.

Definition bus_reads (es : list Event) : nat := length (filter is_bus_read es).
Definition bus_writes (es : list Event) : nat :=
  length (filter (fun e => negb (is_bus_read e)) es).

(** Between [w] and [w'] the bus saw at most [r] page reads and at most [wr]
    page writes, and nothing was taken from the trace. *)
Definition bus_run {B} (w w' : World B) (r wr : Z) : Prop :=
  exists es, trace w' = es ++ trace w /\
    Z.of_nat (bus_reads es) <= r /\ Z.of_nat (bus_writes es) <= wr.

(** The 32-bit little-endian number of four bytes. *)
Definition le32 (b : list Z) : Z :=
  nth 0 b 0 + nth 1 b 0 * 2^8 + nth 2 b 0 * 2^16 + nth 3 b 0 * 2^24.

(** Every byte of the store is a byte. *)
Definition bytes_only (m : PageStore) : Prop := forall a, 0 <= m a < 256.

(** ** Where a transfer begins *)

Definition event_page (e : Event) : Z :=
  match e with BusRead page _ _ => page | BusWrite page _ _ _ => page end.

(** The trace grows at its head, so the first transaction after [w] is the
    event next to the trace of [w]: on the way from [w] to [w'] the bus is
    used, and first for [page]. *)
Definition first_transfer_on {B} (w w' : World B) (page : Z) : Prop :=
  exists es e, trace w' = es ++ e :: trace w /\ event_page e = page.

(** * Properties *)

(** ** Integer conversions *)

Lemma u8_range x : 0 <= u8 x < 256.
Proof. unfold u8. apply Z.mod_pos_bound. lia. Qed.

Lemma u8_small x : 0 <= x < 256 -> u8 x = x.
Proof. intros H. unfold u8. apply Z.mod_small. exact H. Qed.

Lemma u8_idem x : u8 (u8 x) = u8 x.
Proof. apply u8_small, u8_range. Qed.

Lemma u8_add_l x y : u8 (u8 x + y) = u8 (x + y).
Proof. unfold u8. apply Z.add_mod_idemp_l. lia. Qed.

Lemma u16_small x : 0 <= x < 65536 -> u16 x = x.
Proof. intros H. unfold u16. apply Z.mod_small. exact H. Qed.

Lemma land_15 x : Z.land x 15 = x mod 16.
Proof. change 15 with (Z.ones 4). rewrite Z.land_ones by lia. reflexivity. Qed.

(** ** The monad *)

Lemma bind_eq {B A C} (m : M B A) (k : A -> M B C) w :
  bind m k w = k (fst (m w)) (snd (m w)).
Proof. unfold bind. destruct (m w); reflexivity. Qed.

(** ** Page transport *)

Section Transport.

Context {B : Type}.
Variable P : Platform B.

Lemma wait_loop_step fuel w :
  wait_loop P (S fuel) w =
  if last_write_time w + 5000 >? clock w
  then wait_loop P fuel (snd (sched_yield P w))
  else (tt, w).
Proof.
  cbn [wait_loop]. unfold bind, esp_timer_get_time.
  destruct (last_write_time w + 5000 >? clock w); reflexivity.
Qed.

(** The wait changes nothing but the clock, which it never turns back. *)
Lemma wait_loop_frame fuel : forall w,
  exists t, clock w <= t /\
    wait_loop P fuel w = (tt, mkWorld (chip w) t (last_write_time w) (trace w)).
Proof.
  induction fuel as [|fuel IH]; intros w.
  - exists (clock w). split; [lia|]. destruct w; reflexivity.
  - rewrite wait_loop_step.
    destruct (last_write_time w + 5000 >? clock w).
    + destruct (IH (snd (sched_yield P w))) as (t & Ht & E).
      cbn in Ht, E. exists t. split; [lia | exact E].
    + exists (clock w). split; [lia|]. destruct w; reflexivity.
Qed.

(** With the distance to the deadline as fuel the loop leaves through its
    condition, not for lack of fuel. *)
Lemma wait_loop_done fuel : forall w,
  last_write_time w + 5000 - clock w <= Z.of_nat fuel ->
  last_write_time (snd (wait_loop P fuel w)) + 5000 <= clock (snd (wait_loop P fuel w)).
Proof.
  induction fuel as [|fuel IH]; intros w H.
  - cbn. lia.
  - rewrite wait_loop_step.
    destruct (last_write_time w + 5000 >? clock w) eqn:E.
    + apply IH. cbn. lia.
    + cbn. rewrite Z.gtb_ltb in E. apply Z.ltb_ge in E. lia.
Qed.

Lemma wait_loop_enough n : forall m w,
  last_write_time w + 5000 - clock w <= Z.of_nat n ->
  last_write_time w + 5000 - clock w <= Z.of_nat m ->
  wait_loop P n w = wait_loop P m w.
Proof.
  induction n as [|n IH]; intros m w Hn Hm.
  - destruct m as [|m]; [reflexivity|].
    rewrite wait_loop_step.
    destruct (last_write_time w + 5000 >? clock w) eqn:E; [|reflexivity].
    apply Z.gtb_gt in E. cbn in Hn. lia.
  - destruct m as [|m].
    + rewrite wait_loop_step.
      destruct (last_write_time w + 5000 >? clock w) eqn:E; [|reflexivity].
      apply Z.gtb_gt in E. cbn in Hm. lia.
    + rewrite !wait_loop_step.
      destruct (last_write_time w + 5000 >? clock w) eqn:E; [|reflexivity].
      apply IH; cbn; lia.
Qed.

(** The equation of the [while] loop of the source. *)
Lemma wait_for_commit_eq w :
  wait_for_commit P w =
  if last_write_time w + 5000 >? clock w
  then wait_for_commit P (snd (sched_yield P w))
  else (tt, w).
Proof.
  unfold wait_for_commit.
  destruct (last_write_time w + 5000 >? clock w) eqn:E.
  - apply Z.gtb_gt in E.
    destruct (Z.to_nat (last_write_time w + 5000 - clock w)) as [|n] eqn:F; [lia|].
    rewrite wait_loop_step.
    replace (last_write_time w + 5000 >? clock w) with true
      by (symmetry; apply Z.gtb_gt; exact E).
    apply wait_loop_enough; cbn; lia.
  - rewrite Z.gtb_ltb in E. apply Z.ltb_ge in E.
    replace (Z.to_nat (last_write_time w + 5000 - clock w)) with O by lia.
    reflexivity.
Qed.

Lemma wait_for_commit_world w :
  wait_for_commit P w = (tt, mkWorld (chip w) (commit_time P w) (last_write_time w) (trace w)).
Proof.
  unfold commit_time, wait_for_commit.
  destruct (wait_loop_frame (Z.to_nat (last_write_time w + 5000 - clock w)) w)
    as (t & _ & E).
  rewrite E. reflexivity.
Qed.

Lemma commit_time_clock w : clock w <= commit_time P w.
Proof.
  unfold commit_time, wait_for_commit.
  destruct (wait_loop_frame (Z.to_nat (last_write_time w + 5000 - clock w)) w)
    as (t & Ht & E).
  rewrite E. exact Ht.
Qed.

Lemma commit_time_deadline w : last_write_time w + 5000 <= commit_time P w.
Proof.
  unfold commit_time, wait_for_commit.
  pose proof (wait_loop_done (Z.to_nat (last_write_time w + 5000 - clock w)) w) as H.
  destruct (wait_loop_frame (Z.to_nat (last_write_time w + 5000 - clock w)) w)
    as (t & _ & E).
  rewrite E in *. cbn in *. apply H. lia.
Qed.

(** One page read is the wait and then one bus read. *)
Lemma read_page_eq device page w :
  nt3h2111_read_page P device page w =
  let r := i2c_read_reg P (i2c_bus device) (i2c_address device) (u8 page) (chip w) in
  (fst r,
   mkWorld (snd r) (commit_time P w + Z.of_N (xfer_us P)) (last_write_time w)
     (BusRead (u8 page) (commit_time P w) (commit_time P w + Z.of_N (xfer_us P)) :: trace w)).
Proof.
  unfold nt3h2111_read_page. rewrite bind_eq, wait_for_commit_world.
  unfold bus_read. cbn.
  destruct (i2c_read_reg P _ _ _ _) as [[res data] c]. reflexivity.
Qed.

(** One page write is the wait, the time stamp, and then one bus write. *)
Lemma write_page_eq device page data w :
  nt3h2111_write_page P device page data w =
  let r := i2c_write_reg_n P (i2c_bus device) (i2c_address device) (u8 page)
             (firstn 16 data) (chip w) in
  (fst r,
   mkWorld (snd r) (commit_time P w + Z.of_N (xfer_us P)) (commit_time P w)
     (BusWrite (u8 page) (firstn 16 data) (commit_time P w)
        (commit_time P w + Z.of_N (xfer_us P)) :: trace w)).
Proof.
  unfold nt3h2111_write_page. rewrite bind_eq, wait_for_commit_world.
  unfold bind, esp_timer_get_time, set_last_write_time, bus_write. cbn.
  destruct (i2c_write_reg_n P _ _ _ _ _) as [res c]. reflexivity.
Qed.

End Transport.

(** ** Logical memory map *)

Section MemoryMap.

Context {B : Type}.
Variable P : Platform B.
Variable device : NT3H2111.

Lemma nonzero_len len : 0 < len < 256 -> (u8 len =? 0) = false.
Proof. intros H. rewrite u8_small by lia. apply Z.eqb_neq. lia. Qed.

Lemma read_user_forwards offset len w :
  0 <= offset -> 0 < len < 256 -> offset + len <= 884 ->
  nt3h2111_read_user P device offset len w = nt3h2111_read_raw P device (16 + offset) len w.
Proof.
  intros Ho Hl Hb. unfold nt3h2111_read_user, NT3H2111_USERDATA_LEN.
  rewrite (nonzero_len len Hl), (u16_small offset), (u8_small len) by lia.
  replace (offset + len >? 884) with false
    by (symmetry; rewrite Z.gtb_ltb; apply Z.ltb_ge; lia).
  reflexivity.
Qed.

Lemma write_user_forwards offset len data w :
  0 <= offset -> 0 < len < 256 -> offset + len <= 884 ->
  nt3h2111_write_user P device offset len data w
  = nt3h2111_write_raw P device (16 + offset) len data w.
Proof.
  intros Ho Hl Hb. unfold nt3h2111_write_user, NT3H2111_USERDATA_LEN.
  rewrite (nonzero_len len Hl), (u16_small offset), (u8_small len) by lia.
  replace (offset + len >? 884) with false
    by (symmetry; rewrite Z.gtb_ltb; apply Z.ltb_ge; lia).
  reflexivity.
Qed.

(** The bounds check of the region functions.  A user-data access of nonzero
    length that ends beyond byte 884, and an SRAM access of nonzero length
    that ends beyond byte 64, return [ESP_ERR_INVALID_ARG] and leave the world
    as it was: no bus transaction, not even the wait.  Any other access of
    nonzero length is the call of the raw translator with the argument
    [16 + offset], respectively [248*16 + offset].  That is the argument as
    written at the call, not the offset the translator works on: its
    parameter is a [uint8_t], so it starts from the argument modulo 256
    ([raw_offset_is_8_bit]); where the transfer then goes is settled at the
    end of the file, from the bus trace. *)
Theorem region_bounds_then_forward (offset len : Z) (data : list Z) (w : World B) :
  0 < len < 256 ->
  (0 <= offset < 65536 ->
     (offset + len > 884 ->
        nt3h2111_read_user P device offset len w = ((ESP_ERR_INVALID_ARG, []), w) /\
        nt3h2111_write_user P device offset len data w = (ESP_ERR_INVALID_ARG, w)) /\
     (offset + len <= 884 ->
        nt3h2111_read_user P device offset len w =
          nt3h2111_read_raw P device (16 + offset) len w /\
        nt3h2111_write_user P device offset len data w =
          nt3h2111_write_raw P device (16 + offset) len data w)) /\
  (0 <= offset < 256 ->
     (offset + len > 64 ->
        nt3h2111_read_sram P device offset len w = ((ESP_ERR_INVALID_ARG, []), w) /\
        nt3h2111_write_sram P device offset len data w = (ESP_ERR_INVALID_ARG, w)) /\
     (offset + len <= 64 ->
        nt3h2111_read_sram P device offset len w =
          nt3h2111_read_raw P device (3968 + offset) len w /\
        nt3h2111_write_sram P device offset len data w =
          nt3h2111_write_raw P device (3968 + offset) len data w)).
Proof.
  intros Hlen.
  pose proof (nonzero_len len Hlen) as Hz.
  split; intros Hoff.
  - split; intros Hb.
    + unfold nt3h2111_read_user, nt3h2111_write_user, NT3H2111_USERDATA_LEN.
      rewrite Hz, (u16_small offset), (u8_small len) by lia.
      replace (offset + len >? 884) with true by (symmetry; apply Z.gtb_gt; lia).
      split; reflexivity.
    + split; [apply read_user_forwards | apply write_user_forwards]; lia.
  - unfold nt3h2111_read_sram, nt3h2111_write_sram, NT3H2111_SRAM_LEN.
    rewrite Hz, (u8_small offset), (u8_small len) by lia.
    split; intros Hb.
    + replace (offset + len >? 64) with true by (symmetry; apply Z.gtb_gt; lia).
      split; reflexivity.
    + replace (offset + len >? 64) with false
        by (symmetry; rewrite Z.gtb_ltb; apply Z.ltb_ge; lia).
      split; reflexivity.
Qed.

(** C10.  A zero-length region access returns [ESP_OK] before the bounds
    check, whatever the offset, and leaves the world as it was; with an offset
    at or beyond the end of the region every nonzero length is rejected. *)
Theorem zero_length_skips_bounds_check (offset len : Z) (data : list Z) (w : World B) :
  (nt3h2111_read_user P device offset 0 w = ((ESP_OK, []), w) /\
   nt3h2111_write_user P device offset 0 data w = (ESP_OK, w) /\
   nt3h2111_read_sram P device offset 0 w = ((ESP_OK, []), w) /\
   nt3h2111_write_sram P device offset 0 data w = (ESP_OK, w)) /\
  (0 < len < 256 ->
     (884 <= offset < 65536 ->
        nt3h2111_read_user P device offset len w = ((ESP_ERR_INVALID_ARG, []), w) /\
        nt3h2111_write_user P device offset len data w = (ESP_ERR_INVALID_ARG, w)) /\
     (64 <= offset < 256 ->
        nt3h2111_read_sram P device offset len w = ((ESP_ERR_INVALID_ARG, []), w) /\
        nt3h2111_write_sram P device offset len data w = (ESP_ERR_INVALID_ARG, w))).
Proof.
  split.
  - repeat split; reflexivity.
  - intros Hlen.
    assert (Hz : (u8 len =? 0) = false)
      by (rewrite u8_small by lia; apply Z.eqb_neq; lia).
    split; intros Hoff.
    + unfold nt3h2111_read_user, nt3h2111_write_user, NT3H2111_USERDATA_LEN.
      rewrite Hz, (u16_small offset), (u8_small len) by lia.
      replace (offset + len >? 884) with true by (symmetry; apply Z.gtb_gt; lia).
      split; reflexivity.
    + unfold nt3h2111_read_sram, nt3h2111_write_sram, NT3H2111_SRAM_LEN.
      rewrite Hz, (u8_small offset), (u8_small len) by lia.
      replace (offset + len >? 64) with true by (symmetry; apply Z.gtb_gt; lia).
      split; reflexivity.
Qed.

End MemoryMap.

Lemma region_bounds_then_forward_witness :
  nt3h2111_write_user bench demo_device 880 10 (repeat 170 10) (boot blank 0)
  = (ESP_ERR_INVALID_ARG, boot blank 0).
Proof.
  destruct (region_bounds_then_forward bench demo_device 880 10 (repeat 170 10) (boot blank 0))
    as [[H _] _]; [lia | lia |].
  apply H. lia.
Defined.

Lemma zero_length_skips_bounds_check_witness :
  nt3h2111_read_user bench demo_device 2000 0 (boot blank 0) = ((ESP_OK, []), boot blank 0) /\
  nt3h2111_read_user bench demo_device 2000 1 (boot blank 0)
  = ((ESP_ERR_INVALID_ARG, []), boot blank 0).
Proof.
  destruct (zero_length_skips_bounds_check bench demo_device 2000 1 [] (boot blank 0))
    as [[H0 _] H1].
  split; [exact H0|].
  destruct H1 as [H1 _]; [lia|].
  apply H1. lia.
Defined.

(** ** Raw address translator: the parts that have nothing to do *)

Section RawIdle.

Context {B : Type}.
Variable P : Platform B.
Variable device : NT3H2111.

Lemma read_pages_short fuel c w :
  c_len c < 16 -> read_pages P fuel device c w = (Next c, w).
Proof.
  intros H. destruct fuel; [reflexivity|]. cbn [read_pages].
  replace (c_len c >=? 16) with false; [reflexivity|].
  symmetry. rewrite Z.geb_leb. apply Z.leb_gt. exact H.
Qed.

Lemma write_pages_short fuel c w :
  c_len c < 16 -> write_pages P fuel device c w = (Next c, w).
Proof.
  intros H. destruct fuel; [reflexivity|]. cbn [write_pages].
  replace (c_len c >=? 16) with false; [reflexivity|].
  symmetry. rewrite Z.geb_leb. apply Z.leb_gt. exact H.
Qed.

Lemma read_tail_zero c w : c_len c = 0 -> read_tail P device c w = (Next c, w).
Proof. intros H. unfold read_tail. rewrite H. reflexivity. Qed.

Lemma write_tail_zero c w : c_len c = 0 -> write_tail P device c w = (Next c, w).
Proof. intros H. unfold write_tail. rewrite H. reflexivity. Qed.

Lemma page_of_offset x : u8 (u8 x / 16) = u8 x / 16.
Proof.
  apply u8_small. pose proof (u8_range x).
  split; [apply Z.div_pos; lia | apply Z.div_lt_upper_bound; lia].
Qed.

(** C3, on the code.  A raw transfer of length zero at an offset that is not
    a multiple of 16 goes through the head branch: the read puts one page read
    on the bus, and the write, once that page read has succeeded, a page write
    on top of it. *)
Theorem zero_length_raw_uses_bus (offset : Z) (data : list Z) (w : World B) :
  u8 offset mod 16 <> 0 ->
  let page := u8 offset / 16 in
  let t := commit_time P w in
  let dt := Z.of_N (xfer_us P) in
  trace (snd (nt3h2111_read_raw P device offset 0 w)) = BusRead page t (t + dt) :: trace w /\
  exists es,
    trace (snd (nt3h2111_write_raw P device offset 0 data w))
      = es ++ BusRead page t (t + dt) :: trace w /\
    (fst (fst (i2c_read_reg P (i2c_bus device) (i2c_address device) page (chip w))) = ESP_OK ->
     exists d t', es = [BusWrite page d t' (t' + dt)]).
Proof.
  intros Hm page t dt. subst page t dt.
  assert (Hmis : (Z.land (u8 offset) 15 =? 0) = false)
    by (rewrite land_15; apply Z.eqb_neq; exact Hm).
  assert (Hr : (if 16 - Z.land (u8 offset) 15 <? 0 then 16 - Z.land (u8 offset) 15 else 0) = 0).
  { rewrite land_15. pose proof (Z.mod_pos_bound (u8 offset) 16).
    replace (16 - u8 offset mod 16 <? 0) with false; [reflexivity|].
    symmetry. apply Z.ltb_ge. lia. }
  split.
  - unfold nt3h2111_read_raw, and_then. rewrite !bind_eq.
    unfold read_head. cbn [c_offset c_len c_data].
    rewrite Hmis. change (u8 0) with 0. rewrite Hr.
    rewrite bind_eq, read_page_eq, (page_of_offset offset). cbn zeta.
    destruct (i2c_read_reg P _ _ _ (chip w)) as [[res tmp] c]. cbn [fst snd].
    destruct (res =? 0); cbn [negb]; unfold ret; cbn [fst snd trace]; [|reflexivity].
    rewrite bind_eq, read_pages_short by (cbn; lia). cbn [fst snd].
    rewrite read_tail_zero by reflexivity. reflexivity.
  - unfold nt3h2111_write_raw, and_then. rewrite !bind_eq.
    unfold write_head. cbn [c_offset c_len c_data].
    rewrite Hmis. change (u8 0) with 0. rewrite Hr.
    rewrite bind_eq, read_page_eq, (page_of_offset offset). cbn zeta.
    destruct (i2c_read_reg P _ _ _ (chip w)) as [[res tmp] c]. cbn [fst snd].
    destruct (res =? 0) eqn:E; cbn [negb].
    + rewrite bind_eq, write_page_eq, (page_of_offset offset). cbn zeta. cbn [chip].
      destruct (i2c_write_reg_n P _ _ _ _ c) as [res' c']. cbn [fst snd].
      eexists [_]. split.
      * destruct (res' =? 0); cbn [negb]; unfold ret; cbn [fst snd trace].
        -- rewrite bind_eq, write_pages_short by (cbn; lia). cbn [fst snd].
           rewrite write_tail_zero by reflexivity. reflexivity.
        -- reflexivity.
      * intros _. eexists _, _. reflexivity.
    + exists []. split.
      * unfold ret; reflexivity.
      * intros H. apply Z.eqb_neq in E. unfold ESP_OK in H. contradiction.
Qed.

End RawIdle.

Lemma zero_length_raw_uses_bus_witness :
  trace (snd (nt3h2111_read_raw bench demo_device 1 0 (boot blank 0)))
  = [BusRead 0 5000 5400] /\
  exists es,
    trace (snd (nt3h2111_write_raw bench demo_device 1 0 [] (boot blank 0)))
      = es ++ [BusRead 0 5000 5400] /\
    exists d t', es = [BusWrite 0 d t' (t' + 400)].
Proof.
  destruct (zero_length_raw_uses_bus bench demo_device 1 [] (boot blank 0))
    as [Hr (es & Hw & He)].
  - vm_compute. discriminate.
  - split; [exact Hr|].
    exists es. split; [exact Hw|]. apply He. reflexivity.
Defined.

(** ** Write-commit interlock *)

Section Interlock.

Context {B : Type}.
Variable P : Platform B.
Variable device : NT3H2111.

(** C9, as the code has it.  [nt3h2111_write_page] takes the time stamp first
    and issues the bus write after it, so the stamp is the time the bus write
    starts.  Of two page writes in a row the second therefore starts at least
    5000 microseconds after the first started; the duration of the first
    transaction is part of that interval. *)
Theorem second_write_waits_from_start (p1 p2 : Z) (d1 d2 : list Z) (w : World B) :
  let dt := Z.of_N (xfer_us P) in
  let w1 := snd (nt3h2111_write_page P device p1 d1 w) in
  let w2 := snd (nt3h2111_write_page P device p2 d2 w1) in
  exists s1 s2,
    trace w1 = BusWrite (u8 p1) (firstn 16 d1) s1 (s1 + dt) :: trace w /\
    last_write_time w1 = s1 /\
    trace w2 = BusWrite (u8 p2) (firstn 16 d2) s2 (s2 + dt) :: trace w1 /\
    last_write_time w2 = s2 /\
    s1 + 5000 <= s2.
Proof.
  intros dt w1 w2.
  exists (commit_time P w), (commit_time P w1).
  subst w2 w1. rewrite !write_page_eq. cbn zeta. cbn [snd trace last_write_time].
  repeat split.
  match goal with |- _ <= commit_time P ?x => pose proof (commit_time_deadline P x) as H end.
  cbn [last_write_time] in H. exact H.
Qed.

End Interlock.

(** C9, as stated, fails as soon as a bus transaction takes time: on the bench
    the first write occupies the bus from 5000 to 5400 and the second starts
    at 10000. *)
Lemma second_write_inside_commit_interval :
  let w1 := snd (nt3h2111_write_page bench demo_device 0 (repeat 0 16) (boot blank 0)) in
  let w2 := snd (nt3h2111_write_page bench demo_device 1 (repeat 0 16) w1) in
  trace w2 = [BusWrite 1 (repeat 0 16) 10000 10400; BusWrite 0 (repeat 0 16) 5000 5400] /\
  last_write_time w1 = 5000 /\
  ~ starts_after_completion (trace w2).
Proof.
  assert (E : trace (snd (nt3h2111_write_page bench demo_device 1 (repeat 0 16)
                 (snd (nt3h2111_write_page bench demo_device 0 (repeat 0 16) (boot blank 0)))))
              = [BusWrite 1 (repeat 0 16) 10000 10400; BusWrite 0 (repeat 0 16) 5000 5400])
    by (vm_compute; reflexivity).
  cbn zeta. split; [exact E|]. split; [vm_compute; reflexivity|].
  intros H. specialize (H _ _ _ _ _ _ _ _ _ E). lia.
Qed.

(** ** NDEF codec: what becomes of a failing transport *)

Section CodecErrors.

Context {B : Type}.
Variable P : Platform B.
Variable device : NT3H2111.

Lemma set_ndef_body_ok offset len tmp data w :
  fst (set_ndef_body P device offset len tmp data w) = ESP_OK.
Proof.
  unfold set_ndef_body. rewrite !bind_eq. reflexivity.
Qed.

(** C6, on the code.  When the header write has returned [ESP_OK] and the
    payload write that follows it fails, the encoder still returns [ESP_OK]:
    the result of the payload write is dropped. *)
Theorem set_ndef_drops_payload_result (len : Z) (data : list Z) (w : World B) :
  size_t len < 880 ->
  fst (header_write P device len w) = ESP_OK ->
  fst (nt3h2111_write_user P device (payload_offset len) (size_t len) data
         (snd (header_write P device len w))) <> ESP_OK ->
  fst (nt3h2111_set_ndef P device len data w) = ESP_OK.
Proof.
  intros Hlen Hhdr _. unfold header_write in Hhdr.
  unfold nt3h2111_set_ndef, NT3H2111_USERDATA_LEN.
  replace (size_t len >=? 884 - 4) with false
    by (symmetry; rewrite Z.geb_leb; apply Z.leb_gt; lia).
  destruct (size_t len >=? 255); rewrite bind_eq, Hhdr; cbn [ESP_OK Z.eqb negb];
    apply set_ndef_body_ok.
Qed.

(** The decoder looks at the buffer only. *)
Lemma get_ndef_without_magic (w : World B) :
  nth 0 (snd (fst (nt3h2111_read_page P device 1 w))) 0 <> 3 ->
  fst (nt3h2111_get_ndef P device w) = (ESP_ERR_NOT_FOUND, None).
Proof.
  intros H. unfold nt3h2111_get_ndef. rewrite bind_eq.
  destruct (fst (nt3h2111_read_page P device 1 w)) as [res tmp]. cbn [fst snd] in H.
  replace (nth 0 tmp 0 =? 3) with false by (symmetry; apply Z.eqb_neq; exact H).
  reflexivity.
Qed.

(** C7, on the code.  The decoder does not look at the result of the page
    read: when the read of page 1 fails and the sixteen bytes found in the
    buffer afterwards do not start with the magic byte, the decoder returns
    [ESP_ERR_NOT_FOUND], not the error of the read. *)
Theorem get_ndef_drops_page_read_result (w : World B) :
  fst (fst (nt3h2111_read_page P device 1 w)) <> ESP_OK ->
  nth 0 (snd (fst (nt3h2111_read_page P device 1 w))) 0 <> 3 ->
  fst (nt3h2111_get_ndef P device w) = (ESP_ERR_NOT_FOUND, None).
Proof. intros _ H. apply get_ndef_without_magic. exact H. Qed.

End CodecErrors.

(** The transport completes the two transactions of the header write and
    fails from the payload on. *)
Lemma set_ndef_drops_payload_result_witness :
  let w := boot (mkFlaky blank 2) 0 in
  fst (nt3h2111_write_user flaky_bench demo_device 2 1 [7]
         (snd (nt3h2111_write_user flaky_bench demo_device 0 2 [3; 1; 0; 0] w))) = ESP_FAIL /\
  fst (nt3h2111_set_ndef flaky_bench demo_device 1 [7] w) = ESP_OK.
Proof.
  cbn zeta. split.
  - vm_compute. reflexivity.
  - apply (set_ndef_drops_payload_result flaky_bench demo_device 1 [7]
             (boot (mkFlaky blank 2) 0)).
    + vm_compute. reflexivity.
    + vm_compute. reflexivity.
    + vm_compute. discriminate.
Defined.

(** The transport fails the very first transaction. *)
Lemma get_ndef_drops_page_read_result_witness :
  let w := boot (mkFlaky blank 0) 0 in
  fst (fst (nt3h2111_read_page flaky_bench demo_device 1 w)) = ESP_FAIL /\
  fst (nt3h2111_get_ndef flaky_bench demo_device w) = (ESP_ERR_NOT_FOUND, None).
Proof.
  cbn zeta. split.
  - vm_compute. reflexivity.
  - apply (get_ndef_drops_page_read_result flaky_bench demo_device
             (boot (mkFlaky blank 0) 0)).
    + vm_compute. discriminate.
    + vm_compute. discriminate.
Defined.

(** When the bytes left in the buffer happen to look like a header, the
    decoder reports success on a read that failed. *)
Example get_ndef_decodes_stale_header :
  let P := flaky (3 :: repeat 0 15) 1%positive 400%N (fun _ _ => 0) zeroed in
  let w := boot (mkFlaky blank 0) 0 in
  fst (fst (nt3h2111_read_page P demo_device 1 w)) = ESP_FAIL /\
  fst (nt3h2111_get_ndef P demo_device w) = (ESP_OK, Some (0, [])).
Proof. cbn zeta. split; vm_compute; reflexivity. Qed.

(** ** Buffers *)

Lemma bytes_at_length f s n : length (bytes_at f s n) = n.
Proof. unfold bytes_at. rewrite length_map, length_seq. reflexivity. Qed.

Lemma nth_bytes_at f s n i d :
  (i < n)%nat -> nth i (bytes_at f s n) d = f (s + Z.of_nat i).
Proof.
  intros H. unfold bytes_at.
  rewrite (nth_indep _ d (f (s + Z.of_nat 0))) by (rewrite length_map, length_seq; exact H).
  rewrite (map_nth (fun i => f (s + Z.of_nat i))), seq_nth by exact H.
  reflexivity.
Qed.

Lemma bytes_at_ext f g s t n :
  (forall i, (i < n)%nat -> f (s + Z.of_nat i) = g (t + Z.of_nat i)) ->
  bytes_at f s n = bytes_at g t n.
Proof.
  intros H. apply (nth_ext _ _ 0 0).
  - rewrite !bytes_at_length. reflexivity.
  - intros i Hi. rewrite bytes_at_length in Hi.
    rewrite !nth_bytes_at by exact Hi. apply H. exact Hi.
Qed.

Lemma bytes_at_app f s n k :
  bytes_at f s (n + k) = bytes_at f s n ++ bytes_at f (s + Z.of_nat n) k.
Proof.
  apply (nth_ext _ _ 0 0).
  - rewrite length_app, !bytes_at_length. reflexivity.
  - intros i Hi. rewrite bytes_at_length in Hi.
    rewrite nth_bytes_at by exact Hi.
    destruct (Nat.lt_ge_cases i n) as [L|G].
    + rewrite app_nth1 by (rewrite bytes_at_length; exact L).
      rewrite nth_bytes_at by exact L. reflexivity.
    + rewrite app_nth2 by (rewrite bytes_at_length; exact G).
      rewrite bytes_at_length, nth_bytes_at by lia.
      f_equal. lia.
Qed.

Lemma bytes_from_bytes_at f s k a n :
  0 <= a -> 0 <= n -> a + n <= Z.of_nat k ->
  bytes_from (bytes_at f s k) a n = bytes_at f (s + a) (Z.to_nat n).
Proof.
  intros Ha Hn Hk. unfold bytes_from.
  apply (nth_ext _ _ 0 0).
  - rewrite length_firstn, length_skipn, !bytes_at_length. lia.
  - intros i Hi.
    rewrite length_firstn, length_skipn, bytes_at_length in Hi.
    rewrite nth_firstn.
    replace (i <? Z.to_nat n)%nat with true by (symmetry; apply Nat.ltb_lt; lia).
    rewrite nth_skipn, !nth_bytes_at by lia.
    f_equal. lia.
Qed.

Lemma nth_memcpy_into dst at_ src n i :
  0 <= at_ -> 0 <= n -> at_ + n <= Z.of_nat (length dst) -> n <= Z.of_nat (length src) ->
  nth i (memcpy_into dst at_ src n) 0 =
  if (at_ <=? Z.of_nat i) && (Z.of_nat i <? at_ + n)
  then nth (i - Z.to_nat at_) src 0
  else nth i dst 0.
Proof.
  intros Ha Hn Hd Hs. unfold memcpy_into.
  destruct (Z.leb_spec at_ (Z.of_nat i)) as [L|L]; cbn [andb].
  - rewrite app_nth2 by (rewrite length_firstn; lia).
    rewrite length_firstn.
    replace (Nat.min (Z.to_nat at_) (length dst)) with (Z.to_nat at_) by lia.
    destruct (Z.ltb_spec (Z.of_nat i) (at_ + n)) as [L'|L'].
    + rewrite app_nth1 by (rewrite length_firstn; lia).
      rewrite nth_firstn.
      replace (i - Z.to_nat at_ <? Z.to_nat n)%nat with true
        by (symmetry; apply Nat.ltb_lt; lia).
      reflexivity.
    + rewrite app_nth2 by (rewrite length_firstn; lia).
      rewrite length_firstn, nth_skipn. f_equal. lia.
  - rewrite app_nth1 by (rewrite length_firstn; lia).
    rewrite nth_firstn.
    replace (i <? Z.to_nat at_)%nat with true by (symmetry; apply Nat.ltb_lt; lia).
    reflexivity.
Qed.

(** ** Arithmetic of the wrapped cursor *)

Ltac euclid := unfold u8 in *; Z.to_euclidean_division_equations; lia.

Lemma wrapped_shift m x i : wrapped m (u8 x + i) = wrapped m (x + i).
Proof. unfold wrapped. rewrite u8_add_l. reflexivity. Qed.

Lemma wrapped_small m a : 0 <= a < 256 -> wrapped m a = m a.
Proof. intros H. unfold wrapped. rewrite u8_small by exact H. reflexivity. Qed.

Lemma bytes_at_wrapped_u8 m x n :
  bytes_at (wrapped m) (u8 x) n = bytes_at (wrapped m) x n.
Proof. apply bytes_at_ext. intros i _. apply wrapped_shift. Qed.

Lemma bytes_at_wrapped_small m s n :
  0 <= s -> s + Z.of_nat n <= 256 ->
  bytes_at (wrapped m) s n = bytes_at m s n.
Proof. intros H0 H1. apply bytes_at_ext. intros i Hi. apply wrapped_small. lia. Qed.

Lemma read_advance_refl m c : 0 <= c_len c -> 0 <= c_offset c < 256 -> read_advance m c c.
Proof.
  intros Hl Ho. exists 0. repeat split; try lia.
  - rewrite Z.add_0_r, u8_small by exact Ho. reflexivity.
  - cbn. rewrite app_nil_r. reflexivity.
Qed.

Lemma read_advance_trans m c c' c'' :
  read_advance m c c' -> read_advance m c' c'' -> read_advance m c c''.
Proof.
  intros (k & Hk & Ho & Hl & Hd) (k' & Hk' & Ho' & Hl' & Hd').
  exists (k + k'). repeat split; try lia.
  - rewrite Ho', Ho, u8_add_l. f_equal. lia.
  - rewrite Hd', Hd, Ho, bytes_at_wrapped_u8, <- app_assoc. f_equal.
    replace (Z.to_nat (k + k')) with (Z.to_nat k + Z.to_nat k')%nat by lia.
    rewrite bytes_at_app. f_equal. f_equal. lia.
Qed.

(** ** The translator on the reference page store: reading *)

(** The page that holds raw address [o], seen from [o] on. *)
Lemma store_read_from m o n :
  0 <= o < 256 -> 0 <= n -> o mod 16 + n <= 16 ->
  bytes_from (store_read (u8 (o / 16)) m) (o mod 16) n
  = bytes_at (wrapped m) o (Z.to_nat n).
Proof.
  intros Ho Hn Hp. unfold store_read.
  rewrite bytes_from_bytes_at by (cbn; euclid).
  apply bytes_at_ext. intros i Hi. unfold wrapped. f_equal. euclid.
Qed.

Section ReferenceRead.

Variable yield : positive.
Variable xfer : N.
Variable shl : Z -> Z -> Z.
Variable alloc : Z -> option (list Z).
Variable device : NT3H2111.

Local Abbreviation P := (reference yield xfer shl alloc).

Lemma read_page_ref page w :
  exists w', nt3h2111_read_page P device page w
             = ((ESP_OK, store_read (u8 page) (chip w)), w')
             /\ chip w' = chip w.
Proof. rewrite read_page_eq. eexists. split; reflexivity. Qed.

Lemma write_page_ref page data w :
  exists w', nt3h2111_write_page P device page data w = (ESP_OK, w')
             /\ chip w' = store_write (u8 page) (firstn 16 data) (chip w).
Proof. rewrite write_page_eq. eexists. split; reflexivity. Qed.

Lemma read_head_ref c w :
  0 <= c_offset c < 256 -> 0 <= c_len c < 256 ->
  exists c' w', read_head P device c w = (Next c', w') /\ chip w' = chip w /\
    read_advance (chip w) c c' /\ settled c'.
Proof.
  intros Ho Hl. unfold read_head. rewrite land_15.
  destruct (Z.eqb_spec (c_offset c mod 16) 0) as [A|A].
  - exists c, w. split; [reflexivity|]. split; [reflexivity|].
    split; [apply read_advance_refl; lia|].
    unfold settled. auto.
  - set (mis := c_offset c mod 16) in *.
    set (rlen := if 16 - mis <? c_len c then 16 - mis else c_len c).
    assert (Hm : 0 < mis < 16) by (subst mis; euclid).
    assert (Hr : 0 <= rlen <= c_len c /\ mis + rlen <= 16 /\
                 (rlen = c_len c \/ mis + rlen = 16)).
    { subst rlen. destruct (Z.ltb_spec (16 - mis) (c_len c)); lia. }
    destruct (read_page_ref (c_offset c / 16) w) as (w' & E & Hc).
    unfold bind. rewrite E. cbn [Z.eqb ESP_OK negb]. unfold ret.
    eexists _, w'. split; [reflexivity|]. split; [exact Hc|]. split.
    + exists rlen. cbn [c_offset c_len c_data]. repeat split; try lia.
      * apply u8_small. lia.
      * f_equal. subst mis. apply store_read_from; lia.
    + unfold settled. cbn [c_offset c_len].
      rewrite (u8_small (c_len c - rlen)) by lia.
      split; [apply u8_range|]. split; [lia|].
      destruct Hr as (_ & _ & [R|R]); [left; lia|right].
      subst mis. euclid.
Qed.

Lemma read_pages_ref fuel : forall c w,
  settled c -> c_len c < 16 * Z.of_nat fuel ->
  exists c' w', read_pages P fuel device c w = (Next c', w') /\ chip w' = chip w /\
    read_advance (chip w) c c' /\ settled c' /\ c_len c' < 16.
Proof.
  induction fuel as [|fuel IH]; intros c w S Hf.
  - destruct S as (Ho & Hl & _). cbn in Hf. lia.
  - destruct S as (Ho & Hl & Ha).
    destruct (Z.lt_ge_cases (c_len c) 16) as [L|G].
    + exists c, w. rewrite read_pages_short by exact L.
      repeat split; try lia; try exact Ha.
      apply read_advance_refl; lia.
    + assert (A : c_offset c mod 16 = 0) by lia.
      cbn [read_pages].
      replace (c_len c >=? 16) with true by (symmetry; rewrite Z.geb_leb; apply Z.leb_le; lia).
      destruct (read_page_ref (c_offset c / 16) w) as (w1 & E & Hc).
      unfold bind at 1. rewrite E. cbn [Z.eqb ESP_OK negb].
      set (c1 := mkCursor _ _ _).
      assert (S1 : settled c1).
      { unfold settled, c1. cbn [c_offset c_len].
        rewrite (u8_small (c_len c - 16)) by lia.
        split; [apply u8_range|]. split; [lia|]. right. euclid. }
      destruct (IH c1 w1 S1) as (c' & w' & E' & Hc' & R' & S' & L').
      { unfold c1. cbn [c_len]. rewrite u8_small by lia. lia. }
      exists c', w'. split; [exact E'|]. split; [congruence|].
      split; [|split; assumption].
      apply (read_advance_trans _ c c1); [|rewrite <- Hc; exact R'].
      exists 16. unfold c1. cbn [c_offset c_len c_data]. repeat split; try lia.
      * apply u8_small. lia.
      * f_equal. rewrite <- (store_read_from (chip w) (c_offset c) 16) by lia.
        rewrite A. unfold bytes_from. cbn [Z.to_nat skipn].
        symmetry. apply firstn_all2. unfold store_read. rewrite bytes_at_length. cbn. lia.
Qed.

Lemma read_tail_ref c w :
  settled c -> c_len c < 16 ->
  exists c' w', read_tail P device c w = (Next c', w') /\ chip w' = chip w /\
    c_data c' = c_data c ++ bytes_at (wrapped (chip w)) (c_offset c) (Z.to_nat (c_len c)).
Proof.
  intros (Ho & Hl & Ha) L. unfold read_tail.
  destruct (Z.eqb_spec (c_len c) 0) as [Z0|NZ].
  - exists c, w. repeat split. rewrite Z0. cbn. rewrite app_nil_r. reflexivity.
  - assert (A : c_offset c mod 16 = 0) by lia.
    destruct (read_page_ref (c_offset c / 16) w) as (w' & E & Hc).
    unfold bind. rewrite E. cbn [Z.eqb ESP_OK negb]. unfold ret.
    eexists _, w'. split; [reflexivity|]. split; [exact Hc|].
    cbn [c_data]. f_equal.
    rewrite <- (store_read_from (chip w) (c_offset c) (c_len c)) by lia.
    rewrite A. reflexivity.
Qed.

(** What the raw read returns on the page store, for every offset and every
    length: the bytes at the addresses [u8 offset], [u8 offset + 1], ...,
    counted modulo 256. *)
Lemma read_raw_ref offset len w :
  exists w', nt3h2111_read_raw P device offset len w
             = ((ESP_OK, bytes_at (wrapped (chip w)) (u8 offset) (Z.to_nat (u8 len))), w')
             /\ chip w' = chip w.
Proof.
  unfold nt3h2111_read_raw, and_then.
  set (c := mkCursor (u8 offset) (u8 len) []).
  pose proof (u8_range offset) as Ho. pose proof (u8_range len) as Hl.
  destruct (read_head_ref c w Ho Hl) as (c1 & w1 & E1 & H1 & R1 & S1).
  destruct (read_pages_ref page_loop_fuel c1 w1 S1) as (c2 & w2 & E2 & H2 & R2 & S2 & L2).
  { destruct S1 as (_ & ? & _). cbn. lia. }
  destruct (read_tail_ref c2 w2 S2 L2) as (c3 & w3 & E3 & H3 & D3).
  unfold bind. rewrite E1, E2, E3. unfold ret.
  exists w3. split; [|congruence].
  f_equal. f_equal.
  rewrite H1 in R2. rewrite H2, H1 in D3.
  destruct (read_advance_trans _ _ _ _ R1 R2) as (k & Hk & Ok & Lk & Dk).
  subst c. cbn [c_data c_offset c_len] in Hk, Ok, Lk, Dk.
  rewrite D3, Dk, Ok, (bytes_at_wrapped_u8 _ (u8 offset + k)), Lk. cbn [app].
  replace (Z.to_nat (u8 len)) with (Z.to_nat k + Z.to_nat (u8 len - k))%nat by lia.
  rewrite bytes_at_app. f_equal. f_equal. lia.
Qed.

(** The part of C1 that holds: a range that ends within the first 256 bytes
    is read exactly. *)
Lemma read_raw_first_256 offset len w :
  0 <= offset -> 0 <= len < 256 -> offset + len <= 256 ->
  fst (nt3h2111_read_raw P device offset len w)
  = (ESP_OK, bytes_at (chip w) offset (Z.to_nat len)).
Proof.
  intros Ho Hl Hb.
  destruct (read_raw_ref offset len w) as (w' & E & _). rewrite E. cbn [fst].
  destruct (Z.eq_dec len 0) as [->|NZ]; [reflexivity|].
  rewrite !u8_small by lia.
  rewrite bytes_at_wrapped_small by lia. reflexivity.
Qed.

End ReferenceRead.

(** ** The translator on the reference page store: writing *)

Lemma in_window_zero o a : in_window o 0 a = false.
Proof.
  unfold in_window.
  destruct (Z.ltb_spec ((a - o) mod 256) 0) as [L|L];
    [|rewrite andb_false_r; reflexivity].
  pose proof (Z.mod_pos_bound (a - o) 256). lia.
Qed.

Lemma laid_down_refl m o data : laid_down m m o 0 data.
Proof. intros a. rewrite in_window_zero. reflexivity. Qed.

(** Two stretches one after the other are one stretch, as long as the cursor
    does not come round to where it started. *)
Lemma laid_down_trans m m1 m2 o k1 k2 data :
  0 <= o < 256 -> 0 <= k1 -> 0 <= k2 -> k1 + k2 < 256 ->
  laid_down m m1 o k1 data ->
  laid_down m1 m2 (u8 (o + k1)) k2 (skipn (Z.to_nat k1) data) ->
  laid_down m m2 o (k1 + k2) data.
Proof.
  intros Ho H1 H2 Hs L1 L2 a. rewrite L2, L1. unfold in_window.
  destruct (Z.leb_spec 0 a); cbn [andb]; [|reflexivity].
  destruct (Z.ltb_spec a 256); cbn [andb]; [|reflexivity].
  destruct (Z.ltb_spec ((a - u8 (o + k1)) mod 256) k2) as [A|A];
    destruct (Z.ltb_spec ((a - o) mod 256) k1) as [C|C];
    destruct (Z.ltb_spec ((a - o) mod 256) (k1 + k2)) as [D|D];
    try reflexivity; try (exfalso; euclid).
  rewrite nth_skipn. f_equal. euclid.
Qed.

Lemma write_advance_refl m c : 0 <= c_len c -> 0 <= c_offset c < 256 -> write_advance m m c c.
Proof.
  intros Hl Ho. exists 0. repeat split; try lia.
  - rewrite Z.add_0_r, u8_small by exact Ho. reflexivity.
  - apply laid_down_refl.
Qed.

Lemma write_advance_trans m m1 m2 c c1 c2 :
  0 <= c_offset c < 256 -> c_len c < 256 ->
  write_advance m m1 c c1 -> write_advance m1 m2 c1 c2 -> write_advance m m2 c c2.
Proof.
  intros Hoff Hlen (k & Hk & Ho & Hl & Hd & L) (k' & Hk' & Ho' & Hl' & Hd' & L').
  exists (k + k'). repeat split; try lia.
  - rewrite Ho', Ho, u8_add_l. f_equal. lia.
  - rewrite Hd', Hd, skipn_skipn. f_equal. lia.
  - rewrite Ho, Hd in L'. apply (laid_down_trans m m1 m2); try assumption; lia.
Qed.

(** Writing back one page that was read and patched from [o] on. *)
Lemma store_write_patched m o n data :
  0 <= o < 256 -> 0 <= n -> o mod 16 + n <= 16 -> n <= Z.of_nat (length data) ->
  laid_down m
    (store_write (u8 (o / 16))
       (firstn 16 (memcpy_into (store_read (u8 (o / 16)) m) (o mod 16) data n)) m)
    o n data.
Proof.
  intros Ho Hn Hp Hd a. unfold store_write.
  rewrite (u8_small (o / 16)) by euclid.
  assert (Hn16 : (Z.to_nat (a mod 16) < 16)%nat) by euclid.
  destruct (Z.eqb_spec (a / 16) (o / 16)) as [Q|Q].
  - rewrite nth_firstn.
    replace (Z.to_nat (a mod 16) <? 16)%nat with true by (symmetry; apply Nat.ltb_lt; exact Hn16).
    rewrite nth_memcpy_into;
      [| euclid | exact Hn | unfold store_read; rewrite bytes_at_length; cbn; lia | exact Hd].
    rewrite Z2Nat.id by euclid.
    unfold in_window.
    replace (0 <=? a) with true by (symmetry; apply Z.leb_le; euclid).
    replace (a <? 256) with true by (symmetry; apply Z.ltb_lt; euclid).
    cbn [andb].
    destruct (Z.leb_spec (o mod 16) (a mod 16)) as [A|A];
      destruct (Z.ltb_spec (a mod 16) (o mod 16 + n)) as [C|C];
      destruct (Z.ltb_spec ((a - o) mod 256) n) as [D|D]; cbn [andb];
      try (exfalso; euclid).
    + f_equal. euclid.
    + unfold store_read. rewrite nth_bytes_at by exact Hn16. f_equal. euclid.
    + unfold store_read. rewrite nth_bytes_at by exact Hn16. f_equal. euclid.
  - unfold in_window.
    destruct (Z.leb_spec 0 a); cbn [andb]; [|reflexivity].
    destruct (Z.ltb_spec a 256); cbn [andb]; [|reflexivity].
    destruct (Z.ltb_spec ((a - o) mod 256) n) as [D|D]; [|reflexivity].
    exfalso. euclid.
Qed.

(** Writing one whole page straight from the caller's buffer. *)
Lemma store_write_whole m o data :
  0 <= o < 256 -> o mod 16 = 0 -> 16 <= Z.of_nat (length data) ->
  laid_down m (store_write (u8 (o / 16)) (firstn 16 data) m) o 16 data.
Proof.
  intros Ho Ha Hd a. unfold store_write.
  rewrite (u8_small (o / 16)) by euclid.
  assert (Hn16 : (Z.to_nat (a mod 16) < 16)%nat) by euclid.
  unfold in_window.
  destruct (Z.eqb_spec (a / 16) (o / 16)) as [Q|Q].
  - rewrite nth_firstn.
    replace (Z.to_nat (a mod 16) <? 16)%nat with true by (symmetry; apply Nat.ltb_lt; exact Hn16).
    replace (0 <=? a) with true by (symmetry; apply Z.leb_le; euclid).
    replace (a <? 256) with true by (symmetry; apply Z.ltb_lt; euclid).
    replace ((a - o) mod 256 <? 16) with true by (symmetry; apply Z.ltb_lt; euclid).
    cbn [andb]. f_equal. euclid.
  - destruct (Z.leb_spec 0 a); cbn [andb]; [|reflexivity].
    destruct (Z.ltb_spec a 256); cbn [andb]; [|reflexivity].
    destruct (Z.ltb_spec ((a - o) mod 256) 16) as [D|D]; [|reflexivity].
    exfalso. euclid.
Qed.

Section ReferenceWrite.

Variable yield : positive.
Variable xfer : N.
Variable shl : Z -> Z -> Z.
Variable alloc : Z -> option (list Z).
Variable device : NT3H2111.

Local Abbreviation P := (reference yield xfer shl alloc).

Lemma write_head_ref c w :
  0 <= c_offset c < 256 -> 0 <= c_len c < 256 ->
  c_len c <= Z.of_nat (length (c_data c)) ->
  exists c' w', write_head P device c w = (Next c', w') /\
    write_advance (chip w) (chip w') c c' /\ settled c' /\
    c_len c' <= Z.of_nat (length (c_data c')).
Proof.
  intros Ho Hl Hd. unfold write_head. rewrite land_15.
  destruct (Z.eqb_spec (c_offset c mod 16) 0) as [A|A].
  - exists c, w. split; [reflexivity|].
    split; [apply write_advance_refl; lia|].
    split; [unfold settled; auto | exact Hd].
  - set (mis := c_offset c mod 16) in *.
    set (rlen := if 16 - mis <? c_len c then 16 - mis else c_len c).
    assert (Hm : 0 < mis < 16) by (subst mis; euclid).
    assert (Hr : 0 <= rlen <= c_len c /\ mis + rlen <= 16 /\
                 (rlen = c_len c \/ mis + rlen = 16)).
    { subst rlen. destruct (Z.ltb_spec (16 - mis) (c_len c)); lia. }
    destruct (read_page_ref yield xfer shl alloc device (c_offset c / 16) w)
      as (w1 & E1 & H1).
    unfold bind at 1. rewrite E1. cbn [Z.eqb ESP_OK negb].
    destruct (write_page_ref yield xfer shl alloc device (c_offset c / 16)
                (memcpy_into (store_read (u8 (c_offset c / 16)) (chip w)) mis (c_data c) rlen) w1)
      as (w2 & E2 & H2).
    unfold bind. rewrite E2. cbn [Z.eqb ESP_OK negb]. unfold ret.
    eexists _, w2. split; [reflexivity|]. split; [|split].
    + exists rlen. cbn [c_offset c_len c_data]. repeat split; try lia.
      * apply u8_small. lia.
      * rewrite H2, H1. subst mis. apply store_write_patched; lia.
    + unfold settled. cbn [c_offset c_len].
      rewrite (u8_small (c_len c - rlen)) by lia.
      split; [apply u8_range|]. split; [lia|].
      destruct Hr as (_ & _ & [R|R]); [left; lia|right].
      subst mis. euclid.
    + cbn [c_len c_data]. rewrite length_skipn, u8_small by lia. lia.
Qed.

Lemma write_pages_ref fuel : forall c w,
  settled c -> c_len c < 16 * Z.of_nat fuel ->
  c_len c <= Z.of_nat (length (c_data c)) ->
  exists c' w', write_pages P fuel device c w = (Next c', w') /\
    write_advance (chip w) (chip w') c c' /\ settled c' /\ c_len c' < 16 /\
    c_len c' <= Z.of_nat (length (c_data c')).
Proof.
  induction fuel as [|fuel IH]; intros c w S Hf Hd.
  - destruct S as (Ho & Hl & _). cbn in Hf. lia.
  - pose proof S as (Ho & Hl & Ha).
    destruct (Z.lt_ge_cases (c_len c) 16) as [L|G].
    + exists c, w. rewrite write_pages_short by exact L.
      split; [reflexivity|]. split; [apply write_advance_refl; lia|]. auto.
    + assert (A : c_offset c mod 16 = 0) by lia.
      cbn [write_pages].
      replace (c_len c >=? 16) with true by (symmetry; rewrite Z.geb_leb; apply Z.leb_le; lia).
      destruct (write_page_ref yield xfer shl alloc device (c_offset c / 16) (c_data c) w)
        as (w1 & E & Hc).
      unfold bind at 1. rewrite E. cbn [Z.eqb ESP_OK negb].
      set (c1 := mkCursor _ _ _).
      assert (S1 : settled c1).
      { unfold settled, c1. cbn [c_offset c_len].
        rewrite (u8_small (c_len c - 16)) by lia.
        split; [apply u8_range|]. split; [lia|]. right. euclid. }
      destruct (IH c1 w1 S1) as (c' & w' & E' & W' & S' & L' & D').
      { unfold c1. cbn [c_len]. rewrite u8_small by lia. lia. }
      { unfold c1. cbn [c_len c_data]. rewrite length_skipn, u8_small by lia. lia. }
      exists c', w'. split; [exact E'|]. split; [|auto].
      apply (write_advance_trans _ (chip w1) _ c c1); [lia | lia | | exact W'].
      exists 16. unfold c1. cbn [c_offset c_len c_data]. repeat split; try lia.
      * apply u8_small. lia.
      * rewrite Hc. apply store_write_whole; lia.
Qed.

Lemma write_tail_ref c w :
  settled c -> c_len c < 16 -> c_len c <= Z.of_nat (length (c_data c)) ->
  exists c' w', write_tail P device c w = (Next c', w') /\
    laid_down (chip w) (chip w') (c_offset c) (c_len c) (c_data c).
Proof.
  intros (Ho & Hl & Ha) L Hd. unfold write_tail.
  destruct (Z.eqb_spec (c_len c) 0) as [Z0|NZ].
  - exists c, w. split; [reflexivity|]. rewrite Z0. apply laid_down_refl.
  - assert (A : c_offset c mod 16 = 0) by lia.
    destruct (read_page_ref yield xfer shl alloc device (c_offset c / 16) w)
      as (w1 & E1 & H1).
    unfold bind at 1. rewrite E1. cbn [Z.eqb ESP_OK negb].
    destruct (write_page_ref yield xfer shl alloc device (c_offset c / 16)
                (memcpy_into (store_read (u8 (c_offset c / 16)) (chip w)) 0 (c_data c) (c_len c)) w1)
      as (w2 & E2 & H2).
    unfold bind. rewrite E2. cbn [Z.eqb ESP_OK negb]. unfold ret.
    eexists _, w2. split; [reflexivity|].
    rewrite H2, H1.
    pose proof (store_write_patched (chip w) (c_offset c) (c_len c) (c_data c)) as T.
    rewrite A in T. apply T; lia.
Qed.

(** What the raw write does to the page store, for every offset and every
    length: it returns [ESP_OK] and lays the data down at the addresses
    [u8 offset], [u8 offset + 1], ..., counted modulo 256; every other byte
    keeps its value. *)
Lemma write_raw_ref offset len data w :
  u8 len <= Z.of_nat (length data) ->
  exists w', nt3h2111_write_raw P device offset len data w = (ESP_OK, w') /\
    laid_down (chip w) (chip w') (u8 offset) (u8 len) data.
Proof.
  intros Hd. unfold nt3h2111_write_raw, and_then.
  set (c := mkCursor (u8 offset) (u8 len) data).
  pose proof (u8_range offset) as Ho. pose proof (u8_range len) as Hl.
  destruct (write_head_ref c w Ho Hl Hd) as (c1 & w1 & E1 & W1 & S1 & D1).
  destruct (write_pages_ref page_loop_fuel c1 w1 S1) as (c2 & w2 & E2 & W2 & S2 & L2 & D2).
  { destruct S1 as (_ & ? & _). cbn. lia. }
  { exact D1. }
  destruct (write_tail_ref c2 w2 S2 L2 D2) as (c3 & w3 & E3 & T3).
  unfold bind. rewrite E1, E2, E3. unfold ret.
  exists w3. split; [reflexivity|].
  destruct (write_advance_trans _ _ _ c c1 c2 Ho (proj2 Hl) W1 W2) as (k & Hk & Ok & Lk & Dk & Tk).
  subst c. cbn [c_data c_offset c_len] in Hk, Ok, Lk, Dk, Tk.
  rewrite Ok, Lk, Dk in T3.
  replace (u8 len) with (k + (u8 len - k)) by lia.
  apply (laid_down_trans _ (chip w2)); try assumption; lia.
Qed.

End ReferenceWrite.

(** ** The raw translator against the specification *)

(** Within the first 256 bytes the window of a transfer is the interval. *)
Lemma in_window_interval o n a :
  0 <= o -> 0 <= n -> o + n <= 256 ->
  in_window o n a = (o <=? a) && (a <? o + n).
Proof.
  intros Ho Hn Hb. unfold in_window.
  destruct (Z.leb_spec 0 a); destruct (Z.ltb_spec a 256);
    destruct (Z.ltb_spec ((a - o) mod 256) n);
    destruct (Z.leb_spec o a); destruct (Z.ltb_spec a (o + n));
    cbn [andb]; try reflexivity; exfalso; euclid.
Qed.

Section RawOnStore.

Variable yield : positive.
Variable xfer : N.
Variable shl : Z -> Z -> Z.
Variable alloc : Z -> option (list Z).
Variable device : NT3H2111.

Local Abbreviation P := (reference yield xfer shl alloc).

(** The part of C2 that holds everywhere: what was written is read back, also
    when the cursor wraps. *)
Lemma write_raw_then_read_raw offset len data w :
  u8 len <= Z.of_nat (length data) ->
  fst (nt3h2111_write_raw P device offset len data w) = ESP_OK /\
  fst (nt3h2111_read_raw P device offset len
         (snd (nt3h2111_write_raw P device offset len data w)))
  = (ESP_OK, firstn (Z.to_nat (u8 len)) data).
Proof.
  intros Hd.
  destruct (write_raw_ref yield xfer shl alloc device offset len data w Hd) as (w1 & E1 & L1).
  rewrite E1. cbn [fst snd]. split; [reflexivity|].
  destruct (read_raw_ref yield xfer shl alloc device offset len w1) as (w2 & E2 & _).
  rewrite E2. cbn [fst]. f_equal.
  pose proof (u8_range offset) as Ho. pose proof (u8_range len) as Hl.
  apply (nth_ext _ _ 0 0).
  - rewrite bytes_at_length, length_firstn. lia.
  - intros i Hi. rewrite bytes_at_length in Hi.
    rewrite nth_bytes_at by exact Hi. unfold wrapped. rewrite L1.
    rewrite nth_firstn.
    replace (i <? Z.to_nat (u8 len))%nat with true by (symmetry; apply Nat.ltb_lt; exact Hi).
    replace (in_window (u8 offset) (u8 len) (u8 (u8 offset + Z.of_nat i))) with true.
    + f_equal. euclid.
    + symmetry. unfold in_window.
      repeat (apply andb_true_intro; split);
        [apply Z.leb_le | apply Z.ltb_lt | apply Z.ltb_lt]; euclid.
Qed.

(** The part of C2 that holds within the first 256 bytes: the range takes the
    data and every byte outside it keeps its value. *)
Lemma write_raw_first_256 offset len data w a :
  0 <= offset -> 0 <= len < 256 -> offset + len <= 256 ->
  len <= Z.of_nat (length data) ->
  chip (snd (nt3h2111_write_raw P device offset len data w)) a =
  if (offset <=? a) && (a <? offset + len)
  then nth (Z.to_nat (a - offset)) data 0
  else chip w a.
Proof.
  intros Ho Hl Hb Hd.
  destruct (write_raw_ref yield xfer shl alloc device offset len data w) as (w1 & E1 & L1).
  { rewrite u8_small; lia. }
  rewrite E1. cbn [snd]. rewrite L1, (u8_small len) by lia.
  destruct (Z.eq_dec len 0) as [->|NZ].
  - rewrite in_window_zero. rewrite Z.add_0_r.
    destruct (Z.leb_spec offset a); destruct (Z.ltb_spec a offset);
      cbn [andb]; try reflexivity; lia.
  - rewrite (u8_small offset) by lia.
    rewrite in_window_interval by lia.
    destruct ((offset <=? a) && (a <? offset + len)) eqn:E; [|reflexivity].
    apply andb_prop in E. destruct E as [E1' E2'].
    apply Z.leb_le in E1'. apply Z.ltb_lt in E2'.
    f_equal. f_equal. apply Z.mod_small. lia.
Qed.

End RawOnStore.

(** C1, on the code.  The offset of the translator is a [uint8_t], and the
    cursor wraps with it: a read of 10 bytes at offset 250 returns the bytes
    250..255 followed by the bytes 0..3, on every page store.  On the store
    whose bytes hold their page index that is six times 15 and four times 0,
    where the bytes at 250..259 are six times 15 and four times 16. *)
Theorem read_raw_wraps_at_256 :
  (forall yield xfer shl alloc device w,
     fst (nt3h2111_read_raw (reference yield xfer shl alloc) device 250 10 w)
     = (ESP_OK, bytes_at (chip w) 250 6 ++ bytes_at (chip w) 0 4)) /\
  fst (nt3h2111_read_raw bench demo_device 250 10 (boot page_tags 0))
  = (ESP_OK, [15; 15; 15; 15; 15; 15; 0; 0; 0; 0]) /\
  bytes_at page_tags 250 10 = [15; 15; 15; 15; 15; 15; 16; 16; 16; 16].
Proof.
  split; [|split; vm_compute; reflexivity].
  intros yield xfer shl alloc device w.
  destruct (read_raw_ref yield xfer shl alloc device 250 10 w) as (w' & E & _).
  rewrite E. reflexivity.
Qed.

(** C2, on the code.  A write of 10 bytes at offset 250 wraps in the same
    way: it returns [ESP_OK], the bytes 0..3, which lie outside 250..259, take
    the last four bytes of the data, and the bytes 256..259 keep their value. *)
Theorem write_raw_wraps_at_256 yield xfer shl alloc device (data : list Z) w :
  10 <= Z.of_nat (length data) ->
  let w' := snd (nt3h2111_write_raw (reference yield xfer shl alloc) device 250 10 data w) in
  fst (nt3h2111_write_raw (reference yield xfer shl alloc) device 250 10 data w) = ESP_OK /\
  bytes_at (chip w') 0 4 = firstn 4 (skipn 6 data) /\
  bytes_at (chip w') 256 4 = bytes_at (chip w) 256 4.
Proof.
  intros Hd w'. subst w'.
  destruct (write_raw_ref yield xfer shl alloc device 250 10 data w) as (w1 & E1 & L1).
  { exact Hd. }
  rewrite E1. cbn [fst snd]. split; [reflexivity|]. split.
  - apply (nth_ext _ _ 0 0).
    + rewrite bytes_at_length, length_firstn, length_skipn. lia.
    + intros i Hi. rewrite bytes_at_length in Hi.
      rewrite nth_bytes_at, nth_firstn, nth_skipn by exact Hi.
      replace (i <? 4)%nat with true by (symmetry; apply Nat.ltb_lt; exact Hi).
      rewrite L1.
      do 4 (destruct i as [|i]; [reflexivity|]). lia.
  - apply bytes_at_ext. intros i Hi. rewrite L1.
    do 4 (destruct i as [|i]; [reflexivity|]). lia.
Qed.

Lemma write_raw_wraps_at_256_witness :
  let w := boot page_tags 0 in
  let w' := snd (nt3h2111_write_raw bench demo_device 250 10 (repeat 170 10) w) in
  bytes_at (chip w) 0 4 = [0; 0; 0; 0] /\
  fst (nt3h2111_write_raw bench demo_device 250 10 (repeat 170 10) w) = ESP_OK /\
  bytes_at (chip w') 0 4 = [170; 170; 170; 170] /\
  bytes_at (chip w') 256 4 = [16; 16; 16; 16].
Proof.
  cbn zeta. split; [reflexivity|].
  apply (write_raw_wraps_at_256 1%positive 400%N (fun _ _ => 0) zeroed demo_device
           (repeat 170 10) (boot page_tags 0)).
  cbn. lia.
Defined.

(** ** Device fields *)

Lemma read_uint_loop_u32 {B} (P : Platform B) n : forall i ptr out,
  0 <= out < 4294967296 ->
  0 <= read_uint_loop P u32 n i ptr out < 4294967296.
Proof.
  induction n as [|n IH]; intros i ptr out H; cbn [read_uint_loop].
  - exact H.
  - apply IH. unfold u32. apply Z.mod_pos_bound. lia.
Qed.

(** [read_uint48] accumulates in a [uint32_t]. *)
Lemma read_uint48_range {B} (P : Platform B) ptr : 0 <= read_uint48 P ptr < 4294967296.
Proof. unfold read_uint48, read_uint. apply read_uint_loop_u32. lia. Qed.

(** Whatever the transport and whatever an oversized shift yields, the serial
    number that comes back is below 2^32. *)
Lemma get_serial_below_2_32 {B} (P : Platform B) device w :
  match snd (fst (nt3h2111_get_serial P device w)) with
  | Some v => 0 <= v < 2^32
  | None => True
  end.
Proof.
  unfold nt3h2111_get_serial. rewrite bind_eq.
  destruct (fst (nt3h2111_read_raw P device 1 6 w)) as [res tmp].
  destruct (res =? 0); cbn [ret fst snd]; [|exact I].
  pose proof (read_uint48_range P tmp) as H.
  unfold u64. rewrite Z.mod_small; [exact H | lia].
Qed.

(** C4, on the code.  On the chip whose bytes at raw offsets 1..6 are
    0, 0, 0, 0, 1, 0 the little-endian value of the six bytes is 2^32, and
    [nt3h2111_get_serial] succeeds with a value below 2^32. *)
Theorem get_serial_loses_high_bytes yield xfer shl alloc device t :
  le48 (bytes_at serial_2_32 1 6) = 2^32 /\
  exists v,
    fst (nt3h2111_get_serial (reference yield xfer shl alloc) device (boot serial_2_32 t))
    = (ESP_OK, Some v) /\
    0 <= v < 2^32.
Proof.
  split; [reflexivity|].
  pose proof (get_serial_below_2_32 (reference yield xfer shl alloc) device (boot serial_2_32 t)) as H.
  unfold nt3h2111_get_serial in *. rewrite bind_eq in *.
  destruct (read_raw_ref yield xfer shl alloc device 1 6 (boot serial_2_32 t)) as (w' & E & _).
  rewrite E in *. cbn [fst snd Z.eqb ESP_OK ret] in *.
  eexists. split; [reflexivity | exact H].
Qed.

(** ** NDEF codec on the reference page store *)

Section CodecOnStore.

Variable yield : positive.
Variable xfer : N.
Variable shl : Z -> Z -> Z.
Variable alloc : Z -> option (list Z).
Variable device : NT3H2111.

Local Abbreviation P := (reference yield xfer shl alloc).

Lemma write_user_ref offset len data w :
  0 <= offset -> 0 < len < 256 -> offset + len <= 884 ->
  len <= Z.of_nat (length data) ->
  exists w', nt3h2111_write_user P device offset len data w = (ESP_OK, w') /\
    laid_down (chip w) (chip w') (u8 (16 + offset)) len data.
Proof.
  intros Ho Hl Hb Hd.
  rewrite write_user_forwards by lia.
  destruct (write_raw_ref yield xfer shl alloc device (16 + offset) len data w) as (w' & E' & L).
  { rewrite u8_small; lia. }
  exists w'. split; [exact E'|]. rewrite (u8_small len) in L by lia. exact L.
Qed.

Lemma read_page_1_ref w :
  fst (nt3h2111_read_page P device 1 w) = (ESP_OK, bytes_at (chip w) 16 16).
Proof.
  destruct (read_page_ref yield xfer shl alloc device 1 w) as (w' & E & _).
  rewrite E. reflexivity.
Qed.

(** C5, on the code.  A payload of 254 bytes does not survive the round trip,
    whatever it holds: the encoder returns [ESP_OK], but its terminator goes
    to user offset 256, which the translator takes for raw offset 16, the
    place of the magic byte; the decoder then finds no envelope. *)
Theorem ndef_254_not_found (payload : list Z) (w : World PageStore) :
  length payload = 254%nat ->
  fst (nt3h2111_set_ndef P device 254 payload w) = ESP_OK /\
  chip (snd (nt3h2111_set_ndef P device 254 payload w)) 16 = 254 /\
  fst (nt3h2111_get_ndef P device (snd (nt3h2111_set_ndef P device 254 payload w)))
  = (ESP_ERR_NOT_FOUND, None).
Proof.
  intros Hp.
  assert (H : exists w', nt3h2111_set_ndef P device 254 payload w = (ESP_OK, w')
                         /\ chip w' 16 = 254).
  { unfold nt3h2111_set_ndef.
    change (size_t 254) with 254.
    change (254 >=? NT3H2111_USERDATA_LEN - 4) with false.
    change (254 >=? 255) with false. cbv iota.
    destruct (write_user_ref 0 2 [3; u8 254; 0; 0] w) as (w1 & E1 & _);
      [lia | lia | lia | cbn; lia |].
    rewrite bind_eq, E1. cbn [fst snd Z.eqb ESP_OK negb].
    unfold set_ndef_body.
    destruct (write_user_ref 2 254 payload w1) as (w2 & E2 & _);
      [lia | lia | lia | lia |].
    rewrite bind_eq, E2. cbn [fst snd].
    destruct (write_user_ref (2 + 254) 1 (memcpy_into [3; u8 254; 0; 0] 0 [254] 1) w2)
      as (w3 & E3 & L3); [lia | lia | lia | vm_compute; discriminate |].
    rewrite bind_eq, E3. cbn [fst snd ret].
    exists w3. split; [reflexivity|]. rewrite L3. reflexivity. }
  destruct H as (w' & E & H16). rewrite E. cbn [fst snd].
  split; [reflexivity|]. split; [exact H16|].
  apply get_ndef_without_magic.
  rewrite read_page_1_ref. cbn [snd].
  rewrite nth_bytes_at by lia. change (16 + Z.of_nat 0) with 16.
  rewrite H16. discriminate.
Qed.

End CodecOnStore.

Lemma ndef_254_not_found_witness :
  let w := snd (nt3h2111_set_ndef bench demo_device 254 (repeat 170 254) (boot blank 0)) in
  fst (nt3h2111_set_ndef bench demo_device 254 (repeat 170 254) (boot blank 0)) = ESP_OK /\
  chip w 16 = 254 /\
  fst (nt3h2111_get_ndef bench demo_device w) = (ESP_ERR_NOT_FOUND, None).
Proof.
  cbn zeta.
  apply (ndef_254_not_found 1%positive 400%N (fun _ _ => 0) zeroed demo_device
           (repeat 170 254) (boot blank 0)).
  apply repeat_length.
Defined.

(** ** The envelope in the first 256 bytes

    As long as header, payload and terminator end before raw offset 256, that
    is for payloads of up to 237 bytes, the encoder lays the envelope down as
    the specification describes it and the decoder returns the payload. *)

Section ShortEnvelope.

Variable yield : positive.
Variable xfer : N.
Variable shl : Z -> Z -> Z.
Variable alloc : Z -> option (list Z).
Variable device : NT3H2111.

Local Abbreviation P := (reference yield xfer shl alloc).

Lemma write_user_any_ref offset len data w :
  0 <= offset -> 0 <= len < 256 -> offset + len <= 884 ->
  len <= Z.of_nat (length data) ->
  exists w', nt3h2111_write_user P device offset len data w = (ESP_OK, w') /\
    laid_down (chip w) (chip w') (u8 (16 + offset)) len data.
Proof.
  intros Ho Hl Hb Hd.
  destruct (Z.eq_dec len 0) as [->|NZ].
  - exists w. split; [reflexivity | apply laid_down_refl].
  - apply write_user_ref; lia.
Qed.

Lemma set_ndef_short_layout (payload : list Z) (w : World PageStore) :
  let len := Z.of_nat (length payload) in
  len <= 237 ->
  exists w', nt3h2111_set_ndef P device len payload w = (ESP_OK, w') /\
    forall a, chip w' a =
      if a =? 16 then 3
      else if a =? 17 then len
      else if (18 <=? a) && (a <? 18 + len) then nth (Z.to_nat (a - 18)) payload 0
      else if a =? 18 + len then 254
      else chip w a.
Proof.
  intros len Hlen. assert (H0 : 0 <= len) by (subst len; lia).
  unfold nt3h2111_set_ndef, NT3H2111_USERDATA_LEN.
  assert (Es : size_t len = len) by (unfold size_t, u32; apply Z.mod_small; lia).
  rewrite Es.
  replace (len >=? 884 - 4) with false by (symmetry; rewrite Z.geb_leb; apply Z.leb_gt; lia).
  replace (len >=? 255) with false by (symmetry; rewrite Z.geb_leb; apply Z.leb_gt; lia).
  rewrite (u8_small len) by lia.
  destruct (write_user_ref yield xfer shl alloc device 0 2 [3; len; 0; 0] w)
    as (w1 & E1 & L1); [lia | lia | lia | cbn; lia |].
  rewrite bind_eq, E1. cbn [fst snd Z.eqb ESP_OK negb].
  unfold set_ndef_body.
  destruct (write_user_any_ref 2 len payload w1) as (w2 & E2 & L2);
    [lia | lia | lia | subst len; lia |].
  rewrite bind_eq, E2. cbn [fst snd].
  destruct (write_user_ref yield xfer shl alloc device (2 + len) 1
              (memcpy_into [3; len; 0; 0] 0 [254] 1) w2)
    as (w3 & E3 & L3); [lia | lia | lia | vm_compute; discriminate |].
  rewrite bind_eq, E3. cbn [fst snd ret].
  exists w3. split; [reflexivity|].
  intros a. rewrite L3, L2, L1.
  rewrite !u8_small by lia.
  rewrite !in_window_interval by lia.
  repeat match goal with
         | |- context [Z.eqb ?x ?y] => destruct (Z.eqb_spec x y)
         | |- context [Z.leb ?x ?y] => destruct (Z.leb_spec x y)
         | |- context [Z.ltb ?x ?y] => destruct (Z.ltb_spec x y)
         end; cbn [andb]; try lia; subst; try reflexivity.
  - replace (18 + len - (16 + (2 + len))) with 0 by lia. reflexivity.
  - f_equal. f_equal. apply Z.mod_small. lia.
Qed.

Lemma get_ndef_short (payload buf : list Z) (w : World PageStore) :
  let len := Z.of_nat (length payload) in
  len <= 237 ->
  alloc len = Some buf -> length buf = length payload ->
  chip w 16 = 3 -> chip w 17 = len ->
  (forall i, (i < length payload)%nat -> chip w (18 + Z.of_nat i) = nth i payload 0) ->
  fst (nt3h2111_get_ndef P device w) = (ESP_OK, Some (len, payload)).
Proof.
  intros len Hlen Ha Hb H16 H17 Hp.
  unfold nt3h2111_get_ndef.
  destruct (read_page_ref yield xfer shl alloc device 1 w) as (w1 & E1 & C1).
  rewrite bind_eq, E1. cbn [fst snd].
  change (u8 1) with 1. unfold store_read.
  rewrite !nth_bytes_at by lia.
  change (16 * 1 + Z.of_nat 0) with 16. change (16 * 1 + Z.of_nat 1) with 17.
  rewrite H16, H17. cbn [Z.eqb Pos.eqb negb].
  replace (len =? 255) with false by (symmetry; apply Z.eqb_neq; lia).
  assert (Es : size_t len = len) by (unfold size_t, u32; apply Z.mod_small; lia).
  rewrite Es. cbn [malloc reference]. rewrite Ha.
  destruct (Z.eq_dec len 0) as [Z0|NZ].
  - rewrite bind_eq. rewrite Z0.
    change (nt3h2111_read_user P device 2 0 w1) with (((ESP_OK, @nil Z), w1)).
    cbn [fst snd Z.eqb ESP_OK negb ret length skipn app].
    destruct payload; [|cbn in len; lia]. destruct buf; [reflexivity | discriminate].
  - rewrite bind_eq, (read_user_forwards P device 2 len w1) by lia.
    rewrite (read_raw_first_256 yield xfer shl alloc device (16 + 2) len w1) by lia.
    cbn [fst Z.eqb ESP_OK negb ret].
    f_equal. f_equal. f_equal.
    assert (Eg : bytes_at (chip w1) (16 + 2) (Z.to_nat len) = payload).
    { apply (nth_ext _ _ 0 0).
      - rewrite bytes_at_length. subst len. lia.
      - intros i Hi. rewrite bytes_at_length in Hi.
        rewrite nth_bytes_at by exact Hi. rewrite C1.
        change (16 + 2) with 18. apply Hp. subst len. lia. }
    rewrite Eg. rewrite skipn_all2 by lia. apply app_nil_r.
Qed.

(** The part of C5 that holds: payloads of up to 237 bytes, among them the
    lengths 0 and 1, make the round trip, provided the allocator delivers. *)
Lemma ndef_round_trip_short (payload buf : list Z) (w : World PageStore) :
  let len := Z.of_nat (length payload) in
  len <= 237 ->
  alloc len = Some buf -> length buf = length payload ->
  fst (nt3h2111_set_ndef P device len payload w) = ESP_OK /\
  fst (nt3h2111_get_ndef P device (snd (nt3h2111_set_ndef P device len payload w)))
  = (ESP_OK, Some (len, payload)).
Proof.
  intros len Hlen Ha Hb.
  destruct (set_ndef_short_layout payload w Hlen) as (w' & E & L).
  fold len in E. rewrite E. cbn [fst snd]. split; [reflexivity|].
  apply (get_ndef_short payload buf); try assumption.
  - rewrite L. reflexivity.
  - rewrite L. reflexivity.
  - intros i Hi. rewrite L.
    replace (18 + Z.of_nat i =? 16) with false by (symmetry; apply Z.eqb_neq; lia).
    replace (18 + Z.of_nat i =? 17) with false by (symmetry; apply Z.eqb_neq; lia).
    replace ((18 <=? 18 + Z.of_nat i) && (18 + Z.of_nat i <? 18 + Z.of_nat (length payload)))
      with true.
    + f_equal. lia.
    + symmetry. apply andb_true_intro. split; [apply Z.leb_le | apply Z.ltb_lt]; lia.
Qed.

End ShortEnvelope.

(** The other two lengths of C5 that fail, on the bench.  At 255 the payload
    comes round to page 1 and overwrites the header it follows; at 879 the
    [uint8_t] length of the region functions cuts the transfer to 111 bytes,
    and the decoder hands out a block of which only those are filled. *)
Example ndef_255_not_found :
  let w := snd (nt3h2111_set_ndef bench demo_device 255 (repeat 170 255) (boot blank 0)) in
  fst (nt3h2111_set_ndef bench demo_device 255 (repeat 170 255) (boot blank 0)) = ESP_OK /\
  bytes_at (chip w) 16 4 = [170; 170; 170; 254] /\
  fst (nt3h2111_get_ndef bench demo_device w) = (ESP_ERR_NOT_FOUND, None).
Proof. cbn zeta. repeat split; vm_compute; reflexivity. Qed.

Example ndef_879_truncated :
  let w := snd (nt3h2111_set_ndef bench demo_device 879 (repeat 170 879) (boot blank 0)) in
  fst (nt3h2111_set_ndef bench demo_device 879 (repeat 170 879) (boot blank 0)) = ESP_OK /\
  fst (nt3h2111_get_ndef bench demo_device w)
  = (ESP_OK, Some (879, repeat 170 111 ++ repeat 0 768)).
Proof. cbn zeta. split; vm_compute; reflexivity. Qed.

(** ** What the 8-bit offset means for the regions *)

(** The translator takes its offset modulo 256, on every platform. *)
Lemma raw_offset_is_8_bit {B} (P : Platform B) device offset len data w :
  nt3h2111_read_raw P device offset len w = nt3h2111_read_raw P device (u8 offset) len w /\
  nt3h2111_write_raw P device offset len data w
  = nt3h2111_write_raw P device (u8 offset) len data w.
Proof.
  unfold nt3h2111_read_raw, nt3h2111_write_raw. rewrite u8_idem. split; reflexivity.
Qed.

(** An SRAM access is forwarded with offset 3968, which the translator takes
    for 128: on the store whose bytes hold their page index, reading the first
    SRAM page returns page 8, which lies in the user data, not page 248. *)
Example read_sram_reads_page_8 :
  fst (nt3h2111_read_sram bench demo_device 0 16 (boot page_tags 0))
  = (ESP_OK, repeat 8 16) /\
  bytes_at page_tags 3968 16 = repeat 248 16.
Proof. split; vm_compute; reflexivity. Qed.

(** In the same way user offset 240 is raw offset 0: the read returns the
    first byte of the device header. *)
Example read_user_240_reads_header :
  fst (nt3h2111_read_user bench demo_device 240 1 (boot page_tags 0)) = (ESP_OK, [0]) /\
  bytes_at page_tags (16 + 240) 1 = [16].
Proof. split; vm_compute; reflexivity. Qed.

(** The part of C3 that holds for the raw functions: at an offset that is a
    multiple of 16 a transfer of length zero returns [ESP_OK] and leaves the
    world as it was. *)
Lemma zero_length_raw_aligned {B} (P : Platform B) device offset data w :
  u8 offset mod 16 = 0 ->
  nt3h2111_read_raw P device offset 0 w = ((ESP_OK, []), w) /\
  nt3h2111_write_raw P device offset 0 data w = (ESP_OK, w).
Proof.
  intros A.
  assert (Hmis : (Z.land (u8 offset) 15 =? 0) = true)
    by (rewrite land_15; apply Z.eqb_eq; exact A).
  split.
  - unfold nt3h2111_read_raw, and_then. rewrite !bind_eq.
    unfold read_head. cbn [c_offset c_len c_data]. rewrite Hmis.
    cbn [ret fst snd]. rewrite bind_eq, read_pages_short by (cbn; lia).
    cbn [fst snd]. rewrite read_tail_zero by reflexivity. reflexivity.
  - unfold nt3h2111_write_raw, and_then. rewrite !bind_eq.
    unfold write_head. cbn [c_offset c_len c_data]. rewrite Hmis.
    cbn [ret fst snd]. rewrite bind_eq, write_pages_short by (cbn; lia).
    cbn [fst snd]. rewrite write_tail_zero by reflexivity. reflexivity.
Qed.

(** * Further properties of the driver *)

(** ** The wait before a page transfer *)

Section WaitBounds.

Context {B : Type}.
Variable P : Platform B.
Variable device : NT3H2111.

Lemma wait_loop_overshoot fuel : forall w,
  (last_write_time w + 5000 <= clock w -> clock (snd (wait_loop P fuel w)) = clock w) /\
  (clock w < last_write_time w + 5000 ->
   clock (snd (wait_loop P fuel w)) < last_write_time w + 5000 + Z.pos (yield_us P)).
Proof.
  induction fuel as [|fuel IH]; intros w.
  - cbn. split; intros; [reflexivity | lia].
  - rewrite wait_loop_step.
    destruct (Z.gtb_spec (last_write_time w + 5000) (clock w)) as [G|G].
    + split; [lia|]. intros _.
      set (w1 := snd (sched_yield P w)).
      assert (C1 : clock w1 = clock w + Z.pos (yield_us P)) by reflexivity.
      assert (L1 : last_write_time w1 = last_write_time w) by reflexivity.
      destruct (IH w1) as [I1 I2]. rewrite C1, L1 in I1, I2.
      destruct (Z.le_gt_cases (last_write_time w + 5000) (clock w + Z.pos (yield_us P))).
      * rewrite I1 by assumption. lia.
      * apply I2. lia.
    + cbn. split; intros; [reflexivity | lia].
Qed.

Lemma commit_time_at_once (w : World B) :
  last_write_time w + 5000 <= clock w -> commit_time P w = clock w.
Proof.
  intros H. unfold commit_time, wait_for_commit.
  apply (wait_loop_overshoot (Z.to_nat (last_write_time w + 5000 - clock w)) w). exact H.
Qed.

Lemma commit_time_overshoot (w : World B) :
  clock w < last_write_time w + 5000 ->
  commit_time P w < last_write_time w + 5000 + Z.pos (yield_us P).
Proof.
  intros H. unfold commit_time, wait_for_commit.
  apply (wait_loop_overshoot (Z.to_nat (last_write_time w + 5000 - clock w)) w). exact H.
Qed.

(** X1.  The wait that precedes every page transfer changes nothing but the
    clock.  It ends at the first reading of the timer, a yield apart, that is
    not before [last_write_time + 5000]: it is over at once when that time
    has passed already, and otherwise runs past it by less than one yield. *)
Theorem wait_stops_at_deadline (w : World B) :
  wait_for_commit P w
  = (tt, mkWorld (chip w) (commit_time P w) (last_write_time w) (trace w)) /\
  Z.max (clock w) (last_write_time w + 5000) <= commit_time P w /\
  commit_time P w < Z.max (clock w) (last_write_time w + 5000) + Z.pos (yield_us P).
Proof.
  split; [apply wait_for_commit_world|].
  pose proof (commit_time_clock P w) as H1.
  pose proof (commit_time_deadline P w) as H2.
  split; [lia|].
  destruct (Z.le_gt_cases (last_write_time w + 5000) (clock w)) as [L|G].
  - rewrite commit_time_at_once by exact L. lia.
  - pose proof (commit_time_overshoot w ltac:(lia)). lia.
Qed.

(** X2.  A page read waits like a page write but leaves the time stamp
    alone: a page read that follows a page write starts at least 5000
    microseconds after the stamp of the write, and the page read after that
    one starts as soon as it has ended. *)
Theorem read_waits_for_last_write (p q r : Z) (d : list Z) (w : World B) :
  let dt := Z.of_N (xfer_us P) in
  let w1 := snd (nt3h2111_write_page P device p d w) in
  let w2 := snd (nt3h2111_read_page P device q w1) in
  let w3 := snd (nt3h2111_read_page P device r w2) in
  exists s2 s3,
    trace w2 = BusRead (u8 q) s2 (s2 + dt) :: trace w1 /\
    trace w3 = BusRead (u8 r) s3 (s3 + dt) :: trace w2 /\
    last_write_time w3 = last_write_time w1 /\
    last_write_time w1 + 5000 <= s2 /\
    s3 = s2 + dt.
Proof.
  intros dt w1 w2 w3.
  exists (commit_time P w1), (commit_time P w2).
  subst w3 w2. rewrite !read_page_eq. cbn zeta. cbn [snd trace last_write_time].
  split; [reflexivity|]. split; [reflexivity|]. split; [reflexivity|].
  split; [apply commit_time_deadline|].
  rewrite commit_time_at_once; cbn [clock last_write_time]; [reflexivity|].
  pose proof (commit_time_deadline P w1). subst dt. lia.
Qed.

End WaitBounds.

(** ** Unfolding the translator one step *)

Lemma and_then_eq {B} (m : M B Step) (k : Cursor -> M B Step) w :
  and_then m k w =
  match fst (m w) with
  | Return res => (Return res, snd (m w))
  | Next c => k c (snd (m w))
  end.
Proof. unfold and_then, bind, ret. destruct (m w) as [[res|c] w']; reflexivity. Qed.

Lemma read_raw_eq {B} (P : Platform B) device offset len w :
  nt3h2111_read_raw P device offset len w =
  let r := and_then (read_head P device (mkCursor (u8 offset) (u8 len) []))
             (fun c => and_then (read_pages P page_loop_fuel device c) (read_tail P device)) w in
  match fst r with
  | Return res => ((res, []), snd r)
  | Next c => ((ESP_OK, c_data c), snd r)
  end.
Proof.
  unfold nt3h2111_read_raw. rewrite bind_eq. cbv zeta.
  destruct (fst _); reflexivity.
Qed.

Lemma write_raw_eq {B} (P : Platform B) device offset len data w :
  nt3h2111_write_raw P device offset len data w =
  let r := and_then (write_head P device (mkCursor (u8 offset) (u8 len) data))
             (fun c => and_then (write_pages P page_loop_fuel device c) (write_tail P device)) w in
  match fst r with
  | Return res => (res, snd r)
  | Next _ => (ESP_OK, snd r)
  end.
Proof.
  unfold nt3h2111_write_raw. rewrite bind_eq. cbv zeta.
  destruct (fst _); reflexivity.
Qed.

Lemma read_pages_S {B} (P : Platform B) fuel device c w :
  read_pages P (S fuel) device c w =
  if c_len c >=? 16 then
    let r := nt3h2111_read_page P device (c_offset c / 16) w in
    if negb (fst (fst r) =? 0) then (Return (fst (fst r)), snd r)
    else read_pages P fuel device
           (mkCursor (u8 (c_offset c + 16)) (u8 (c_len c - 16)) (c_data c ++ snd (fst r)))
           (snd r)
  else (Next c, w).
Proof.
  cbn [read_pages]. destruct (c_len c >=? 16); [|reflexivity].
  rewrite bind_eq. cbv zeta.
  destruct (fst (nt3h2111_read_page P device (c_offset c / 16) w)) as [res page].
  cbn [fst snd]. destruct (res =? 0); reflexivity.
Qed.

Lemma write_pages_S {B} (P : Platform B) fuel device c w :
  write_pages P (S fuel) device c w =
  if c_len c >=? 16 then
    let r := nt3h2111_write_page P device (c_offset c / 16) (c_data c) w in
    if negb (fst r =? 0) then (Return (fst r), snd r)
    else write_pages P fuel device
           (mkCursor (u8 (c_offset c + 16)) (u8 (c_len c - 16)) (skipn 16 (c_data c)))
           (snd r)
  else (Next c, w).
Proof.
  cbn [write_pages]. destruct (c_len c >=? 16); [|reflexivity].
  rewrite bind_eq. cbv zeta.
  destruct (fst (nt3h2111_write_page P device (c_offset c / 16) (c_data c) w) =? 0);
    reflexivity.
Qed.

(** ** What a transfer puts on the bus *)

Lemma bus_reads_app es es' : bus_reads (es ++ es') = (bus_reads es + bus_reads es')%nat.
Proof. unfold bus_reads. rewrite filter_app, length_app. reflexivity. Qed.

Lemma bus_writes_app es es' : bus_writes (es ++ es') = (bus_writes es + bus_writes es')%nat.
Proof. unfold bus_writes. rewrite filter_app, length_app. reflexivity. Qed.

Lemma bus_run_refl {B} (w : World B) r wr : 0 <= r -> 0 <= wr -> bus_run w w r wr.
Proof. intros Hr Hw. exists []. cbn. repeat split; lia. Qed.

Lemma bus_run_trans {B} (w w1 w2 : World B) r1 wr1 r2 wr2 r wr :
  bus_run w w1 r1 wr1 -> bus_run w1 w2 r2 wr2 ->
  r1 + r2 <= r -> wr1 + wr2 <= wr ->
  bus_run w w2 r wr.
Proof.
  intros (es1 & E1 & R1 & W1) (es2 & E2 & R2 & W2) Hr Hw.
  exists (es2 ++ es1). rewrite E2, E1, app_assoc, bus_reads_app, bus_writes_app.
  repeat split; lia.
Qed.

Section BusRuns.

Context {B : Type}.
Variable P : Platform B.
Variable device : NT3H2111.

Lemma read_page_run page w :
  bus_run w (snd (nt3h2111_read_page P device page w)) 1 0 /\
  last_write_time (snd (nt3h2111_read_page P device page w)) = last_write_time w.
Proof.
  rewrite read_page_eq. cbn zeta. cbn [snd last_write_time]. split; [|reflexivity].
  eexists [_]. cbn [trace app]. split; [reflexivity|]. cbn. lia.
Qed.

Lemma write_page_run page data w :
  bus_run w (snd (nt3h2111_write_page P device page data w)) 0 1.
Proof.
  rewrite write_page_eq. cbn zeta. cbn [snd].
  eexists [_]. cbn [trace app]. split; [reflexivity|]. cbn. lia.
Qed.

Lemma head_length_left offset len :
  0 <= len < 256 ->
  0 <= u8 (len - (if 16 - Z.land offset 15 <? len then 16 - Z.land offset 15 else len)) <= len.
Proof.
  intros Hl. rewrite land_15.
  pose proof (Z.mod_pos_bound offset 16 ltac:(lia)).
  destruct (Z.ltb_spec (16 - offset mod 16) len); rewrite u8_small; lia.
Qed.

Lemma read_head_run c w :
  0 <= c_len c < 256 ->
  bus_run w (snd (read_head P device c w)) 1 0 /\
  last_write_time (snd (read_head P device c w)) = last_write_time w /\
  forall c', fst (read_head P device c w) = Next c' -> 0 <= c_len c' <= c_len c.
Proof.
  intros Hl. pose proof (head_length_left (c_offset c) (c_len c) Hl) as HL.
  unfold read_head.
  destruct (Z.land (c_offset c) 15 =? 0).
  - cbn [ret fst snd]. split; [apply bus_run_refl; lia|]. split; [reflexivity|].
    intros c' E. injection E as <-. lia.
  - rewrite bind_eq.
    destruct (read_page_run (c_offset c / 16) w) as [R S].
    destruct (fst (nt3h2111_read_page P device (c_offset c / 16) w)) as [res tmp].
    destruct (res =? 0); cbn [negb ret fst snd].
    + split; [exact R|]. split; [exact S|].
      intros c' E. injection E as <-. cbn [c_len]. exact HL.
    + split; [exact R|]. split; [exact S|]. intros c' E. discriminate.
Qed.

Lemma read_pages_run fuel : forall c w,
  0 <= c_len c < 256 ->
  bus_run w (snd (read_pages P fuel device c w)) (c_len c / 16) 0 /\
  last_write_time (snd (read_pages P fuel device c w)) = last_write_time w /\
  forall c', fst (read_pages P fuel device c w) = Next c' -> 0 <= c_len c' <= c_len c.
Proof.
  induction fuel as [|fuel IH]; intros c w Hl.
  - cbn [read_pages ret fst snd].
    split; [apply bus_run_refl; [apply Z.div_pos|]; lia|]. split; [reflexivity|].
    intros c' E. injection E as <-. lia.
  - cbn [read_pages].
    destruct (Z.geb_spec (c_len c) 16) as [G|G].
    + rewrite bind_eq.
      destruct (read_page_run (c_offset c / 16) w) as [R S].
      assert (Hd : 1 + (c_len c - 16) / 16 <= c_len c / 16) by euclid.
      destruct (fst (nt3h2111_read_page P device (c_offset c / 16) w)) as [res page].
      destruct (res =? 0); cbn [negb].
      * set (c1 := mkCursor _ _ _).
        assert (L1 : c_len c1 = c_len c - 16) by (unfold c1; cbn [c_len]; apply u8_small; lia).
        destruct (IH c1 (snd (nt3h2111_read_page P device (c_offset c / 16) w))) as (R' & S' & N');
          [lia|].
        split; [|split].
        -- eapply bus_run_trans; [exact R | exact R' | rewrite L1; lia | lia].
        -- rewrite S'. exact S.
        -- intros c' E. specialize (N' c' E). lia.
      * cbn [ret fst snd]. split; [|split; [exact S|intros c' E; discriminate]].
        eapply bus_run_trans; [exact R | apply (bus_run_refl _ 0 0); lia | | lia].
        assert (0 <= (c_len c - 16) / 16) by (apply Z.div_pos; lia). lia.
    + cbn [ret fst snd].
      split; [apply bus_run_refl; [apply Z.div_pos|]; lia|]. split; [reflexivity|].
      intros c' E. injection E as <-. lia.
Qed.

Lemma read_tail_run c w :
  bus_run w (snd (read_tail P device c w)) 1 0 /\
  last_write_time (snd (read_tail P device c w)) = last_write_time w.
Proof.
  unfold read_tail.
  destruct (c_len c =? 0).
  - cbn [ret snd]. split; [apply bus_run_refl; lia | reflexivity].
  - rewrite bind_eq.
    destruct (read_page_run (c_offset c / 16) w) as [R S].
    destruct (fst (nt3h2111_read_page P device (c_offset c / 16) w)) as [res tmp].
    destruct (res =? 0); cbn [negb ret snd]; split; assumption.
Qed.

(** A raw read puts page reads on the bus and nothing else, at most two more
    than the length holds whole pages, and leaves the time stamp alone. *)
Lemma read_raw_run offset len w :
  bus_run w (snd (nt3h2111_read_raw P device offset len w)) (u8 len / 16 + 2) 0 /\
  last_write_time (snd (nt3h2111_read_raw P device offset len w)) = last_write_time w.
Proof.
  pose proof (u8_range len) as Hl.
  assert (H0 : 0 <= u8 len / 16) by (apply Z.div_pos; lia).
  rewrite read_raw_eq. cbv zeta.
  assert (H : forall r, r = and_then (read_head P device (mkCursor (u8 offset) (u8 len) []))
                (fun c => and_then (read_pages P page_loop_fuel device c) (read_tail P device)) w ->
              bus_run w (snd r) (u8 len / 16 + 2) 0 /\
              last_write_time (snd r) = last_write_time w).
  { intros r ->. rewrite and_then_eq.
    destruct (read_head_run (mkCursor (u8 offset) (u8 len) []) w Hl) as (R1 & S1 & N1).
    remember (read_head P device (mkCursor (u8 offset) (u8 len) []) w) as r1 eqn:E1.
    destruct r1 as [[res|c1] w1]; cbn [fst snd] in *.
    - split; [|exact S1]. apply (bus_run_trans w w1 w1 1 0 0 0); auto.
      + apply bus_run_refl; lia.
      + lia.
      + lia.
    - specialize (N1 c1 eq_refl). cbn [c_len] in N1.
      rewrite and_then_eq.
      destruct (read_pages_run page_loop_fuel c1 w1 ltac:(lia)) as (R2 & S2 & N2).
      assert (Hd : c_len c1 / 16 <= u8 len / 16) by (apply Z.div_le_mono; lia).
      remember (read_pages P page_loop_fuel device c1 w1) as r2 eqn:E2.
      destruct r2 as [[res|c2] w2]; cbn [fst snd] in *.
      + split; [|rewrite S2; exact S1].
        apply (bus_run_trans w w1 w2 1 0 (c_len c1 / 16) 0); auto; lia.
      + destruct (read_tail_run c2 w2) as (R3 & S3).
        split; [|rewrite S3, S2; exact S1].
        apply (bus_run_trans w w2 _ (u8 len / 16 + 1) 0 1 0); auto; try lia.
        apply (bus_run_trans w w1 w2 1 0 (c_len c1 / 16) 0); auto; lia. }
  specialize (H _ eq_refl).
  destruct (fst _); exact H.
Qed.

End BusRuns.

Section BusRunsOfWrites.

Context {B : Type}.
Variable P : Platform B.
Variable device : NT3H2111.

Lemma write_head_run c w :
  0 <= c_len c < 256 ->
  bus_run w (snd (write_head P device c w)) 1 1 /\
  forall c', fst (write_head P device c w) = Next c' -> 0 <= c_len c' <= c_len c.
Proof.
  intros Hl. pose proof (head_length_left (c_offset c) (c_len c) Hl) as HL.
  unfold write_head.
  destruct (Z.land (c_offset c) 15 =? 0).
  - cbn [ret fst snd]. split; [apply bus_run_refl; lia|].
    intros c' E. injection E as <-. lia.
  - rewrite bind_eq.
    destruct (read_page_run P device (c_offset c / 16) w) as [R _].
    set (w1 := snd (nt3h2111_read_page P device (c_offset c / 16) w)) in *.
    destruct (fst (nt3h2111_read_page P device (c_offset c / 16) w)) as [res tmp].
    destruct (res =? 0); cbn [negb].
    + rewrite bind_eq.
      match goal with |- context [nt3h2111_write_page P device ?p ?d w1] =>
        pose proof (write_page_run P device p d w1) as R';
        set (r := nt3h2111_write_page P device p d w1) in *
      end.
      assert (R2 : bus_run w (snd r) 1 1)
        by (eapply bus_run_trans; [exact R | exact R' | lia | lia]).
      destruct (fst r =? 0); cbn [negb ret fst snd].
      * split; [exact R2|]. intros c' E. injection E as <-. cbn [c_len]. exact HL.
      * split; [exact R2|]. intros c' E. discriminate.
    + cbn [ret fst snd]. split; [|intros c' E; discriminate].
      eapply bus_run_trans; [exact R | apply (bus_run_refl _ 0 0); lia | lia | lia].
Qed.

Lemma write_pages_run fuel : forall c w,
  0 <= c_len c < 256 ->
  bus_run w (snd (write_pages P fuel device c w)) 0 (c_len c / 16) /\
  forall c', fst (write_pages P fuel device c w) = Next c' -> 0 <= c_len c' <= c_len c.
Proof.
  induction fuel as [|fuel IH]; intros c w Hl.
  - cbn [write_pages ret fst snd].
    split; [apply bus_run_refl; [|apply Z.div_pos]; lia|].
    intros c' E. injection E as <-. lia.
  - cbn [write_pages].
    destruct (Z.geb_spec (c_len c) 16) as [G|G].
    + rewrite bind_eq.
      pose proof (write_page_run P device (c_offset c / 16) (c_data c) w) as R.
      assert (Hd : 1 + (c_len c - 16) / 16 <= c_len c / 16) by euclid.
      set (r := nt3h2111_write_page P device (c_offset c / 16) (c_data c) w) in *.
      destruct (fst r =? 0); cbn [negb].
      * set (c1 := mkCursor _ _ _).
        assert (L1 : c_len c1 = c_len c - 16) by (unfold c1; cbn [c_len]; apply u8_small; lia).
        destruct (IH c1 (snd r)) as (R' & N'); [lia|].
        split.
        -- eapply bus_run_trans; [exact R | exact R' | lia | rewrite L1; lia].
        -- intros c' E. specialize (N' c' E). lia.
      * cbn [ret fst snd]. split; [|intros c' E; discriminate].
        eapply bus_run_trans; [exact R | apply (bus_run_refl _ 0 0); lia | lia |].
        assert (0 <= (c_len c - 16) / 16) by (apply Z.div_pos; lia). lia.
    + cbn [ret fst snd].
      split; [apply bus_run_refl; [|apply Z.div_pos]; lia|].
      intros c' E. injection E as <-. lia.
Qed.

Lemma write_tail_run c w :
  bus_run w (snd (write_tail P device c w)) 1 1.
Proof.
  unfold write_tail.
  destruct (c_len c =? 0).
  - cbn [ret snd]. apply bus_run_refl; lia.
  - rewrite bind_eq.
    destruct (read_page_run P device (c_offset c / 16) w) as [R _].
    set (w1 := snd (nt3h2111_read_page P device (c_offset c / 16) w)) in *.
    destruct (fst (nt3h2111_read_page P device (c_offset c / 16) w)) as [res tmp].
    destruct (res =? 0); cbn [negb].
    + rewrite bind_eq.
      match goal with |- context [nt3h2111_write_page P device ?p ?d w1] =>
        pose proof (write_page_run P device p d w1) as R';
        set (r := nt3h2111_write_page P device p d w1) in *
      end.
      assert (R2 : bus_run w (snd r) 1 1)
        by (eapply bus_run_trans; [exact R | exact R' | lia | lia]).
      destruct (fst r =? 0); cbn [negb ret snd]; exact R2.
    + cbn [ret snd].
      eapply bus_run_trans; [exact R | apply (bus_run_refl _ 0 0); lia | lia | lia].
Qed.

Lemma write_raw_run offset len data w :
  bus_run w (snd (nt3h2111_write_raw P device offset len data w)) 2 (u8 len / 16 + 2).
Proof.
  pose proof (u8_range len) as Hl.
  assert (H0 : 0 <= u8 len / 16) by (apply Z.div_pos; lia).
  rewrite write_raw_eq. cbv zeta.
  assert (H : forall r, r = and_then (write_head P device (mkCursor (u8 offset) (u8 len) data))
                (fun c => and_then (write_pages P page_loop_fuel device c) (write_tail P device)) w ->
              bus_run w (snd r) 2 (u8 len / 16 + 2)).
  { intros r ->. rewrite and_then_eq.
    destruct (write_head_run (mkCursor (u8 offset) (u8 len) data) w Hl) as (R1 & N1).
    remember (write_head P device (mkCursor (u8 offset) (u8 len) data) w) as r1 eqn:E1.
    destruct r1 as [[res|c1] w1]; cbn [fst snd] in *.
    - apply (bus_run_trans w w1 w1 1 1 0 0); auto.
      + apply bus_run_refl; lia.
      + lia.
      + lia.
    - specialize (N1 c1 eq_refl). cbn [c_len] in N1.
      rewrite and_then_eq.
      destruct (write_pages_run page_loop_fuel c1 w1 ltac:(lia)) as (R2 & N2).
      assert (Hd : c_len c1 / 16 <= u8 len / 16) by (apply Z.div_le_mono; lia).
      remember (write_pages P page_loop_fuel device c1 w1) as r2 eqn:E2.
      destruct r2 as [[res|c2] w2]; cbn [fst snd] in *.
      + apply (bus_run_trans w w1 w2 1 1 0 (c_len c1 / 16)); auto; lia.
      + pose proof (write_tail_run c2 w2) as R3.
        apply (bus_run_trans w w2 _ 1 (u8 len / 16 + 1) 1 1); auto; try lia.
        apply (bus_run_trans w w1 w2 1 1 0 (c_len c1 / 16)); auto; lia. }
  specialize (H _ eq_refl).
  destruct (fst _); exact H.
Qed.

(** X3.  Whatever the transport does, a raw read puts nothing but page reads
    on the bus, at most two more than its length holds whole pages, and leaves
    the commit time stamp as it was. *)
Theorem read_raw_only_reads (offset len : Z) (w : World B) :
  bus_run w (snd (nt3h2111_read_raw P device offset len w)) (u8 len / 16 + 2) 0 /\
  last_write_time (snd (nt3h2111_read_raw P device offset len w)) = last_write_time w.
Proof. apply read_raw_run. Qed.

(** X4.  Whatever the transport does, a raw write reads at most two pages,
    the partly covered one at either end, and writes at most two pages more
    than its length holds whole pages. *)
Theorem write_raw_reads_two_pages_at_most (offset len : Z) (data : list Z) (w : World B) :
  bus_run w (snd (nt3h2111_write_raw P device offset len data w)) 2 (u8 len / 16 + 2).
Proof. apply write_raw_run. Qed.

Lemma bus_run_weaken (w w' : World B) r wr r' wr' :
  bus_run w w' r wr -> r <= r' -> wr <= wr' -> bus_run w w' r' wr'.
Proof. intros (es & E & R & W) Hr Hw. exists es. repeat split; [exact E | lia | lia]. Qed.

Lemma read_raw_run_17 offset len w :
  bus_run w (snd (nt3h2111_read_raw P device offset len w)) 17 0 /\
  last_write_time (snd (nt3h2111_read_raw P device offset len w)) = last_write_time w.
Proof.
  destruct (read_raw_run P device offset len w) as [R S]. split; [|exact S].
  apply (bus_run_weaken _ _ _ _ _ _ R); [|lia].
  pose proof (u8_range len). euclid.
Qed.

Lemma read_user_run offset len w :
  bus_run w (snd (nt3h2111_read_user P device offset len w)) 17 0 /\
  last_write_time (snd (nt3h2111_read_user P device offset len w)) = last_write_time w.
Proof.
  unfold nt3h2111_read_user.
  destruct (u8 len =? 0); [cbn [ret snd]; split; [apply bus_run_refl; lia | reflexivity]|].
  destruct (u16 offset + u8 len >? NT3H2111_USERDATA_LEN);
    [cbn [ret snd]; split; [apply bus_run_refl; lia | reflexivity]|].
  apply read_raw_run_17.
Qed.

(** X5.  The reading half of the interface never writes to the chip and
    never arms the commit timer, whatever the transport does: region reads,
    the serial number, the capability container and the NDEF decoder put page
    reads on the bus only, at most 17 of them, the decoder one more. *)
Theorem readers_never_write (offset len : Z) (w : World B) :
  (bus_run w (snd (nt3h2111_read_user P device offset len w)) 17 0 /\
   last_write_time (snd (nt3h2111_read_user P device offset len w)) = last_write_time w) /\
  (bus_run w (snd (nt3h2111_read_sram P device offset len w)) 17 0 /\
   last_write_time (snd (nt3h2111_read_sram P device offset len w)) = last_write_time w) /\
  (bus_run w (snd (nt3h2111_get_serial P device w)) 17 0 /\
   last_write_time (snd (nt3h2111_get_serial P device w)) = last_write_time w) /\
  (bus_run w (snd (nt3h2111_get_cc P device w)) 17 0 /\
   last_write_time (snd (nt3h2111_get_cc P device w)) = last_write_time w) /\
  (bus_run w (snd (nt3h2111_get_ndef P device w)) 18 0 /\
   last_write_time (snd (nt3h2111_get_ndef P device w)) = last_write_time w).
Proof.
  split; [apply read_user_run|]. split; [|split; [|split]].
  - unfold nt3h2111_read_sram.
    destruct (u8 len =? 0); [cbn [ret snd]; split; [apply bus_run_refl; lia | reflexivity]|].
    destruct (u8 offset + u8 len >? NT3H2111_SRAM_LEN);
      [cbn [ret snd]; split; [apply bus_run_refl; lia | reflexivity]|].
    apply read_raw_run_17.
  - unfold nt3h2111_get_serial. rewrite bind_eq.
    destruct (read_raw_run_17 1 6 w) as [R S].
    destruct (fst (nt3h2111_read_raw P device 1 6 w)) as [res tmp].
    destruct (res =? 0); cbn [ret snd]; split; assumption.
  - unfold nt3h2111_get_cc. rewrite bind_eq.
    destruct (read_raw_run_17 12 4 w) as [R S].
    destruct (fst (nt3h2111_read_raw P device 12 4 w)) as [res tmp].
    destruct (res =? 0); cbn [ret snd]; split; assumption.
  - unfold nt3h2111_get_ndef. rewrite bind_eq.
    destruct (read_page_run P device 1 w) as [R S].
    set (w1 := snd (nt3h2111_read_page P device 1 w)) in *.
    assert (R0 : bus_run w w1 18 0) by (apply (bus_run_weaken _ _ _ _ _ _ R); lia).
    destruct (fst (nt3h2111_read_page P device 1 w)) as [res tmp].
    destruct (negb (nth 0 tmp 0 =? 3)); [cbn [ret snd]; split; assumption|].
    destruct (if nth 1 tmp 0 =? 255 then _ else _) as [ndef_len off].
    destruct (malloc P ndef_len) as [buf|]; [|cbn [ret snd]; split; assumption].
    rewrite bind_eq.
    destruct (read_user_run off ndef_len w1) as [R' S'].
    assert (R1 : bus_run w (snd (nt3h2111_read_user P device off ndef_len w1)) 18 0)
      by (eapply bus_run_trans; [exact R | exact R' | lia | lia]).
    destruct (fst (nt3h2111_read_user P device off ndef_len w1)) as [res' got].
    destruct (negb (res' =? 0)); cbn [ret snd]; (split; [exact R1 | rewrite S'; exact S]).
Qed.

End BusRunsOfWrites.

(** ** A transport that gives up *)

Section GivingUp.

Variable stale : list Z.
Variable yield : positive.
Variable xfer : N.
Variable shl : Z -> Z -> Z.
Variable alloc : Z -> option (list Z).
Variable device : NT3H2111.

Local Abbreviation F := (flaky stale yield xfer shl alloc).

Lemma read_page_dead page w :
  fl_budget (chip w) = O ->
  exists w', nt3h2111_read_page F device page w = ((ESP_FAIL, stale), w') /\
    chip w' = chip w /\ length (trace w') = S (length (trace w)).
Proof.
  intros H. rewrite read_page_eq. cbn [i2c_read_reg flaky]. rewrite H. cbn zeta.
  eexists. split; [reflexivity|]. split; reflexivity.
Qed.

Lemma write_page_dead page data w :
  fl_budget (chip w) = O ->
  exists w', nt3h2111_write_page F device page data w = (ESP_FAIL, w') /\
    chip w' = chip w /\ length (trace w') = S (length (trace w)).
Proof.
  intros H. rewrite write_page_eq. cbn [i2c_write_reg_n flaky]. rewrite H. cbn zeta.
  eexists. split; [reflexivity|]. split; reflexivity.
Qed.

Lemma write_page_alive page data w n :
  fl_budget (chip w) = S n ->
  exists w', nt3h2111_write_page F device page data w = (ESP_OK, w') /\
    chip w' = mkFlaky (store_write (u8 page) (firstn 16 data) (fl_store (chip w))) n.
Proof.
  intros H. rewrite write_page_eq. cbn [i2c_write_reg_n flaky]. rewrite H. cbn zeta.
  eexists. split; reflexivity.
Qed.

Lemma read_parts_dead c w :
  fl_budget (chip w) = O ->
  c_offset c mod 16 <> 0 \/ c_len c <> 0 -> 0 <= c_len c ->
  exists w',
    and_then (read_head F device c)
      (fun c => and_then (read_pages F page_loop_fuel device c) (read_tail F device)) w
    = (Return ESP_FAIL, w') /\
    chip w' = chip w /\ length (trace w') = S (length (trace w)).
Proof.
  intros Hb Hneed Hl.
  destruct (read_page_dead (c_offset c / 16) w Hb) as (w' & E & C & T).
  exists w'. split; [|split; assumption].
  rewrite and_then_eq. unfold read_head. rewrite land_15.
  destruct (Z.eqb_spec (c_offset c mod 16) 0) as [A|A].
  - assert (NZ : c_len c <> 0) by (destruct Hneed; [contradiction | assumption]).
    cbn [ret fst snd]. rewrite and_then_eq.
    change page_loop_fuel with (S 15). rewrite read_pages_S.
    destruct (Z.geb_spec (c_len c) 16) as [G|G].
    + cbv zeta. rewrite E. reflexivity.
    + cbn [fst snd]. unfold read_tail.
      replace (c_len c =? 0) with false by (symmetry; apply Z.eqb_neq; exact NZ).
      rewrite bind_eq, E. reflexivity.
  - rewrite bind_eq, E. reflexivity.
Qed.

Lemma write_parts_dead c w :
  fl_budget (chip w) = O ->
  c_offset c mod 16 <> 0 \/ c_len c <> 0 -> 0 <= c_len c ->
  exists w',
    and_then (write_head F device c)
      (fun c => and_then (write_pages F page_loop_fuel device c) (write_tail F device)) w
    = (Return ESP_FAIL, w') /\
    chip w' = chip w /\ length (trace w') = S (length (trace w)).
Proof.
  intros Hb Hneed Hl.
  destruct (read_page_dead (c_offset c / 16) w Hb) as (w' & E & C & T).
  destruct (write_page_dead (c_offset c / 16) (c_data c) w Hb) as (w'' & E' & C' & T').
  rewrite and_then_eq. unfold write_head. rewrite land_15.
  destruct (Z.eqb_spec (c_offset c mod 16) 0) as [A|A].
  - assert (NZ : c_len c <> 0) by (destruct Hneed; [contradiction | assumption]).
    cbn [ret fst snd]. rewrite and_then_eq.
    change page_loop_fuel with (S 15). rewrite write_pages_S.
    destruct (Z.geb_spec (c_len c) 16) as [G|G].
    + exists w''. split; [|split; assumption]. cbv zeta. rewrite E'. reflexivity.
    + exists w'. split; [|split; assumption].
      cbn [fst snd]. unfold write_tail.
      replace (c_len c =? 0) with false by (symmetry; apply Z.eqb_neq; exact NZ).
      rewrite bind_eq, E. reflexivity.
  - exists w'. split; [|split; assumption]. rewrite bind_eq, E. reflexivity.
Qed.

(** X6.  No retry: over a transport that fails every transaction, a raw
    transfer that needs the bus at all returns the error of the transport
    after a single transaction and leaves the chip as it was. *)
Theorem dead_transport_fails_fast (offset len : Z) (data : list Z) (w : World Flaky) :
  fl_budget (chip w) = O ->
  u8 offset mod 16 <> 0 \/ u8 len <> 0 ->
  let r := nt3h2111_read_raw F device offset len w in
  let s := nt3h2111_write_raw F device offset len data w in
  (fst r = (ESP_FAIL, []) /\ chip (snd r) = chip w /\
   length (trace (snd r)) = S (length (trace w))) /\
  (fst s = ESP_FAIL /\ chip (snd s) = chip w /\
   length (trace (snd s)) = S (length (trace w))).
Proof.
  intros Hb Hneed. cbv zeta.
  pose proof (u8_range len) as Hl.
  rewrite read_raw_eq, write_raw_eq. cbv zeta.
  destruct (read_parts_dead (mkCursor (u8 offset) (u8 len) []) w Hb Hneed (proj1 Hl))
    as (w1 & E1 & C1 & T1).
  destruct (write_parts_dead (mkCursor (u8 offset) (u8 len) data) w Hb Hneed (proj1 Hl))
    as (w2 & E2 & C2 & T2).
  rewrite E1, E2. cbn [fst snd]. auto.
Qed.

Lemma write_pages_partial fuel : forall c w k,
  fl_budget (chip w) = k ->
  0 <= c_offset c < 256 -> c_offset c mod 16 = 0 ->
  16 * (Z.of_nat k + 1) <= c_len c -> c_len c < 16 * Z.of_nat fuel -> c_len c < 256 ->
  c_len c <= Z.of_nat (length (c_data c)) ->
  exists w', write_pages F fuel device c w = (Return ESP_FAIL, w') /\
    fl_budget (chip w') = O /\
    laid_down (fl_store (chip w)) (fl_store (chip w')) (c_offset c) (16 * Z.of_nat k) (c_data c).
Proof.
  induction fuel as [|fuel IH]; intros c w k Hb Ho Ha Hk Hf Hl Hd.
  - cbn in Hf. lia.
  - rewrite write_pages_S.
    replace (c_len c >=? 16) with true by (symmetry; rewrite Z.geb_leb; apply Z.leb_le; lia).
    cbv zeta.
    destruct k as [|k].
    + destruct (write_page_dead (c_offset c / 16) (c_data c) w Hb) as (w' & E & C & _).
      rewrite E. cbn [fst snd ESP_FAIL Z.eqb negb].
      exists w'. split; [reflexivity|]. split; [congruence|].
      rewrite C. apply laid_down_refl.
    + destruct (write_page_alive (c_offset c / 16) (c_data c) w k Hb) as (w1 & E & C).
      rewrite E. cbn [fst snd ESP_OK Z.eqb negb].
      destruct (IH (mkCursor (u8 (c_offset c + 16)) (u8 (c_len c - 16)) (skipn 16 (c_data c)))
                  w1 k) as (w' & E' & B' & L'); cbn [c_offset c_len c_data].
      * rewrite C. reflexivity.
      * apply u8_range.
      * euclid.
      * rewrite u8_small; lia.
      * rewrite u8_small; lia.
      * rewrite u8_small; lia.
      * rewrite length_skipn, u8_small; lia.
      * exists w'. split; [exact E'|]. split; [exact B'|].
        cbn [c_offset c_len c_data] in L'.
        replace (16 * Z.of_nat (S k)) with (16 + 16 * Z.of_nat k) by lia.
        apply (laid_down_trans _ (fl_store (chip w1))); try lia.
        -- rewrite C. cbn [fl_store]. apply store_write_whole; lia.
        -- exact L'.
Qed.

(** X7.  No rollback: when the transport gives up in the middle of a write
    of whole pages within the first 256 bytes, the write returns the error,
    the pages written until then hold their data, and every other byte of the
    chip is as it was. *)
Theorem partial_write_stays (offset len : Z) (data : list Z) (w : World Flaky) (k : nat) :
  fl_budget (chip w) = k ->
  0 <= offset < 256 -> offset mod 16 = 0 ->
  16 * (Z.of_nat k + 1) <= len -> len < 256 -> offset + len <= 256 ->
  len <= Z.of_nat (length data) ->
  let r := nt3h2111_write_raw F device offset len data w in
  fst r = ESP_FAIL /\
  forall a, fl_store (chip (snd r)) a =
    if (offset <=? a) && (a <? offset + 16 * Z.of_nat k)
    then nth (Z.to_nat (a - offset)) data 0
    else fl_store (chip w) a.
Proof.
  intros Hb Ho Ha Hk Hl He Hd. cbv zeta.
  rewrite write_raw_eq. cbv zeta.
  rewrite (u8_small offset), (u8_small len) by lia.
  rewrite and_then_eq. unfold write_head. cbn [c_offset c_len c_data].
  replace (Z.land offset 15 =? 0) with true
    by (symmetry; rewrite land_15; apply Z.eqb_eq; exact Ha).
  cbn [ret fst snd]. rewrite and_then_eq.
  assert (Hf : len < 16 * Z.of_nat page_loop_fuel) by (unfold page_loop_fuel; lia).
  destruct (write_pages_partial page_loop_fuel (mkCursor offset len data) w k
              Hb Ho Ha Hk Hf Hl Hd) as (w' & E & _ & L).
  cbn [c_offset c_len c_data] in L.
  rewrite E. cbn [fst snd]. split; [reflexivity|].
  intros a. rewrite L.
  assert (Hend : offset + 16 * Z.of_nat k <= 256) by lia.
  rewrite in_window_interval by lia.
  destruct ((offset <=? a) && (a <? offset + 16 * Z.of_nat k)) eqn:Ew; [|reflexivity].
  apply andb_prop in Ew. destruct Ew as [E1 E2].
  apply Z.leb_le in E1. apply Z.ltb_lt in E2.
  f_equal. f_equal. apply Z.mod_small. lia.
Qed.

End GivingUp.

Lemma dead_transport_fails_fast_witness :
  let w := boot (mkFlaky page_tags 0) 0 in
  fst (nt3h2111_read_raw flaky_bench demo_device 20 3 w) = (ESP_FAIL, []) /\
  fst (nt3h2111_write_raw flaky_bench demo_device 20 3 [1; 2; 3] w) = ESP_FAIL /\
  chip (snd (nt3h2111_write_raw flaky_bench demo_device 20 3 [1; 2; 3] w)) = chip w.
Proof.
  cbv zeta.
  assert (H : u8 20 mod 16 <> 0 \/ u8 3 <> 0) by (left; vm_compute; discriminate).
  destruct (dead_transport_fails_fast (repeat 0 16) 1%positive 400%N (fun _ _ => 0) zeroed
              demo_device 20 3 [1; 2; 3] (boot (mkFlaky page_tags 0) 0) eq_refl H)
    as [(R1 & _ & _) (S1 & S2 & _)].
  split; [exact R1|]. split; [exact S1 | exact S2].
Defined.

Lemma partial_write_stays_witness :
  let w := boot (mkFlaky page_tags 1) 0 in
  let r := nt3h2111_write_raw flaky_bench demo_device 32 48 (repeat 170 48) w in
  fst r = ESP_FAIL /\
  fl_store (chip (snd r)) 31 = 1 /\ fl_store (chip (snd r)) 32 = 170 /\
  fl_store (chip (snd r)) 47 = 170 /\ fl_store (chip (snd r)) 48 = 3.
Proof.
  cbv zeta.
  assert (H1 : 0 <= 32 < 256) by lia.
  assert (H2 : 32 mod 16 = 0) by reflexivity.
  assert (H3 : 16 * (Z.of_nat 1 + 1) <= 48) by (cbn; lia).
  assert (H4 : 48 < 256) by lia.
  assert (H4' : 32 + 48 <= 256) by lia.
  assert (H5 : 48 <= Z.of_nat (length (repeat 170 48))) by (rewrite repeat_length; lia).
  destruct (partial_write_stays (repeat 0 16) 1%positive 400%N (fun _ _ => 0) zeroed
              demo_device 32 48 (repeat 170 48) (boot (mkFlaky page_tags 1) 0) 1
              eq_refl H1 H2 H3 H4 H4' H5) as [R L].
  split; [exact R|]. rewrite !L. repeat split.
Defined.

(** ** Transfers within the first 256 bytes of the page store *)

Section FirstPages.

Variable yield : positive.
Variable xfer : N.
Variable shl : Z -> Z -> Z.
Variable alloc : Z -> option (list Z).
Variable device : NT3H2111.

Local Abbreviation P := (reference yield xfer shl alloc).

(** X8.  A raw read of a range that ends within the first 256 bytes returns
    [ESP_OK] and exactly the bytes of the range, for every alignment, and
    leaves the chip as it was. *)
Theorem read_raw_exact (offset len : Z) (w : World PageStore) :
  0 <= offset -> 0 <= len < 256 -> offset + len <= 256 ->
  fst (nt3h2111_read_raw P device offset len w)
  = (ESP_OK, bytes_at (chip w) offset (Z.to_nat len)) /\
  chip (snd (nt3h2111_read_raw P device offset len w)) = chip w.
Proof.
  intros Ho Hl Hb. split; [apply read_raw_first_256; assumption|].
  destruct (read_raw_ref yield xfer shl alloc device offset len w) as (w' & E & C).
  rewrite E. exact C.
Qed.

(** X9.  A raw write followed by a raw read of the same range returns the
    data written; this holds for every offset and length, also where the
    8-bit cursor wraps. *)
Theorem raw_write_then_read (offset len : Z) (data : list Z) (w : World PageStore) :
  0 <= len < 256 -> Z.of_nat (length data) = len ->
  fst (nt3h2111_write_raw P device offset len data w) = ESP_OK /\
  fst (nt3h2111_read_raw P device offset len
         (snd (nt3h2111_write_raw P device offset len data w)))
  = (ESP_OK, data).
Proof.
  intros Hl Hd.
  destruct (write_raw_then_read_raw yield xfer shl alloc device offset len data w) as [E1 E2].
  { rewrite u8_small; lia. }
  split; [exact E1|]. rewrite E2, u8_small by lia.
  rewrite firstn_all2 by lia. reflexivity.
Qed.

(** X10.  A raw write of a range that ends within the first 256 bytes
    returns [ESP_OK], puts the data into the range and changes no byte
    outside it, for every alignment: the bytes that share a page with the
    ends of the range survive the read-modify-write. *)
Theorem raw_write_exact (offset len : Z) (data : list Z) (w : World PageStore) :
  0 <= offset -> 0 <= len < 256 -> offset + len <= 256 ->
  len <= Z.of_nat (length data) ->
  fst (nt3h2111_write_raw P device offset len data w) = ESP_OK /\
  forall a, chip (snd (nt3h2111_write_raw P device offset len data w)) a =
    if (offset <=? a) && (a <? offset + len)
    then nth (Z.to_nat (a - offset)) data 0
    else chip w a.
Proof.
  intros Ho Hl Hb Hd. split.
  - destruct (write_raw_ref yield xfer shl alloc device offset len data w) as (w' & E & _).
    { rewrite u8_small; lia. }
    rewrite E. reflexivity.
  - intros a. apply write_raw_first_256; assumption.
Qed.

Lemma read_user_any_ref offset len w :
  0 <= offset -> 0 <= len < 256 -> offset + len <= 240 ->
  fst (nt3h2111_read_user P device offset len w)
  = (ESP_OK, bytes_at (chip w) (16 + offset) (Z.to_nat len)).
Proof.
  intros Ho Hl Hb.
  destruct (Z.eq_dec len 0) as [->|NZ]; [reflexivity|].
  rewrite read_user_forwards by lia.
  apply read_raw_first_256; lia.
Qed.

(** X11.  In the first 240 bytes of the user region a write followed by a
    read of the same range returns the data written, and the write changes
    nothing outside the range: the device header in page 0 and the
    neighbouring user bytes keep their values. *)
Theorem user_write_then_read (offset len : Z) (data : list Z) (w : World PageStore) :
  0 <= offset -> 0 <= len -> offset + len <= 240 ->
  Z.of_nat (length data) = len ->
  let w' := snd (nt3h2111_write_user P device offset len data w) in
  fst (nt3h2111_write_user P device offset len data w) = ESP_OK /\
  fst (nt3h2111_read_user P device offset len w') = (ESP_OK, data) /\
  forall a, ~ (16 + offset <= a < 16 + offset + len) -> chip w' a = chip w a.
Proof.
  intros Ho Hl Hb Hd. cbv zeta.
  destruct (Z.eq_dec len 0) as [Z0|NZ].
  { subst len. destruct data; [|discriminate]. repeat split. }
  destruct (write_user_any_ref yield xfer shl alloc device offset len data w)
    as (w' & E & L); [lia | lia | lia | lia |].
  rewrite E. cbn [fst snd]. split; [reflexivity|].
  rewrite (u8_small (16 + offset)) in L by lia.
  assert (L' : forall a, chip w' a =
                if (16 + offset <=? a) && (a <? 16 + offset + len)
                then nth (Z.to_nat (a - (16 + offset))) data 0 else chip w a).
  { intros a. rewrite L.
    rewrite in_window_interval by lia.
    destruct ((16 + offset <=? a) && (a <? 16 + offset + len)) eqn:Ew; [|reflexivity].
    apply andb_prop in Ew. destruct Ew as [E1 E2].
    apply Z.leb_le in E1. apply Z.ltb_lt in E2.
    f_equal. f_equal. apply Z.mod_small. lia. }
  split.
  - rewrite read_user_any_ref by lia. f_equal.
    apply (nth_ext _ _ 0 0).
    + rewrite bytes_at_length. lia.
    + intros i Hi. rewrite bytes_at_length in Hi.
      rewrite nth_bytes_at by exact Hi. rewrite L'.
      replace ((16 + offset <=? 16 + offset + Z.of_nat i)
               && (16 + offset + Z.of_nat i <? 16 + offset + len)) with true.
      * f_equal. lia.
      * symmetry. apply andb_true_intro. split; [apply Z.leb_le | apply Z.ltb_lt]; lia.
  - intros a Ha. rewrite L'.
    destruct (Z.leb_spec (16 + offset) a); destruct (Z.ltb_spec a (16 + offset + len));
      cbn [andb]; try reflexivity; lia.
Qed.

(** X12.  The SRAM functions pass the raw offset [248*16 + offset] to the
    translator, which takes it modulo 256, that is as [128 + offset]: a write
    to the SRAM region returns [ESP_OK], a read of the same range returns the
    data written, and the bytes that change are the raw bytes from
    [128 + offset] on; no other byte changes, none from raw offset 3968 on. *)
Theorem sram_lives_at_raw_128 (offset len : Z) (data : list Z) (w : World PageStore) :
  0 <= offset -> 0 < len -> offset + len <= 64 ->
  Z.of_nat (length data) = len ->
  let w' := snd (nt3h2111_write_sram P device offset len data w) in
  fst (nt3h2111_write_sram P device offset len data w) = ESP_OK /\
  fst (nt3h2111_read_sram P device offset len w') = (ESP_OK, data) /\
  forall a, chip w' a =
    if (128 + offset <=? a) && (a <? 128 + offset + len)
    then nth (Z.to_nat (a - (128 + offset))) data 0
    else chip w a.
Proof.
  intros Ho Hl Hb Hd. cbn zeta.
  assert (Hz : (u8 len =? 0) = false) by (apply nonzero_len; lia).
  assert (Ew : forall v, nt3h2111_write_sram P device offset len data v
                         = nt3h2111_write_raw P device (128 + offset) len data v).
  { intros v. unfold nt3h2111_write_sram, NT3H2111_SRAM_LEN.
    rewrite Hz, (u8_small offset), (u8_small len) by lia.
    replace (offset + len >? 64) with false
      by (symmetry; rewrite Z.gtb_ltb; apply Z.ltb_ge; lia).
    rewrite (proj2 (raw_offset_is_8_bit P device (248 * 16 + offset) len data v)).
    f_equal. euclid. }
  assert (Er : forall v, nt3h2111_read_sram P device offset len v
                         = nt3h2111_read_raw P device (128 + offset) len v).
  { intros v. unfold nt3h2111_read_sram, NT3H2111_SRAM_LEN.
    rewrite Hz, (u8_small offset), (u8_small len) by lia.
    replace (offset + len >? 64) with false
      by (symmetry; rewrite Z.gtb_ltb; apply Z.ltb_ge; lia).
    rewrite (proj1 (raw_offset_is_8_bit P device (248 * 16 + offset) len data v)).
    f_equal. euclid. }
  rewrite Er, !Ew.
  destruct (write_raw_then_read_raw yield xfer shl alloc device (128 + offset) len data w)
    as [E1 E2].
  { rewrite u8_small; lia. }
  split; [exact E1|]. split.
  - rewrite E2, u8_small by lia. rewrite firstn_all2 by lia. reflexivity.
  - intros a. apply write_raw_first_256; lia.
Qed.

End FirstPages.

Lemma read_raw_exact_witness :
  fst (nt3h2111_read_raw bench demo_device 30 5 (boot page_tags 0))
  = (ESP_OK, [1; 1; 2; 2; 2]).
Proof.
  apply (read_raw_exact 1%positive 400%N (fun _ _ => 0) zeroed demo_device 30 5
           (boot page_tags 0)); lia.
Defined.

Lemma raw_write_then_read_witness :
  fst (nt3h2111_read_raw bench demo_device 250 10
         (snd (nt3h2111_write_raw bench demo_device 250 10 [1; 2; 3; 4; 5; 6; 7; 8; 9; 10]
                 (boot page_tags 0))))
  = (ESP_OK, [1; 2; 3; 4; 5; 6; 7; 8; 9; 10]).
Proof.
  apply (raw_write_then_read 1%positive 400%N (fun _ _ => 0) zeroed demo_device 250 10
           [1; 2; 3; 4; 5; 6; 7; 8; 9; 10] (boot page_tags 0)); [lia | reflexivity].
Defined.

Lemma raw_write_exact_witness :
  let w' := snd (nt3h2111_write_raw bench demo_device 30 5 [7; 7; 7; 7; 7] (boot page_tags 0)) in
  chip w' 29 = 1 /\ chip w' 30 = 7 /\ chip w' 34 = 7 /\ chip w' 35 = 2.
Proof.
  cbn zeta.
  destruct (raw_write_exact 1%positive 400%N (fun _ _ => 0) zeroed demo_device 30 5
              [7; 7; 7; 7; 7] (boot page_tags 0)) as [_ L]; try lia; [cbn; lia|].
  rewrite !L. repeat split.
Defined.

Lemma user_write_then_read_witness :
  let w' := snd (nt3h2111_write_user bench demo_device 3 20 (repeat 9 20) (boot page_tags 0)) in
  fst (nt3h2111_read_user bench demo_device 3 20 w') = (ESP_OK, repeat 9 20) /\
  chip w' 15 = 0 /\ chip w' 18 = 1.
Proof.
  cbn zeta.
  destruct (user_write_then_read 1%positive 400%N (fun _ _ => 0) zeroed demo_device 3 20
              (repeat 9 20) (boot page_tags 0)) as (_ & R & L); try lia; [reflexivity|].
  split; [exact R|]. rewrite !L by lia. split; reflexivity.
Defined.

Lemma sram_lives_at_raw_128_witness :
  let w' := snd (nt3h2111_write_sram bench demo_device 2 3 [7; 8; 9] (boot page_tags 0)) in
  fst (nt3h2111_read_sram bench demo_device 2 3 w') = (ESP_OK, [7; 8; 9]) /\
  bytes_at (chip w') 129 5 = [8; 7; 8; 9; 8] /\
  bytes_at (chip w') 3970 3 = [248; 248; 248].
Proof.
  cbn zeta.
  destruct (sram_lives_at_raw_128 1%positive 400%N (fun _ _ => 0) zeroed demo_device 2 3
              [7; 8; 9] (boot page_tags 0)) as (_ & R & L); try lia; [reflexivity|].
  split; [exact R|].
  split; unfold bytes_at; cbn [map seq]; rewrite !L; reflexivity.
Defined.

(** ** The NDEF codec on the page store *)

Section Codec.

Variable yield : positive.
Variable xfer : N.
Variable shl : Z -> Z -> Z.
Variable alloc : Z -> option (list Z).
Variable device : NT3H2111.

Local Abbreviation P := (reference yield xfer shl alloc).

(** X13.  For a payload of up to 237 bytes the encoder returns [ESP_OK] and
    lays down the short envelope at the start of the user region: the magic
    byte 3 at raw offset 16, the length at 17, the payload from 18 on, the
    terminator 254 right after it; every other byte of the chip keeps its
    value. *)
Theorem set_ndef_short_envelope (payload : list Z) (w : World PageStore) :
  Z.of_nat (length payload) <= 237 ->
  let len := Z.of_nat (length payload) in
  let w' := snd (nt3h2111_set_ndef P device len payload w) in
  fst (nt3h2111_set_ndef P device len payload w) = ESP_OK /\
  bytes_at (chip w') 16 (2 + length payload + 1) = [3; len] ++ payload ++ [254] /\
  forall a, ~ (16 <= a <= 18 + len) -> chip w' a = chip w a.
Proof.
  intros Hlen. cbn zeta.
  destruct (set_ndef_short_layout yield xfer shl alloc device payload w Hlen) as (w' & E & L).
  rewrite E. cbn [fst snd]. split; [reflexivity|]. split.
  - apply (nth_ext _ _ 0 0).
    + rewrite bytes_at_length. cbn [length app]. rewrite length_app. cbn [length]. lia.
    + intros i Hi. rewrite bytes_at_length in Hi.
      rewrite nth_bytes_at by exact Hi. rewrite L.
      destruct i as [|[|i]]; [reflexivity | reflexivity |].
      replace (16 + Z.of_nat (S (S i)) =? 16) with false by (symmetry; apply Z.eqb_neq; lia).
      replace (16 + Z.of_nat (S (S i)) =? 17) with false by (symmetry; apply Z.eqb_neq; lia).
      cbn [app nth].
      destruct (Nat.lt_ge_cases i (length payload)) as [Lt|Ge].
      * replace ((18 <=? 16 + Z.of_nat (S (S i)))
                 && (16 + Z.of_nat (S (S i)) <? 18 + Z.of_nat (length payload))) with true
          by (symmetry; apply andb_true_intro; split; [apply Z.leb_le | apply Z.ltb_lt]; lia).
        rewrite app_nth1 by exact Lt. f_equal. lia.
      * replace ((18 <=? 16 + Z.of_nat (S (S i)))
                 && (16 + Z.of_nat (S (S i)) <? 18 + Z.of_nat (length payload))) with false
          by (symmetry; apply andb_false_intro2; apply Z.ltb_ge; lia).
        replace (16 + Z.of_nat (S (S i)) =? 18 + Z.of_nat (length payload)) with true
          by (symmetry; apply Z.eqb_eq; lia).
        rewrite app_nth2 by exact Ge.
        replace (i - length payload)%nat with O by lia. reflexivity.
  - intros a Ha. rewrite L.
    replace (a =? 16) with false by (symmetry; apply Z.eqb_neq; lia).
    replace (a =? 17) with false by (symmetry; apply Z.eqb_neq; lia).
    replace (a =? 18 + Z.of_nat (length payload)) with false
      by (symmetry; apply Z.eqb_neq; lia).
    replace ((18 <=? a) && (a <? 18 + Z.of_nat (length payload))) with false; [reflexivity|].
    symmetry. destruct (Z.leb_spec 18 a); [|reflexivity]. apply Z.ltb_ge. lia.
Qed.

(** X14.  The decoder reads a short envelope off the chip, whoever wrote it:
    with the magic byte 3 at raw offset 16, a length of up to 237 at 17 and
    an allocator that delivers a block of that length, it returns [ESP_OK],
    the length, and the bytes from raw offset 18 on. *)
Theorem get_ndef_reads_short_envelope (payload buf : list Z) (w : World PageStore) :
  Z.of_nat (length payload) <= 237 ->
  alloc (Z.of_nat (length payload)) = Some buf -> length buf = length payload ->
  bytes_at (chip w) 16 (2 + length payload)
  = [3; Z.of_nat (length payload)] ++ payload ->
  fst (nt3h2111_get_ndef P device w) = (ESP_OK, Some (Z.of_nat (length payload), payload)).
Proof.
  intros Hlen Ha Hb Hs.
  assert (Hn : forall i, (i < 2 + length payload)%nat ->
                 chip w (16 + Z.of_nat i)
                 = nth i ([3; Z.of_nat (length payload)] ++ payload) 0).
  { intros i Hi. rewrite <- Hs. rewrite nth_bytes_at by exact Hi. reflexivity. }
  apply (get_ndef_short yield xfer shl alloc device payload buf w); try assumption.
  - apply (Hn 0%nat). lia.
  - apply (Hn 1%nat). lia.
  - intros i Hi. replace (18 + Z.of_nat i) with (16 + Z.of_nat (S (S i))) by lia.
    rewrite Hn by lia. reflexivity.
Qed.

(** X15.  Round trip: a payload of up to 237 bytes that the encoder has
    written comes back from the decoder unchanged and with its length,
    provided the allocator delivers a block of that length. *)
Theorem ndef_round_trip (payload buf : list Z) (w : World PageStore) :
  Z.of_nat (length payload) <= 237 ->
  alloc (Z.of_nat (length payload)) = Some buf -> length buf = length payload ->
  let len := Z.of_nat (length payload) in
  fst (nt3h2111_set_ndef P device len payload w) = ESP_OK /\
  fst (nt3h2111_get_ndef P device (snd (nt3h2111_set_ndef P device len payload w)))
  = (ESP_OK, Some (len, payload)).
Proof.
  intros Hlen Ha Hb. cbn zeta.
  apply (ndef_round_trip_short yield xfer shl alloc device payload buf w); assumption.
Qed.

(** X16.  On the page store the encoder succeeds exactly for the lengths
    below 880: from 880 on it returns [ESP_ERR_NO_MEM] and does not touch the
    bus, below it returns [ESP_OK]. *)
Theorem set_ndef_accepts_below_880 (len : Z) (payload : list Z) (w : World PageStore) :
  0 <= len < 4294967296 ->
  fst (nt3h2111_set_ndef P device len payload w)
  = (if len >=? 880 then ESP_ERR_NO_MEM else ESP_OK) /\
  (880 <= len -> snd (nt3h2111_set_ndef P device len payload w) = w).
Proof.
  intros Hl. unfold nt3h2111_set_ndef, NT3H2111_USERDATA_LEN.
  assert (Es : size_t len = len) by (unfold size_t, u32; apply Z.mod_small; lia).
  rewrite Es. change (884 - 4) with 880.
  destruct (Z.geb_spec len 880) as [G|G]; [split; reflexivity|].
  split; [|lia].
  destruct (len >=? 255).
  - destruct (write_user_ref yield xfer shl alloc device 0 4
                [3; 255; u8 (Z.shiftr len 8); u8 len] w) as (w1 & E1 & _);
      [lia | lia | lia | cbn; lia |].
    rewrite bind_eq, E1. cbn [fst snd ESP_OK Z.eqb negb]. apply set_ndef_body_ok.
  - destruct (write_user_ref yield xfer shl alloc device 0 2 [3; u8 len; 0; 0] w)
      as (w1 & E1 & _); [lia | lia | lia | cbn; lia |].
    rewrite bind_eq, E1. cbn [fst snd ESP_OK Z.eqb negb]. apply set_ndef_body_ok.
Qed.

(** X17.  Without the magic byte 3 at raw offset 16 the decoder returns
    [ESP_ERR_NOT_FOUND] and hands out no buffer; it has read page 1 once and
    left the chip as it was. *)
Theorem get_ndef_needs_magic (w : World PageStore) :
  chip w 16 <> 3 ->
  let r := nt3h2111_get_ndef P device w in
  fst r = (ESP_ERR_NOT_FOUND, None) /\ chip (snd r) = chip w /\
  exists t t', trace (snd r) = BusRead 1 t t' :: trace w.
Proof.
  intros H. cbn zeta. unfold nt3h2111_get_ndef. rewrite bind_eq.
  rewrite read_page_eq. cbn zeta. cbn [i2c_read_reg reference fst snd].
  change (u8 1) with 1. unfold store_read.
  rewrite nth_bytes_at by lia. change (16 * 1 + Z.of_nat 0) with 16.
  replace (chip w 16 =? 3) with false by (symmetry; apply Z.eqb_neq; exact H).
  cbn [negb ret fst snd chip trace]. split; [reflexivity|]. split; [reflexivity|].
  eexists _, _. reflexivity.
Qed.

(** X18.  With the magic byte in place and an allocator that returns a null
    pointer the decoder returns [ESP_ERR_NO_MEM] after the one read of
    page 1. *)
Theorem get_ndef_out_of_memory (w : World PageStore) :
  chip w 16 = 3 -> (forall n, alloc n = None) ->
  let r := nt3h2111_get_ndef P device w in
  fst r = (ESP_ERR_NO_MEM, None) /\ chip (snd r) = chip w /\
  exists t t', trace (snd r) = BusRead 1 t t' :: trace w.
Proof.
  intros H Hn. cbn zeta. unfold nt3h2111_get_ndef. rewrite bind_eq.
  rewrite read_page_eq. cbn zeta. cbn [i2c_read_reg reference fst snd].
  change (u8 1) with 1. unfold store_read.
  rewrite !nth_bytes_at by lia. change (16 * 1 + Z.of_nat 0) with 16.
  rewrite H. cbn [Z.eqb Pos.eqb negb].
  destruct (if _ =? 255 then _ else _) as [ndef_len off].
  cbn [malloc reference]. rewrite Hn.
  cbn [ret fst snd chip trace]. split; [reflexivity|]. split; [reflexivity|].
  eexists _, _. reflexivity.
Qed.

End Codec.

Lemma set_ndef_short_envelope_witness :
  let w' := snd (nt3h2111_set_ndef bench demo_device 3 [10; 20; 30] (boot page_tags 0)) in
  bytes_at (chip w') 16 6 = [3; 3; 10; 20; 30; 254] /\
  chip w' 15 = 0 /\ chip w' 22 = 1.
Proof.
  cbv zeta.
  assert (H : Z.of_nat (length [10; 20; 30]) <= 237) by (cbn; lia).
  destruct (set_ndef_short_envelope 1%positive 400%N (fun _ _ => 0) zeroed demo_device
              [10; 20; 30] (boot page_tags 0) H) as (_ & E & L).
  split; [exact E|].
  split; (rewrite L; [reflexivity | cbn; lia]).
Defined.

Lemma get_ndef_reads_short_envelope_witness :
  fst (nt3h2111_get_ndef bench demo_device
         (boot (fun a => nth (Z.to_nat a) (repeat 0 16 ++ [3; 2; 65; 66; 254]) 0) 0))
  = (ESP_OK, Some (2, [65; 66])).
Proof.
  assert (H : Z.of_nat (length [65; 66]) <= 237) by (cbn; lia).
  exact (get_ndef_reads_short_envelope 1%positive 400%N (fun _ _ => 0) zeroed demo_device
           [65; 66] [0; 0]
           (boot (fun a => nth (Z.to_nat a) (repeat 0 16 ++ [3; 2; 65; 66; 254]) 0) 0)
           H eq_refl eq_refl eq_refl).
Defined.

Lemma ndef_round_trip_witness :
  fst (nt3h2111_get_ndef bench demo_device
         (snd (nt3h2111_set_ndef bench demo_device 3 [10; 20; 30] (boot blank 0))))
  = (ESP_OK, Some (3, [10; 20; 30])).
Proof.
  assert (H : Z.of_nat (length [10; 20; 30]) <= 237) by (cbn; lia).
  exact (proj2 (ndef_round_trip 1%positive 400%N (fun _ _ => 0) zeroed demo_device
                  [10; 20; 30] [0; 0; 0] (boot blank 0) H eq_refl eq_refl)).
Defined.

Lemma set_ndef_accepts_below_880_witness :
  nt3h2111_set_ndef bench demo_device 880 (repeat 170 880) (boot blank 0)
  = (ESP_ERR_NO_MEM, boot blank 0) /\
  fst (nt3h2111_set_ndef bench demo_device 879 (repeat 170 879) (boot blank 0)) = ESP_OK.
Proof.
  assert (H1 : 0 <= 880 < 4294967296) by lia.
  assert (H2 : 0 <= 879 < 4294967296) by lia.
  destruct (set_ndef_accepts_below_880 1%positive 400%N (fun _ _ => 0) zeroed demo_device
              880 (repeat 170 880) (boot blank 0) H1) as [E1 E2].
  destruct (set_ndef_accepts_below_880 1%positive 400%N (fun _ _ => 0) zeroed demo_device
              879 (repeat 170 879) (boot blank 0) H2) as [E3 _].
  split; [|exact E3].
  rewrite (surjective_pairing (nt3h2111_set_ndef bench demo_device 880 _ _)).
  assert (H3 : 880 <= 880) by lia.
  exact (f_equal2 pair E1 (E2 H3)).
Defined.

Lemma get_ndef_needs_magic_witness :
  fst (nt3h2111_get_ndef bench demo_device (boot blank 0)) = (ESP_ERR_NOT_FOUND, None).
Proof.
  assert (H : chip (boot blank 0) 16 <> 3) by (vm_compute; discriminate).
  exact (proj1 (get_ndef_needs_magic 1%positive 400%N (fun _ _ => 0) zeroed demo_device
                  (boot blank 0) H)).
Defined.

Lemma get_ndef_out_of_memory_witness :
  fst (nt3h2111_get_ndef (reference 1%positive 400%N (fun _ _ => 0) (fun _ => None)) demo_device
         (boot (fun a => if a =? 16 then 3 else 0) 0))
  = (ESP_ERR_NO_MEM, None).
Proof.
  exact (proj1 (get_ndef_out_of_memory 1%positive 400%N (fun _ _ => 0) (fun _ => None)
                  demo_device (boot (fun a => if a =? 16 then 3 else 0) 0)
                  eq_refl (fun n => eq_refl))).
Defined.

(** ** The capability container *)

Lemma land_shifted_zero a b k :
  0 <= k -> 0 <= a < 2 ^ k -> Z.land a (b * 2 ^ k) = 0.
Proof.
  intros Hk Ha. apply Z.bits_inj'. intros n Hn.
  rewrite Z.land_spec, Z.bits_0.
  destruct (Z.lt_ge_cases n k) as [L|G].
  - rewrite Z.mul_pow2_bits_low by exact L. apply andb_false_r.
  - rewrite <- (Z.mod_small a (2 ^ k)) by exact Ha.
    rewrite Z.mod_pow2_bits_high by lia. reflexivity.
Qed.

Lemma lor_shifted a b k :
  0 <= k -> 0 <= a < 2 ^ k -> Z.lor a (Z.shiftl b k) = a + b * 2 ^ k.
Proof.
  intros Hk Ha. rewrite Z.shiftl_mul_pow2 by exact Hk.
  pose proof (land_shifted_zero a b k Hk Ha) as H.
  rewrite <- Z.lxor_lor by exact H. symmetry. apply Z.add_nocarry_lxor. exact H.
Qed.

Lemma u32_lor_s32 a y :
  0 <= a < 4294967296 -> 0 <= y < 4294967296 ->
  u32 (Z.lor a (s32 y)) = Z.lor a y.
Proof.
  intros Ha Hy. unfold u32.
  change 4294967296 with (2 ^ 32).
  rewrite <- !Z.land_ones by lia.
  rewrite Z.land_lor_distr_l, !Z.land_ones by lia.
  f_equal.
  - apply Z.mod_small. exact Ha.
  - unfold s32. change (2 ^ 32) with 4294967296.
    Z.to_euclidean_division_equations. lia.
Qed.

(** One turn of the reader's loop below the width of [int]. *)
Lemma read_uint_turn {B} (P : Platform B) out b k :
  0 <= k -> k + 8 <= 32 -> 0 <= out < 2 ^ k -> 0 <= b < 256 ->
  u32 (Z.lor out (int_shl P b k)) = out + b * 2 ^ k.
Proof.
  intros Hk Hk' Ho Hb. unfold int_shl.
  replace (k <? 32) with true by (symmetry; apply Z.ltb_lt; lia).
  assert (Hp : 2 ^ k * 256 <= 4294967296).
  { change 256 with (2 ^ 8). rewrite <- Z.pow_add_r by lia.
    change 4294967296 with (2 ^ 32). apply Z.pow_le_mono_r; lia. }
  assert (H2 : 0 < 2 ^ k) by (apply Z.pow_pos_nonneg; lia).
  rewrite u32_lor_s32.
  - apply lor_shifted; assumption.
  - nia.
  - rewrite Z.shiftl_mul_pow2 by exact Hk. nia.
Qed.

Lemma read_uint32_le32 {B} (P : Platform B) (ptr : list Z) :
  (forall i, (i < 4)%nat -> 0 <= nth i ptr 0 < 256) ->
  read_uint32 P ptr = le32 ptr.
Proof.
  intros H.
  pose proof (H 0%nat ltac:(lia)) as H0. pose proof (H 1%nat ltac:(lia)) as H1.
  pose proof (H 2%nat ltac:(lia)) as H2. pose proof (H 3%nat ltac:(lia)) as H3.
  unfold read_uint32, read_uint, le32.
  change (Z.to_nat (32 / 8)) with 4%nat. cbn [read_uint_loop].
  change (Z.to_nat 0) with 0%nat. change (Z.to_nat (0 + 1)) with 1%nat.
  change (Z.to_nat (0 + 1 + 1)) with 2%nat. change (Z.to_nat (0 + 1 + 1 + 1)) with 3%nat.
  change (0 * 8) with 0. change ((0 + 1) * 8) with 8.
  change ((0 + 1 + 1) * 8) with 16. change ((0 + 1 + 1 + 1) * 8) with 24.
  rewrite (read_uint_turn P 0 (nth 0 ptr 0) 0) by (cbn; lia).
  rewrite (read_uint_turn P _ (nth 1 ptr 0) 8) by (cbn; lia).
  rewrite (read_uint_turn P _ (nth 2 ptr 0) 16) by (cbn; lia).
  rewrite (read_uint_turn P _ (nth 3 ptr 0) 24) by (cbn; lia).
  cbn. lia.
Qed.

Lemma write_uint32_bytes x :
  write_uint32 x
  = [u32 x mod 256; u32 x / 256 mod 256; u32 x / 65536 mod 256; u32 x / 16777216 mod 256].
Proof.
  unfold write_uint32. change (Z.to_nat (32 / 8)) with 4%nat. cbn [write_uint_loop].
  change (0 * 8) with 0. change ((0 + 1) * 8) with 8.
  change ((0 + 1 + 1) * 8) with 16. change ((0 + 1 + 1 + 1) * 8) with 24.
  rewrite !Z.shiftr_div_pow2 by lia. unfold u8.
  change (2 ^ 0) with 1. change (2 ^ 8) with 256.
  change (2 ^ 16) with 65536. change (2 ^ 24) with 16777216.
  rewrite Z.div_1_r. reflexivity.
Qed.

Lemma write_uint32_range x : forall i, (i < 4)%nat -> 0 <= nth i (write_uint32 x) 0 < 256.
Proof.
  intros i Hi. rewrite write_uint32_bytes.
  do 4 (destruct i as [|i]; [cbn [nth]; apply Z.mod_pos_bound; lia|]). lia.
Qed.

Lemma read_uint32_write_uint32 {B} (P : Platform B) x :
  read_uint32 P (write_uint32 x) = u32 x.
Proof.
  rewrite read_uint32_le32 by apply write_uint32_range.
  rewrite write_uint32_bytes. unfold le32. cbn [nth].
  pose proof (Z.mod_pos_bound x 4294967296 ltac:(lia)) as Hx. fold (u32 x) in Hx.
  change (2 ^ 8) with 256. change (2 ^ 16) with 65536. change (2 ^ 24) with 16777216.
  generalize dependent (u32 x). intros y Hy.
  Z.to_euclidean_division_equations. lia.
Qed.

(** X19.  The 32-bit reader and writer of the driver are the little-endian
    code: the writer yields four bytes, the reader returns the little-endian
    number of four bytes, and reading what was written gives the value back
    modulo 2^32. *)
Theorem uint32_little_endian {B} (P : Platform B) (x : Z) (ptr : list Z) :
  (Forall (fun b => 0 <= b < 256) (write_uint32 x) /\ length (write_uint32 x) = 4%nat /\
   read_uint32 P (write_uint32 x) = u32 x) /\
  ((forall i, (i < 4)%nat -> 0 <= nth i ptr 0 < 256) -> read_uint32 P ptr = le32 ptr).
Proof.
  split; [|apply read_uint32_le32].
  split; [|split; [rewrite write_uint32_bytes; reflexivity | apply read_uint32_write_uint32]].
  rewrite write_uint32_bytes. repeat constructor; apply Z.mod_pos_bound; lia.
Qed.

Section Container.

Variable yield : positive.
Variable xfer : N.
Variable shl : Z -> Z -> Z.
Variable alloc : Z -> option (list Z).
Variable device : NT3H2111.

Local Abbreviation P := (reference yield xfer shl alloc).

(** X20.  On a chip that holds bytes the capability container comes back as
    the little-endian number of the four bytes at raw offsets 12..15, and the
    chip is left as it was. *)
Theorem get_cc_little_endian (w : World PageStore) :
  bytes_only (chip w) ->
  fst (nt3h2111_get_cc P device w) = (ESP_OK, Some (le32 (bytes_at (chip w) 12 4))) /\
  chip (snd (nt3h2111_get_cc P device w)) = chip w.
Proof.
  intros Hb. unfold nt3h2111_get_cc. rewrite bind_eq.
  destruct (read_raw_ref yield xfer shl alloc device 12 4 w) as (w' & E & C).
  rewrite E. cbn [fst snd ESP_OK Z.eqb ret]. split; [|exact C].
  change (u8 12) with 12. change (Z.to_nat (u8 4)) with 4%nat.
  rewrite bytes_at_wrapped_small by (cbn; lia).
  assert (Hr : forall i, (i < 4)%nat -> 0 <= nth i (bytes_at (chip w) 12 4) 0 < 256).
  { intros i Hi. rewrite nth_bytes_at by exact Hi. apply Hb. }
  rewrite read_uint32_le32 by exact Hr.
  f_equal. f_equal. unfold u32. apply Z.mod_small.
  pose proof (Hr 0%nat ltac:(lia)). pose proof (Hr 1%nat ltac:(lia)).
  pose proof (Hr 2%nat ltac:(lia)). pose proof (Hr 3%nat ltac:(lia)).
  unfold le32. change (2 ^ 8) with 256. change (2 ^ 16) with 65536.
  change (2 ^ 24) with 16777216. lia.
Qed.

(** X21.  Setting the capability container and getting it returns the value
    set, modulo 2^32; setting it changes the four bytes at raw offsets 12..15
    and no other byte, so the serial number before them and the user data
    after them stay. *)
Theorem set_cc_then_get_cc (cc : Z) (w : World PageStore) :
  let w' := snd (nt3h2111_set_cc P device cc w) in
  fst (nt3h2111_set_cc P device cc w) = ESP_OK /\
  fst (nt3h2111_get_cc P device w') = (ESP_OK, Some (u32 cc)) /\
  forall a, ~ (12 <= a < 16) -> chip w' a = chip w a.
Proof.
  cbn zeta. unfold nt3h2111_set_cc.
  destruct (write_raw_then_read_raw yield xfer shl alloc device 12 4 (write_uint32 cc) w)
    as [E1 E2].
  { rewrite write_uint32_bytes. cbn. lia. }
  split; [exact E1|]. split.
  - unfold nt3h2111_get_cc. rewrite bind_eq, E2. cbn [fst snd ESP_OK Z.eqb ret].
    f_equal. f_equal.
    change (Z.to_nat (u8 4)) with 4%nat.
    rewrite firstn_all2 by (rewrite write_uint32_bytes; cbn; lia).
    rewrite read_uint32_write_uint32. unfold u32.
    apply Z.mod_small. apply Z.mod_pos_bound. lia.
  - intros a Ha.
    rewrite (write_raw_first_256 yield xfer shl alloc device 12 4 (write_uint32 cc) w a);
      try lia; [|rewrite write_uint32_bytes; cbn; lia].
    destruct (Z.leb_spec 12 a); destruct (Z.ltb_spec a (12 + 4)); cbn [andb];
      try reflexivity; lia.
Qed.

End Container.

Lemma get_cc_little_endian_witness :
  fst (nt3h2111_get_cc bench demo_device (boot (fun a => a mod 256) 0))
  = (ESP_OK, Some 252579084).
Proof.
  assert (H : bytes_only (chip (boot (fun a => a mod 256) 0)))
    by (intros a; apply Z.mod_pos_bound; lia).
  exact (proj1 (get_cc_little_endian 1%positive 400%N (fun _ _ => 0) zeroed demo_device
                  (boot (fun a => a mod 256) 0) H)).
Defined.

(** ** Where a region access goes *)

Lemma first_transfer_run {B} (w w1 w2 : World B) page r wr :
  first_transfer_on w w1 page -> bus_run w1 w2 r wr -> first_transfer_on w w2 page.
Proof.
  intros (es & e & E & Hp) (es' & E' & _).
  exists (es' ++ es), e. rewrite E', E, app_assoc. split; [reflexivity | exact Hp].
Qed.

Section FirstTransfer.

Context {B : Type}.
Variable P : Platform B.
Variable device : NT3H2111.

Lemma read_page_first page w :
  first_transfer_on w (snd (nt3h2111_read_page P device page w)) (u8 page).
Proof.
  rewrite read_page_eq. cbv zeta. cbn [snd].
  exists [], (BusRead (u8 page) (commit_time P w) (commit_time P w + Z.of_N (xfer_us P))).
  split; reflexivity.
Qed.

Lemma write_page_first page data w :
  first_transfer_on w (snd (nt3h2111_write_page P device page data w)) (u8 page).
Proof.
  rewrite write_page_eq. cbv zeta. cbn [snd].
  exists [], (BusWrite (u8 page) (firstn 16 data) (commit_time P w)
                (commit_time P w + Z.of_N (xfer_us P))).
  split; reflexivity.
Qed.

(** *** Reads *)

Lemma read_head_first c w :
  (c_offset c mod 16 = 0 -> read_head P device c w = (Next c, w)) /\
  (c_offset c mod 16 <> 0 ->
     first_transfer_on w (snd (read_head P device c w)) (u8 (c_offset c / 16)) /\
     forall c', fst (read_head P device c w) = Next c' -> 0 <= c_len c' < 256).
Proof.
  unfold read_head. rewrite land_15.
  destruct (Z.eqb_spec (c_offset c mod 16) 0) as [E|E]; split; intros H; try contradiction.
  - reflexivity.
  - rewrite bind_eq.
    pose proof (read_page_first (c_offset c / 16) w) as F.
    destruct (fst (nt3h2111_read_page P device (c_offset c / 16) w)) as [res tmp].
    destruct (res =? 0); cbn [negb ret fst snd].
    + split; [exact F|]. intros c' Ec. injection Ec as <-. cbn [c_len]. apply u8_range.
    + split; [exact F|]. intros c' Ec. discriminate.
Qed.

Lemma read_rest_run fuel c w :
  0 <= c_len c < 256 ->
  exists r wr,
    bus_run w (snd (and_then (read_pages P fuel device c) (read_tail P device) w)) r wr.
Proof.
  intros Hl. rewrite and_then_eq.
  destruct (read_pages_run P device fuel c w Hl) as (R & _ & _).
  remember (read_pages P fuel device c w) as r2 eqn:E2.
  destruct r2 as [[res|c2] w2]; cbn [fst snd] in *.
  - exists (c_len c / 16), 0. exact R.
  - destruct (read_tail_run P device c2 w2) as [R3 _].
    exists (c_len c / 16 + 1), (0 + 0).
    exact (bus_run_trans w w2 _ _ _ _ _ _ _ R R3 (Z.le_refl _) (Z.le_refl _)).
Qed.

Lemma read_rest_first fuel c w :
  0 < c_len c < 256 ->
  first_transfer_on w
    (snd (and_then (read_pages P (S fuel) device c) (read_tail P device) w))
    (u8 (c_offset c / 16)).
Proof.
  intros Hl. rewrite and_then_eq, read_pages_S.
  pose proof (read_page_first (c_offset c / 16) w) as F.
  destruct (c_len c >=? 16).
  - cbv zeta.
    remember (nt3h2111_read_page P device (c_offset c / 16) w) as r eqn:E.
    destruct r as [[res page] w1]. cbn [fst snd] in *.
    destruct (res =? 0); cbn [negb fst snd].
    + destruct (read_rest_run fuel
                  (mkCursor (u8 (c_offset c + 16)) (u8 (c_len c - 16)) (c_data c ++ page)) w1)
        as (r & wr & R); [cbn [c_len]; apply u8_range|].
      rewrite and_then_eq in R.
      exact (first_transfer_run _ _ _ _ _ _ F R).
    + exact F.
  - cbn [fst snd]. unfold read_tail.
    replace (c_len c =? 0) with false by (symmetry; apply Z.eqb_neq; lia).
    rewrite bind_eq.
    destruct (fst (nt3h2111_read_page P device (c_offset c / 16) w)) as [res tmp].
    destruct (res =? 0); cbn [negb ret snd]; exact F.
Qed.

(** A raw read that has anything to do starts on the page of its offset taken
    modulo 256. *)
Lemma read_raw_first offset len w :
  u8 len <> 0 ->
  first_transfer_on w (snd (nt3h2111_read_raw P device offset len w)) (u8 offset / 16).
Proof.
  intros Hn. pose proof (u8_range len) as Hl.
  rewrite read_raw_eq. cbv zeta.
  assert (H : forall r, r = and_then (read_head P device (mkCursor (u8 offset) (u8 len) []))
                (fun c => and_then (read_pages P page_loop_fuel device c) (read_tail P device)) w ->
              first_transfer_on w (snd r) (u8 offset / 16)).
  { intros r ->. rewrite and_then_eq.
    destruct (read_head_first (mkCursor (u8 offset) (u8 len) []) w) as [A M].
    cbn [c_offset] in A, M. rewrite (page_of_offset offset) in M.
    destruct (Z.eq_dec (u8 offset mod 16) 0) as [E|E].
    - rewrite (A E). cbn [fst snd].
      change page_loop_fuel with (S 15).
      rewrite <- (page_of_offset offset).
      apply (read_rest_first 15 (mkCursor (u8 offset) (u8 len) []) w).
      cbn [c_len]. lia.
    - destruct (M E) as [F N].
      remember (read_head P device (mkCursor (u8 offset) (u8 len) []) w) as r1 eqn:E1.
      destruct r1 as [[res|c1] w1]; cbn [fst snd] in *.
      + exact F.
      + destruct (read_rest_run page_loop_fuel c1 w1 (N c1 eq_refl)) as (r & wr & R).
        exact (first_transfer_run _ _ _ _ _ _ F R). }
  specialize (H _ eq_refl).
  destruct (fst _); exact H.
Qed.

(** *** Writes *)

Lemma write_head_first c w :
  (c_offset c mod 16 = 0 -> write_head P device c w = (Next c, w)) /\
  (c_offset c mod 16 <> 0 ->
     first_transfer_on w (snd (write_head P device c w)) (u8 (c_offset c / 16)) /\
     forall c', fst (write_head P device c w) = Next c' -> 0 <= c_len c' < 256).
Proof.
  unfold write_head. rewrite land_15.
  destruct (Z.eqb_spec (c_offset c mod 16) 0) as [E|E]; split; intros H; try contradiction.
  - reflexivity.
  - rewrite bind_eq.
    pose proof (read_page_first (c_offset c / 16) w) as F.
    set (w1 := snd (nt3h2111_read_page P device (c_offset c / 16) w)) in *.
    destruct (fst (nt3h2111_read_page P device (c_offset c / 16) w)) as [res tmp].
    destruct (res =? 0); cbn [negb].
    + rewrite bind_eq.
      match goal with |- context [nt3h2111_write_page P device ?p ?d w1] =>
        pose proof (write_page_run P device p d w1) as R;
        set (r := nt3h2111_write_page P device p d w1) in *
      end.
      pose proof (first_transfer_run _ _ _ _ _ _ F R) as F2.
      destruct (fst r =? 0); cbn [negb ret fst snd].
      * split; [exact F2|]. intros c' Ec. injection Ec as <-. cbn [c_len]. apply u8_range.
      * split; [exact F2|]. intros c' Ec. discriminate.
    + cbn [ret fst snd]. split; [exact F|]. intros c' Ec. discriminate.
Qed.

Lemma write_rest_run fuel c w :
  0 <= c_len c < 256 ->
  exists r wr,
    bus_run w (snd (and_then (write_pages P fuel device c) (write_tail P device) w)) r wr.
Proof.
  intros Hl. rewrite and_then_eq.
  destruct (write_pages_run P device fuel c w Hl) as (R & _).
  remember (write_pages P fuel device c w) as r2 eqn:E2.
  destruct r2 as [[res|c2] w2]; cbn [fst snd] in *.
  - exists 0, (c_len c / 16). exact R.
  - pose proof (write_tail_run P device c2 w2) as R3.
    exists (0 + 1), (c_len c / 16 + 1).
    exact (bus_run_trans w w2 _ _ _ _ _ _ _ R R3 (Z.le_refl _) (Z.le_refl _)).
Qed.

Lemma write_rest_first fuel c w :
  0 < c_len c < 256 ->
  first_transfer_on w
    (snd (and_then (write_pages P (S fuel) device c) (write_tail P device) w))
    (u8 (c_offset c / 16)).
Proof.
  intros Hl. rewrite and_then_eq, write_pages_S.
  destruct (c_len c >=? 16).
  - cbv zeta.
    pose proof (write_page_first (c_offset c / 16) (c_data c) w) as F.
    remember (nt3h2111_write_page P device (c_offset c / 16) (c_data c) w) as r eqn:E.
    destruct r as [res w1]. cbn [fst snd] in *.
    destruct (res =? 0); cbn [negb fst snd].
    + destruct (write_rest_run fuel
                  (mkCursor (u8 (c_offset c + 16)) (u8 (c_len c - 16)) (skipn 16 (c_data c))) w1)
        as (r & wr & R); [cbn [c_len]; apply u8_range|].
      rewrite and_then_eq in R.
      exact (first_transfer_run _ _ _ _ _ _ F R).
    + exact F.
  - cbn [fst snd]. unfold write_tail.
    replace (c_len c =? 0) with false by (symmetry; apply Z.eqb_neq; lia).
    rewrite bind_eq.
    pose proof (read_page_first (c_offset c / 16) w) as F.
    set (w1 := snd (nt3h2111_read_page P device (c_offset c / 16) w)) in *.
    destruct (fst (nt3h2111_read_page P device (c_offset c / 16) w)) as [res tmp].
    destruct (res =? 0); cbn [negb].
    + rewrite bind_eq.
      match goal with |- context [nt3h2111_write_page P device ?p ?d w1] =>
        pose proof (write_page_run P device p d w1) as R;
        set (r := nt3h2111_write_page P device p d w1) in *
      end.
      pose proof (first_transfer_run _ _ _ _ _ _ F R) as F2.
      destruct (fst r =? 0); cbn [negb ret snd]; exact F2.
    + cbn [ret snd]. exact F.
Qed.

(** A raw write that has anything to do starts on the page of its offset
    taken modulo 256, with the read of that page when it is covered in part
    and with its write when it is covered whole. *)
Lemma write_raw_first offset len data w :
  u8 len <> 0 ->
  first_transfer_on w (snd (nt3h2111_write_raw P device offset len data w)) (u8 offset / 16).
Proof.
  intros Hn. pose proof (u8_range len) as Hl.
  rewrite write_raw_eq. cbv zeta.
  assert (H : forall r, r = and_then (write_head P device (mkCursor (u8 offset) (u8 len) data))
                (fun c => and_then (write_pages P page_loop_fuel device c) (write_tail P device)) w ->
              first_transfer_on w (snd r) (u8 offset / 16)).
  { intros r ->. rewrite and_then_eq.
    destruct (write_head_first (mkCursor (u8 offset) (u8 len) data) w) as [A M].
    cbn [c_offset] in A, M. rewrite (page_of_offset offset) in M.
    destruct (Z.eq_dec (u8 offset mod 16) 0) as [E|E].
    - rewrite (A E). cbn [fst snd].
      change page_loop_fuel with (S 15).
      rewrite <- (page_of_offset offset).
      apply (write_rest_first 15 (mkCursor (u8 offset) (u8 len) data) w).
      cbn [c_len]. lia.
    - destruct (M E) as [F N].
      remember (write_head P device (mkCursor (u8 offset) (u8 len) data) w) as r1 eqn:E1.
      destruct r1 as [[res|c1] w1]; cbn [fst snd] in *.
      + exact F.
      + destruct (write_rest_run page_loop_fuel c1 w1 (N c1 eq_refl)) as (r & wr & R).
        exact (first_transfer_run _ _ _ _ _ _ F R). }
  specialize (H _ eq_refl).
  destruct (fst _); exact H.
Qed.

(** *** The region functions *)

Lemma sram_page offset : 0 <= offset < 64 -> u8 (248 * 16 + offset) / 16 = 8 + offset / 16.
Proof. intros H. euclid. Qed.

(** C8, on the code.  The bounds half of the sentence holds: a user-data
    access of nonzero length that ends beyond byte 884, and an SRAM access of
    nonzero length that ends beyond byte 64, return [ESP_ERR_INVALID_ARG] with
    no bus transaction.  The forwarding half does not: whatever the transport
    does, an access within the bounds uses the bus, and its first transaction
    is on the page of the raw offset taken modulo 256, because the translator
    receives its offset as a [uint8_t].  A user-data access begins on page
    [(16 + offset) mod 256 / 16], which is page [(16 + offset) / 16] of the
    raw offset [16 + offset] only for offsets below 240; an SRAM access begins
    on page [8 + offset / 16], never on page [248 + offset / 16] of the raw
    offset [3968 + offset]. *)
Theorem region_access_starts_below_raw_256 (offset len : Z) (data : list Z) (w : World B) :
  0 < len < 256 -> 0 <= offset < 65536 ->
  (offset + len > 884 ->
     nt3h2111_read_user P device offset len w = ((ESP_ERR_INVALID_ARG, []), w) /\
     nt3h2111_write_user P device offset len data w = (ESP_ERR_INVALID_ARG, w)) /\
  (offset + len <= 884 ->
     first_transfer_on w (snd (nt3h2111_read_user P device offset len w))
       ((16 + offset) mod 256 / 16) /\
     first_transfer_on w (snd (nt3h2111_write_user P device offset len data w))
       ((16 + offset) mod 256 / 16) /\
     (240 <= offset -> (16 + offset) mod 256 / 16 < 16 <= (16 + offset) / 16)) /\
  (offset < 256 -> offset + len > 64 ->
     nt3h2111_read_sram P device offset len w = ((ESP_ERR_INVALID_ARG, []), w) /\
     nt3h2111_write_sram P device offset len data w = (ESP_ERR_INVALID_ARG, w)) /\
  (offset + len <= 64 ->
     first_transfer_on w (snd (nt3h2111_read_sram P device offset len w))
       (8 + offset / 16) /\
     first_transfer_on w (snd (nt3h2111_write_sram P device offset len data w))
       (8 + offset / 16) /\
     (3968 + offset) / 16 = 248 + offset / 16).
Proof.
  intros Hlen Hoff.
  pose proof (nonzero_len len Hlen) as Hz.
  assert (Hn : u8 len <> 0) by (rewrite u8_small; lia).
  split; [|split; [|split]].
  - intros Hb.
    exact (proj1 (proj1 (region_bounds_then_forward P device offset len data w Hlen) Hoff) Hb).
  - intros Hb.
    rewrite (read_user_forwards P device offset len w) by lia.
    rewrite (write_user_forwards P device offset len data w) by lia.
    split; [|split].
    + exact (read_raw_first (16 + offset) len w Hn).
    + exact (write_raw_first (16 + offset) len data w Hn).
    + intros H. euclid.
  - intros Ho Hb.
    exact (proj1 (proj2 (region_bounds_then_forward P device offset len data w Hlen)
                    (conj (proj1 Hoff) Ho)) Hb).
  - intros Hb.
    unfold nt3h2111_read_sram, nt3h2111_write_sram, NT3H2111_SRAM_LEN.
    rewrite Hz, (u8_small offset), (u8_small len) by lia.
    replace (offset + len >? 64) with false
      by (symmetry; rewrite Z.gtb_ltb; apply Z.ltb_ge; lia).
    rewrite <- (sram_page offset) by lia.
    split; [|split].
    + exact (read_raw_first (248 * 16 + offset) len w Hn).
    + exact (write_raw_first (248 * 16 + offset) len data w Hn).
    + euclid.
Qed.

End FirstTransfer.

(** At the SRAM offset 0 the claim's raw offset 3968 is on page 248 and the
    bus is used for page 8; the last byte of the user area, offset 883, is at
    raw offset 899 on page 56 and its write begins on page 8 as well. *)
Lemma region_access_starts_below_raw_256_witness :
  (first_transfer_on (boot page_tags 0)
     (snd (nt3h2111_read_sram bench demo_device 0 16 (boot page_tags 0))) 8 /\
   first_transfer_on (boot page_tags 0)
     (snd (nt3h2111_write_sram bench demo_device 0 16 (repeat 170 16) (boot page_tags 0))) 8 /\
   (3968 + 0) / 16 = 248) /\
  (first_transfer_on (boot page_tags 0)
     (snd (nt3h2111_write_user bench demo_device 883 1 [170] (boot page_tags 0))) 8 /\
   (16 + 883) / 16 = 56).
Proof.
  split.
  - assert (H1 : 0 < 16 < 256) by lia.
    assert (H2 : 0 <= 0 < 65536) by lia.
    assert (H3 : 0 + 16 <= 64) by lia.
    exact (proj2 (proj2 (proj2
             (region_access_starts_below_raw_256 bench demo_device 0 16 (repeat 170 16)
                (boot page_tags 0) H1 H2))) H3).
  - assert (H1 : 0 < 1 < 256) by lia.
    assert (H2 : 0 <= 883 < 65536) by lia.
    assert (H3 : 883 + 1 <= 884) by lia.
    split; [|reflexivity].
    exact (proj1 (proj2 (proj1 (proj2
             (region_access_starts_below_raw_256 bench demo_device 883 1 [170]
                (boot page_tags 0) H1 H2)) H3))).
Defined.

(** The same two accesses, run: the whole trace of each, and what the SRAM
    read returns from a store whose every byte holds the number of its page. *)
Example sram_access_runs_on_page_8 :
  fst (nt3h2111_read_sram bench demo_device 0 16 (boot page_tags 0))
  = (ESP_OK, repeat 8 16) /\
  trace (snd (nt3h2111_read_sram bench demo_device 0 16 (boot page_tags 0)))
  = [BusRead 8 5000 5400] /\
  bytes_at page_tags 3968 16 = repeat 248 16 /\
  trace (snd (nt3h2111_write_sram bench demo_device 0 16 (repeat 170 16) (boot page_tags 0)))
  = [BusWrite 8 (repeat 170 16) 5000 5400] /\
  trace (snd (nt3h2111_write_user bench demo_device 883 1 [170] (boot page_tags 0)))
  = [BusWrite 8 (repeat 8 3 ++ 170 :: repeat 8 12) 5400 5800; BusRead 8 5000 5400].
Proof. repeat split; vm_compute; reflexivity. Qed.
